(** * randomgen bit generators: the engine shell of [Philox] and [DSFMT]

    A shallow embedding of [randomgen/philox.pyx] (class [Philox]) and of the
    [DSFMT] class, with the seeding / state / jump / advance protocol the two
    classes implement around their C cores.

    - Python integers are [Z]; a value stored into a C field goes through the
      checked conversion Cython inserts ([OverflowError] outside the C type).
    - A method is a state-passing computation over the instance it is called
      on; an exception leaves the writes made before it in place.
    - The C cores ([philoxNxW_next64], [philoxNxW_advance], [dsfmt_jump], ...)
      and the helpers of [randomgen.entropy] are parameters.
    - [Philox.from_seed_seq] hands over to [BitGenerator.from_seed_seq] and
      [DSFMT.__dealloc__] returns the two C blocks to the allocator; neither
      is part of the model. *)

From Stdlib Require Import ZArith Lia Bool Ascii.
From stdpp Require Import base numbers option list strings pretty gmap.

Local Open Scope Z_scope.

(** ** Exceptions and methods *)

Inductive exn :=
  | ValueError | TypeError | KeyError | IndexError | OverflowError | AttributeError.

Inductive outcome (A : Type) :=
  | Ok (a : A)
  | Raise (e : exn).
Arguments Ok {A} a.
Arguments Raise {A} e.

(** A method body over an object of type [S]: it returns the object as the
    call leaves it, together with the value returned or the exception raised. *)
Definition Meth (S A : Type) : Type := S -> S * outcome A.

Definition ret {S A} (a : A) : Meth S A := fun s => (s, Ok a).
Definition raise {S A} (e : exn) : Meth S A := fun s => (s, Raise e).
Definition lift {S A} (r : outcome A) : Meth S A := fun s => (s, r).
Definition bind {S A B} (m : Meth S A) (k : A -> Meth S B) : Meth S B :=
  fun s => match m s with
           | (s', Ok a) => k a s'
           | (s', Raise e) => (s', Raise e)
           end.
Definition get {S} : Meth S S := fun s => (s, Ok s).
Definition modify {S} (f : S -> S) : Meth S unit := fun s => (f s, Ok tt).

Notation "x <- m ;; k" := (bind m (fun x => k))
  (at level 100, m at next level, right associativity).
Notation "m ;;; k" := (bind m (fun _ => k))
  (at level 100, right associativity).

(** [for i in l: body(i)] *)
Fixpoint for_each {S} (l : list nat) (body : nat -> Meth S unit) : Meth S unit :=
  match l with
  | [] => ret tt
  | i :: l' => body i ;;; for_each l' body
  end.

(** [for i in range(n): body(i)] *)
Definition for_range {S} (n : Z) (body : nat -> Meth S unit) : Meth S unit :=
  for_each (seq 0 (Z.to_nat n)) body.

(** Sequencing inside an expression (no object involved). *)
Definition obind {A B} (r : outcome A) (k : A -> outcome B) : outcome B :=
  match r with Ok a => k a | Raise e => Raise e end.

Fixpoint collect {A} (f : nat -> outcome A) (l : list nat) : outcome (list A) :=
  match l with
  | [] => Ok []
  | i :: l' => obind (f i) (fun a => obind (collect f l') (fun r => Ok (a :: r)))
  end.

(** ** C integer types *)

Definition in_range (bits v : Z) : bool := (0 <=? v) && (v <? 2 ^ bits).

(** A Python integer assigned to a [uint<bits>_t] lvalue. *)
Definition as_uint (bits v : Z) : outcome Z :=
  if in_range bits v then Ok v else Raise OverflowError.

Definition fits_int (v : Z) : bool := (- 2 ^ 31 <=? v) && (v <? 2 ^ 31).
Definition fits_intp (v : Z) : bool := (- 2 ^ 63 <=? v) && (v <? 2 ^ 63).

(** A Python integer assigned to an [int] lvalue, or passed for an [int]. *)
Definition as_int (v : Z) : outcome Z :=
  if fits_int v then Ok v else Raise OverflowError.

(** A Python integer passed for an [np.npy_intp] parameter. *)
Definition as_npy_intp (v : Z) : outcome Z :=
  if fits_intp v then Ok v else Raise OverflowError.

(** ** NumPy arrays of unsigned words *)

Inductive dtype := uint32 | uint64.

Definition itemsize (d : dtype) : Z :=
  match d with uint32 => 32 | uint64 => 64 end.

Record ndarray := mk_array { arr_dtype : dtype; arr_data : list Z }.

Definition getitem (a : ndarray) (i : nat) : outcome Z :=
  match arr_data a !! i with
  | Some v => Ok v
  | None => Raise IndexError
  end.

(** [list[i]] on a plain sequence of a state dictionary. *)
Definition item {A} (l : list A) (i : nat) : outcome A :=
  match l !! i with
  | Some v => Ok v
  | None => Raise IndexError
  end.

Fixpoint split32 (l : list Z) : list Z :=
  match l with
  | [] => []
  | x :: l' => Z.land x (Z.ones 32) :: Z.shiftr x 32 :: split32 l'
  end.

Fixpoint join32 (l : list Z) : option (list Z) :=
  match l with
  | [] => Some []
  | lo :: hi :: l' =>
      match join32 l' with
      | Some r => Some (Z.lor lo (Z.shiftl hi 32) :: r)
      | None => None
      end
  | _ => None
  end.

(** [a.view(d)] on a little-endian machine: the same bytes read at another
    item size; NumPy refuses a buffer that the wider item does not divide. *)
Definition view (d : dtype) (a : ndarray) : outcome ndarray :=
  match arr_dtype a, d with
  | uint32, uint32 | uint64, uint64 => Ok a
  | uint64, uint32 => Ok (mk_array uint32 (split32 (arr_data a)))
  | uint32, uint64 =>
      match join32 (arr_data a) with
      | Some l => Ok (mk_array uint64 l)
      | None => Raise ValueError
      end
  end.

(** ** Helpers of [randomgen.common] *)

(** A seed, counter or key argument: a Python integer or a sequence of them. *)
Inductive seed_like :=
  | SInt (z : Z)
  | SArr (l : list Z).

Fixpoint from_words (bits : Z) (l : list Z) : Z :=
  match l with
  | [] => 0
  | x :: l' => x + 2 ^ bits * from_words bits l'
  end.

Fixpoint to_words (uint_size : Z) (len : nat) (value : Z) : list Z :=
  match len with
  | O => []
  | S k => value mod 2 ^ uint_size :: to_words uint_size k (value / 2 ^ uint_size)
  end.

(** Modelled from the spec: [object_to_int] of [randomgen/common.pyx] is not
    among the sources.  Section 4.1: an integer or a word array is accepted,
    an array stands for the integer whose little-endian 64-bit words it lists,
    each element has to lie in [[0, 2^64)], and an input outside
    [[0, 2^bits)] raises [ValueError]; [None] is passed through. *)
Definition object_to_int (val : option seed_like) (bits : Z) : outcome (option Z) :=
  match val with
  | None => Ok None
  | Some (SInt z) => if in_range bits z then Ok (Some z) else Raise ValueError
  | Some (SArr l) =>
      if forallb (in_range 64) l && in_range bits (from_words 64 l)
      then Ok (Some (from_words 64 l)) else Raise ValueError
  end.

Definition dtype_of_size (uint_size : Z) : outcome dtype :=
  if uint_size =? 32 then Ok uint32
  else if uint_size =? 64 then Ok uint64
  else Raise ValueError.

(** Words needed for [value] when no size is requested (at least one). *)
Definition words_for (uint_size value : Z) : nat :=
  Z.to_nat (Z.max 1 (Z.log2 value / uint_size + 1)).

(** Modelled from the spec: [int_to_array] of [randomgen/common.pyx] is not
    among the sources.  Section 4.1: the integer is expanded to a
    little-endian array of fixed-width words,
    [value[i] = (n // 2^(width*i)) % 2^width], and a negative integer or one
    that does not fit [bits] raises [ValueError]. *)
Definition int_to_array (value : Z) (bits : option Z) (uint_size : Z) : outcome ndarray :=
  obind (dtype_of_size uint_size) (fun d =>
    match bits with
    | Some b =>
        if in_range b value
        then Ok (mk_array d (to_words uint_size (Z.to_nat (b / uint_size)) value))
        else Raise ValueError
    | None =>
        if 0 <=? value
        then Ok (mk_array d (to_words uint_size (words_for uint_size value) value))
        else Raise ValueError
    end).

(** Modelled from the spec: [wrap_int] of [randomgen/common.pyx] is not among
    the sources.  Section 4.4: the Euclidean remainder modulo [2^bits]. *)
Definition wrap_int (val bits : Z) : Z := val mod 2 ^ bits.

(** Modelled from the spec: [check_state_array] of [randomgen/common.pyx] is
    not among the sources.  Sections 4.2 and 6: the array must have the
    required length and every element must lie in [[0, 2^bits)]; anything
    else raises [ValueError]. *)
Definition check_state_array (arr : list Z) (required_len required_bits : Z)
  : outcome (list Z) :=
  if (Z.of_nat (length arr) =? required_len) && forallb (in_range required_bits) arr
  then Ok arr else Raise ValueError.

(** An argument that may or may not be a [dict]. *)
Inductive pyobj (D : Type) :=
  | PyDict (d : D)
  | PyOther.
Arguments PyDict {D} d.
Arguments PyOther {D}.

(** [x is not None] *)
Definition given {A} (o : option A) : bool :=
  match o with Some _ => true | None => false end.

(** [d[k]]: a missing key raises [KeyError]. *)
Definition subscript {A} (o : option A) : outcome A :=
  match o with Some a => Ok a | None => Raise KeyError end.

(** ** Objects on the heap

    Instances live at addresses; a method called on an address runs its body
    on the instance stored there and writes the instance back. *)

Definition on {O A} (l : positive) (m : Meth O A) : Meth (gmap positive O) A :=
  fun h => match h !! l with
           | Some o => (<[l := (m o).1]> h, (m o).2)
           | None => (h, Raise AttributeError)
           end.

(** Allocation of a zero-filled instance ([tp_new]). *)
Definition new {O} (o : O) : Meth (gmap positive O) positive :=
  fun h => (<[fresh (dom h) := o]> h, Ok (fresh (dom h))).

(** ** Python strings *)

(** [s.replace(old, new)] for a non-empty [old]: the occurrences of [old] are
    replaced from left to right, the scan resuming after each of them.
    [skip] counts the characters of the current occurrence still to pass. *)
Fixpoint str_replace_from (old new : string) (skip : nat) (s : string) : string :=
  match s with
  | EmptyString => EmptyString
  | String c s' =>
      match skip with
      | S k => str_replace_from old new k s'
      | O =>
          if String.prefix old s
          then new +:+ str_replace_from old new (String.length old - 1) s'
          else String c (str_replace_from old new 0 s')
      end
  end.

Definition str_replace (old new s : string) : string := str_replace_from old new 0 s.

(** [str(i)] of an integer. *)
Definition str (i : Z) : string := pretty i.

(** * Philox *)

Module Philox.

Definition PHILOX_BUFFER_SIZE : Z := 4.

(** ** The state block ([philox_all_t])

    [state] is a union of the four layouts [state2x32], [state4x32],
    [state2x64] and [state4x64], each a counter of [number] words and a key
    of [number/2] words.  The members overlay one another; the model keeps
    the words of the member in use in one counter and one key array of the
    largest capacity (4 and 2).  [buffer] holds [PHILOX_BUFFER_SIZE] cells,
    each a union of a [u64] and a [u32] (its low half). *)
Record philox_state_t := mk_state { ctr : list Z; key : list Z }.

Record philox_all_t := mk_all {
  state : philox_state_t;
  buffer_pos : Z;
  buffer : list Z;
  has_uint32 : Z;
  uinteger : Z;
  number : Z;
  width : Z
}.

Inductive member := state2x32 | state4x32 | state2x64 | state4x64.

Definition word_bits (m : member) : Z :=
  match m with
  | state2x32 | state4x32 => 32
  | state2x64 | state4x64 => 64
  end.

(** ** The functions of philox.h, as the class binds to them *)
Record philox_h := {
  philox2x64_next64 : philox_all_t -> Z * philox_all_t;
  philox2x64_next32 : philox_all_t -> Z * philox_all_t;
  philox2x64_next_double : philox_all_t -> Z * philox_all_t;
  philox4x64_next64 : philox_all_t -> Z * philox_all_t;
  philox4x64_next32 : philox_all_t -> Z * philox_all_t;
  philox4x64_next_double : philox_all_t -> Z * philox_all_t;
  philox4x32_next64 : philox_all_t -> Z * philox_all_t;
  philox4x32_next32 : philox_all_t -> Z * philox_all_t;
  philox4x32_next_double : philox_all_t -> Z * philox_all_t;
  philox2x32_next64 : philox_all_t -> Z * philox_all_t;
  philox2x32_next32 : philox_all_t -> Z * philox_all_t;
  philox2x32_next_double : philox_all_t -> Z * philox_all_t;
  philox2x32_advance : philox_all_t -> list Z -> bool -> philox_all_t;
  philox4x32_advance : philox_all_t -> list Z -> bool -> philox_all_t;
  philox2x64_advance : philox_all_t -> list Z -> bool -> philox_all_t;
  philox4x64_advance : philox_all_t -> list Z -> bool -> philox_all_t
}.

(** ** The function-pointer table ([bitgen_t])

    The targets are the [cdef] wrappers at the top of philox.pyx. *)
Inductive uint64_fn :=
  | NULL_uint64
  | philox2x64_uint64 | philox4x64_uint64 | philox4x32_uint64 | philox2x32_uint64
  | philox4x32_raw | philox2x32_raw.

Inductive uint32_fn :=
  | NULL_uint32
  | philox2x64_uint32 | philox4x64_uint32 | philox4x32_uint32 | philox2x32_uint32.

Inductive double_fn :=
  | NULL_double
  | philox2x64_double | philox4x64_double | philox4x32_double | philox2x32_double.

Record bitgen_t := mk_bitgen {
  next_uint64 : uint64_fn;
  next_uint32 : uint32_fn;
  next_double : double_fn;
  next_raw : uint64_fn
}.

(** ** The instance: [rng_state], [n], [w] and the table of [BitGenerator] *)
Record Philox := mk_Philox {
  rng_state : philox_all_t;
  n : Z;
  w : Z;
  _bitgen : bitgen_t
}.

(** A freshly allocated instance: Cython zero-fills the object. *)
Definition blank : Philox :=
  {| rng_state := {| state := {| ctr := [0; 0; 0; 0]; key := [0; 0] |};
                     buffer_pos := 0; buffer := [0; 0; 0; 0];
                     has_uint32 := 0; uinteger := 0; number := 0; width := 0 |};
     n := 0; w := 0;
     _bitgen := {| next_uint64 := NULL_uint64; next_uint32 := NULL_uint32;
                   next_double := NULL_double; next_raw := NULL_uint64 |} |}.

(** Field assignments. *)
Definition set_rng (f : philox_all_t -> philox_all_t) (p : Philox) : Philox :=
  {| rng_state := f (rng_state p); n := n p; w := w p; _bitgen := _bitgen p |}.
Definition set_n (v : Z) (p : Philox) : Philox :=
  {| rng_state := rng_state p; n := v; w := w p; _bitgen := _bitgen p |}.
Definition set_w (v : Z) (p : Philox) : Philox :=
  {| rng_state := rng_state p; n := n p; w := v; _bitgen := _bitgen p |}.
Definition set_bitgen (b : bitgen_t) (p : Philox) : Philox :=
  {| rng_state := rng_state p; n := n p; w := w p; _bitgen := b |}.

Definition set_ctr (f : list Z -> list Z) (s : philox_all_t) : philox_all_t :=
  {| state := {| ctr := f (ctr (state s)); key := key (state s) |};
     buffer_pos := buffer_pos s; buffer := buffer s; has_uint32 := has_uint32 s;
     uinteger := uinteger s; number := number s; width := width s |}.
Definition set_key (f : list Z -> list Z) (s : philox_all_t) : philox_all_t :=
  {| state := {| ctr := ctr (state s); key := f (key (state s)) |};
     buffer_pos := buffer_pos s; buffer := buffer s; has_uint32 := has_uint32 s;
     uinteger := uinteger s; number := number s; width := width s |}.
Definition set_buffer (f : list Z -> list Z) (s : philox_all_t) : philox_all_t :=
  {| state := state s; buffer_pos := buffer_pos s; buffer := f (buffer s);
     has_uint32 := has_uint32 s; uinteger := uinteger s;
     number := number s; width := width s |}.
Definition set_buffer_pos (v : Z) (s : philox_all_t) : philox_all_t :=
  {| state := state s; buffer_pos := v; buffer := buffer s;
     has_uint32 := has_uint32 s; uinteger := uinteger s;
     number := number s; width := width s |}.
Definition set_has_uint32 (v : Z) (s : philox_all_t) : philox_all_t :=
  {| state := state s; buffer_pos := buffer_pos s; buffer := buffer s;
     has_uint32 := v; uinteger := uinteger s;
     number := number s; width := width s |}.
Definition set_uinteger (v : Z) (s : philox_all_t) : philox_all_t :=
  {| state := state s; buffer_pos := buffer_pos s; buffer := buffer s;
     has_uint32 := has_uint32 s; uinteger := v;
     number := number s; width := width s |}.
Definition set_number (v : Z) (s : philox_all_t) : philox_all_t :=
  {| state := state s; buffer_pos := buffer_pos s; buffer := buffer s;
     has_uint32 := has_uint32 s; uinteger := uinteger s;
     number := v; width := width s |}.
Definition set_width (v : Z) (s : philox_all_t) : philox_all_t :=
  {| state := state s; buffer_pos := buffer_pos s; buffer := buffer s;
     has_uint32 := has_uint32 s; uinteger := uinteger s;
     number := number s; width := v |}.

(** The member an [if]/[elif] chain of [seed], of the getter and of the key
    loop of the setter selects: the final [else] is [state4x64]. *)
Definition member_of (n w : Z) : member :=
  if (w =? 32) && (n =? 2) then state2x32
  else if (w =? 32) && (n =? 4) then state4x32
  else if (w =? 64) && (n =? 2) then state2x64
  else state4x64.

(** The member the counter loop of the setter selects: it branches on
    [w == 32] first and on [n == 2] inside. *)
Definition member_of_setter (n w : Z) : member :=
  if w =? 32 then (if n =? 2 then state2x32 else state4x32)
  else (if n =? 2 then state2x64 else state4x64).

(** [state.<m>.key.v[i] = v] and [state.<m>.ctr.v[i] = v].  An index past the
    capacity (possible only for [number] above 4) is a write out of bounds in
    C; the model drops it. *)
Definition store_key (m : member) (i : nat) (v : Z) : Meth Philox unit :=
  x <- lift (as_uint (word_bits m) v) ;;
  modify (set_rng (set_key (fun l => <[i := x]> l))).

Definition store_ctr (m : member) (i : nat) (v : Z) : Meth Philox unit :=
  x <- lift (as_uint (word_bits m) v) ;;
  modify (set_rng (set_ctr (fun l => <[i := x]> l))).

(** [buffer[i].u64 = v] and [buffer[i].u32 = v] (the low half of the cell). *)
Definition store_u64 (i : nat) (v : Z) : Meth Philox unit :=
  x <- lift (as_uint 64 v) ;;
  modify (set_rng (set_buffer (fun l => <[i := x]> l))).

Definition store_u32 (i : nat) (v : Z) : Meth Philox unit :=
  x <- lift (as_uint 32 v) ;;
  modify (set_rng (set_buffer (fun l =>
    <[i := Z.lor (Z.shiftl (Z.shiftr (l !!! i) 32) 32) x]> l))).

(** [buffer[i].u32] read. *)
Definition load_u32 (l : list Z) (i : nat) : Z := Z.land (l !!! i) (Z.ones 32).

(** ** [_setup_generator] *)
Definition _setup_generator : Meth Philox unit :=
  self <- get ;;
  if (n self =? 4) && (w self =? 64) then
    modify (set_bitgen {| next_uint64 := philox4x64_uint64; next_uint32 := philox4x64_uint32;
                          next_double := philox4x64_double; next_raw := philox4x64_uint64 |})
  else if (n self =? 2) && (w self =? 64) then
    modify (set_bitgen {| next_uint64 := philox2x64_uint64; next_uint32 := philox2x64_uint32;
                          next_double := philox2x64_double; next_raw := philox2x64_uint64 |})
  else if (n self =? 4) && (w self =? 32) then
    modify (set_bitgen {| next_uint64 := philox4x32_uint64; next_uint32 := philox4x32_uint32;
                          next_double := philox4x32_double; next_raw := philox4x32_raw |})
  else if (n self =? 2) && (w self =? 32) then
    modify (set_bitgen {| next_uint64 := philox2x32_uint64; next_uint32 := philox2x32_uint32;
                          next_double := philox2x32_double; next_raw := philox2x32_raw |})
  else ret tt.

(** ** [__repr__]

    [object_repr] is what [object.__repr__(self)] returns. *)
Definition __repr__ (object_repr : string) : Meth Philox string :=
  self <- get ;;
  let out := object_repr in
  let out := str_replace "Philox"%string
               (((("Philox ("%string +:+ str (n self)) +:+ "x"%string) +:+ str (w self))
                +:+ ")"%string) out in
  ret out.

(** ** [_reset_state_variables] *)
Definition _reset_state_variables : Meth Philox unit :=
  modify (set_rng (set_uinteger 0)) ;;;
  modify (set_rng (set_has_uint32 0)) ;;;
  modify (set_rng (set_buffer_pos PHILOX_BUFFER_SIZE)) ;;;
  for_range PHILOX_BUFFER_SIZE (fun i => store_u64 i 0).

(** ** The state dictionary

    Every key may be absent; the arrays are sequences of integers. *)
Record state_payload := mk_payload {
  d_counter : option (list Z);
  d_key : option (list Z)
}.

Record state_dict := mk_dict {
  d_bit_generator : option string;
  d_state : option state_payload;
  d_buffer : option (list Z);
  d_buffer_pos : option Z;
  d_has_uint32 : option Z;
  d_uinteger : option Z;
  d_number : option Z;
  d_width : option Z
}.

Section Methods.

(** The C core, and [seed_by_array] of [randomgen.entropy] (a [uint64] array
    of the requested length, computed from the seed words alone). *)
Variable C : philox_h.
Variable seed_by_array : list Z -> Z -> list Z.

(** ** [seed]

    [random_entropy] stands for what [randomgen.entropy.random_entropy]
    returns at this call (a [uint32] array read from the operating system). *)
Definition seed (random_entropy : Z -> list Z)
    (seed counter key : option seed_like) : Meth Philox unit :=
  self <- get ;;
  seed <- lift (object_to_int seed (n self * w self / 2)) ;;
  key <- lift (object_to_int key (n self / 2 * w self)) ;;
  counter <- lift (object_to_int counter (n self * w self)) ;;
  if given seed && given key then raise ValueError else
  let u32_size := (n self / 2) * (w self / 32) in
  _seed <- match key, seed with
           | Some key, _ => lift (int_to_array key (Some (n self / 2 * w self)) (w self))
           | None, Some seed =>
               seed <- lift (int_to_array seed None 64) ;;
               ret (mk_array uint64 (seed_by_array (arr_data seed) (Z.max (u32_size / 2) 1)))
           | None, None => ret (mk_array uint32 (random_entropy u32_size))
           end ;;
  let dtype := if w self =? 64 then uint64 else uint32 in
  _seed <- lift (view dtype _seed) ;;
  for_range (n self / 2) (fun i =>
    v <- lift (getitem _seed i) ;;
    store_key (member_of (n self) (w self)) i v) ;;;
  let counter := default 0 counter in
  counter <- lift (int_to_array counter (Some (n self * w self)) (w self)) ;;
  for_range (n self) (fun i =>
    v <- lift (getitem counter i) ;;
    store_ctr (member_of (n self) (w self)) i v) ;;;
  _reset_state_variables.

(** ** [__init__] *)
Definition __init__ (random_entropy : Z -> list Z)
    (seed_arg counter key : option seed_like) (number width : Z) : Meth Philox unit :=
  if negb ((number =? 2) || (number =? 4)) then raise ValueError else
  if negb ((width =? 32) || (width =? 64)) then raise ValueError else
  modify (set_n number) ;;;
  modify (set_w width) ;;;
  modify (set_rng (set_number number)) ;;;
  modify (set_rng (set_width width)) ;;;
  seed random_entropy seed_arg counter key ;;;
  _setup_generator.

(** ** [_seed_from_seq]

    [seed_seq] is an attribute of the Python object, next to the C fields.
    A [SeedSequence] is given by what [generate_state(n_words, np.uint64)]
    returns: an array of [n_words] 64-bit words. *)
Record SeedSequence := mk_seed_seq { generate_state : Z -> list Z }.

Record PhiloxObject := mk_object {
  seed_seq : option SeedSequence;
  cdata : Philox
}.

(** A method of the class run on the C fields of the object. *)
Definition on_cdata {A} (m : Meth Philox A) : Meth PhiloxObject A :=
  fun o => ({| seed_seq := seed_seq o; cdata := (m (cdata o)).1 |}, (m (cdata o)).2).

Definition _seed_from_seq (random_entropy : Z -> list Z)
    (seed_seq_arg : SeedSequence) (counter : option seed_like) : Meth PhiloxObject unit :=
  modify (fun o => {| seed_seq := Some seed_seq_arg; cdata := cdata o |}) ;;;
  self <- get ;;
  let seed_seq_size := Z.max (n (cdata self) * w (cdata self) / 128) 1 in
  ss <- lift (match seed_seq self with Some ss => Ok ss | None => Raise AttributeError end) ;;
  let state := generate_state ss seed_seq_size in
  on_cdata (seed random_entropy None counter (Some (SArr state))).

(** ** The [state] property: getter

    The arrays are NumPy arrays of [dtype]; an element assignment checks the
    value against the item type. *)
Definition state_get : Meth Philox state_dict :=
  self <- get ;;
  let st := rng_state self in
  let dtype := if w self =? 64 then uint64 else uint32 in
  if n self <? 0 then raise ValueError else
  ctr <- lift (collect (fun i => as_uint (itemsize dtype) (ctr (state st) !!! i))
                       (seq 0 (Z.to_nat (n self)))) ;;
  buffer <- lift (collect (fun i => as_uint (itemsize dtype)
                                      (if w self =? 64 then buffer st !!! i
                                       else load_u32 (buffer st) i))
                          (seq 0 (Z.to_nat (n self)))) ;;
  key <- lift (collect (fun i => as_uint (itemsize dtype) (key (state st) !!! i))
                       (seq 0 (Z.to_nat (n self / 2)))) ;;
  ret {| d_bit_generator := Some "Philox"%string;
         d_state := Some {| d_counter := Some ctr; d_key := Some key |};
         d_buffer := Some buffer;
         d_buffer_pos := Some (buffer_pos st);
         d_has_uint32 := Some (has_uint32 st);
         d_uinteger := Some (uinteger st);
         d_number := Some (number st);
         d_width := Some (width st) |}.

(** ** The [state] property: setter *)
Definition state_set (value : pyobj state_dict) : Meth Philox unit :=
  match value with
  | PyOther => raise TypeError
  | PyDict value =>
      let bitgen := default ""%string (d_bit_generator value) in
      if negb (bool_decide (bitgen = "Philox"%string)) then raise ValueError else
      (* Default for previous version *)
      number <- lift (as_int (default 4 (d_number value))) ;;
      modify (set_rng (set_number number)) ;;;
      modify (set_n number) ;;;
      width <- lift (as_int (default 64 (d_width value))) ;;
      modify (set_rng (set_width width)) ;;;
      modify (set_w width) ;;;
      _setup_generator ;;;
      self <- get ;;
      state <- lift (subscript (d_state value)) ;;
      ctr <- lift (obind (subscript (d_counter state))
                         (fun a => check_state_array a (n self) (w self))) ;;
      key <- lift (obind (subscript (d_key state))
                         (fun a => check_state_array a (n self / 2) (w self))) ;;
      buffer <- lift (obind (subscript (d_buffer value))
                            (fun a => check_state_array a (n self) (w self))) ;;
      (* Reset to make sure buffer is 0ed *)
      _reset_state_variables ;;;
      for_range (n self) (fun i =>
        if w self =? 32 then
          (b <- lift (item buffer i) ;; store_u32 i b) ;;;
          (c <- lift (item ctr i) ;; store_ctr (member_of_setter (n self) (w self)) i c)
        else
          (b <- lift (item buffer i) ;; store_u64 i b) ;;;
          (c <- lift (item ctr i) ;; store_ctr (member_of_setter (n self) (w self)) i c)) ;;;
      for_range (n self / 2) (fun i =>
        k <- lift (item key i) ;; store_key (member_of (n self) (w self)) i k) ;;;
      h <- lift (obind (subscript (d_has_uint32 value)) as_int) ;;
      modify (set_rng (set_has_uint32 h)) ;;;
      u <- lift (obind (subscript (d_uinteger value)) (as_uint 32)) ;;
      modify (set_rng (set_uinteger u)) ;;;
      bp <- lift (obind (subscript (d_buffer_pos value)) as_int) ;;
      modify (set_rng (set_buffer_pos bp))
  end.

(** ** [advance]

    [counter] is [None] when the flag is omitted (a [FutureWarning], and the
    flag is taken as [True]).  The method returns [self]. *)
Definition advance (delta : Z) (counter : option bool) : Meth Philox unit :=
  let counter := default true counter in
  if delta =? 0 then ret tt else
  self <- get ;;
  let delta := if counter then delta * n self else delta in
  let delta := wrap_int delta (n self * w self + n self / 2) in
  delta_a <- lift (int_to_array delta (Some ((n self + 1) * w self)) (w self)) ;;
  (if (n self =? 2) && (w self =? 32) then
     modify (set_rng (fun st => philox2x32_advance C st (arr_data delta_a) (negb counter)))
   else if (n self =? 4) && (w self =? 32) then
     modify (set_rng (fun st => philox4x32_advance C st (arr_data delta_a) (negb counter)))
   else if (n self =? 2) && (w self =? 64) then
     modify (set_rng (fun st => philox2x64_advance C st (arr_data delta_a) (negb counter)))
   else
     modify (set_rng (fun st => philox4x64_advance C st (arr_data delta_a) (negb counter)))) ;;;
  (* Reset uint32 so if needed is drawn from the advanced state *)
  modify (set_rng (set_uinteger 0)) ;;;
  modify (set_rng (set_has_uint32 0)) ;;;
  if counter then _reset_state_variables else ret tt.

(** ** [jump_inplace] and [jump]

    [jump] warns ([DeprecationWarning]) and returns [self]. *)
Definition jump_inplace (iter : Z) : Meth Philox unit :=
  self <- get ;;
  let step_size := (w self * n self) / 2 in
  advance (iter * 2 ^ step_size) (Some true).

Definition jump (iter : Z) : Meth Philox unit := jump_inplace iter.

(** ** [jumped]

    [self.__class__()] allocates an instance and runs [__init__] with the
    defaults, which seeds it from [random_entropy]. *)
Definition jumped (random_entropy : Z -> list Z) (self : positive) (iter : Z)
  : Meth (gmap positive Philox) positive :=
  iter <- lift (as_npy_intp iter) ;;
  bit_generator <- new blank ;;
  on bit_generator (__init__ random_entropy None None None 4 64) ;;;
  value <- on self state_get ;;
  on bit_generator (state_set (PyDict value)) ;;;
  on bit_generator (jump_inplace iter) ;;;
  ret bit_generator.

(** ** The output entry points

    A consumer calls through the table; the wrappers forward to the C core
    ([philoxNx32_raw] widens the 32-bit value). *)
Definition call_uint64 (f : uint64_fn) : option (philox_all_t -> Z * philox_all_t) :=
  match f with
  | NULL_uint64 => None
  | philox2x64_uint64 => Some (philox2x64_next64 C)
  | philox4x64_uint64 => Some (philox4x64_next64 C)
  | philox4x32_uint64 => Some (philox4x32_next64 C)
  | philox2x32_uint64 => Some (philox2x32_next64 C)
  | philox4x32_raw => Some (philox4x32_next32 C)
  | philox2x32_raw => Some (philox2x32_next32 C)
  end.

Definition call_uint32 (f : uint32_fn) : option (philox_all_t -> Z * philox_all_t) :=
  match f with
  | NULL_uint32 => None
  | philox2x64_uint32 => Some (philox2x64_next32 C)
  | philox4x64_uint32 => Some (philox4x64_next32 C)
  | philox4x32_uint32 => Some (philox4x32_next32 C)
  | philox2x32_uint32 => Some (philox2x32_next32 C)
  end.

Definition call_double (f : double_fn) : option (philox_all_t -> Z * philox_all_t) :=
  match f with
  | NULL_double => None
  | philox2x64_double => Some (philox2x64_next_double C)
  | philox4x64_double => Some (philox4x64_next_double C)
  | philox4x32_double => Some (philox4x32_next_double C)
  | philox2x32_double => Some (philox2x32_next_double C)
  end.

Inductive entry_point := e_next_raw | e_next_uint32 | e_next_uint64 | e_next_double.

Definition entry (e : entry_point) (b : bitgen_t)
  : option (philox_all_t -> Z * philox_all_t) :=
  match e with
  | e_next_raw => call_uint64 (next_raw b)
  | e_next_uint32 => call_uint32 (next_uint32 b)
  | e_next_uint64 => call_uint64 (next_uint64 b)
  | e_next_double => call_double (next_double b)
  end.

(** One output; [None] is a call through a null pointer. *)
Definition draw (e : entry_point) (p : Philox) : option (Z * Philox) :=
  match entry e (_bitgen p) with
  | Some f => Some ((f (rng_state p)).1, set_rng (fun st => (f st).2) p)
  | None => None
  end.

(** The outputs of a run of draws, in order. *)
Fixpoint draws (es : list entry_point) (p : Philox) : option (list Z * Philox) :=
  match es with
  | [] => Some ([], p)
  | e :: es' =>
      match draw e p with
      | Some (v, p') =>
          match draws es' p' with
          | Some (vs, p'') => Some (v :: vs, p'')
          | None => None
          end
      | None => None
      end
  end.

End Methods.

End Philox.

(** * DSFMT *)

Module DSFMT.

Definition DSFMT_N : Z := 191.
Definition DSFMT_N_PLUS_1 : Z := 192.
Definition DSFMT_N64 : Z := DSFMT_N * 2.

(** ** The state block

    [status] is an array of [DSFMT_N_PLUS_1] 128-bit cells; the class reads
    and writes a cell through its two [uint64] halves [u[0]] and [u[1]], so
    the model lists the halves in memory order: [status[i].u[j]] is word
    [2*i + j].  [state] and [buffered_uniforms] point to blocks the instance
    owns alone; doubles are kept as their 64-bit patterns. *)
Record dsfmt_t := mk_dsfmt { status : list Z; idx : Z }.

Record dsfmt_state := mk_state {
  state : dsfmt_t;
  has_uint32 : Z;
  uinteger : Z;
  buffered_uniforms : list Z;
  buffer_loc : Z
}.

(** ** The functions of dSFMT.h, as the class binds to them *)
Record dSFMT_h := {
  dsfmt_next_double : dsfmt_state -> Z * dsfmt_state;
  dsfmt_next64 : dsfmt_state -> Z * dsfmt_state;
  dsfmt_next32 : dsfmt_state -> Z * dsfmt_state;
  dsfmt_next_raw : dsfmt_state -> Z * dsfmt_state;
  dsfmt_init_gen_rand : dsfmt_t -> Z -> dsfmt_t;
  dsfmt_init_by_array : dsfmt_t -> list Z -> Z -> dsfmt_t;
  dsfmt_jump : dsfmt_state -> dsfmt_state
}.

Inductive fn := NULL | dsfmt_uint64 | dsfmt_uint32 | dsfmt_double | dsfmt_raw.

Record bitgen_t := mk_bitgen {
  next_uint64 : fn;
  next_uint32 : fn;
  next_double : fn;
  next_raw : fn
}.

Record DSFMT := mk_DSFMT {
  rng_state : dsfmt_state;
  _bitgen : bitgen_t
}.

(** A freshly allocated instance: zero-filled, both pointers null. *)
Definition blank : DSFMT :=
  {| rng_state := {| state := {| status := []; idx := 0 |};
                     has_uint32 := 0; uinteger := 0;
                     buffered_uniforms := []; buffer_loc := 0 |};
     _bitgen := {| next_uint64 := NULL; next_uint32 := NULL;
                   next_double := NULL; next_raw := NULL |} |}.

Definition set_rng (f : dsfmt_state -> dsfmt_state) (p : DSFMT) : DSFMT :=
  {| rng_state := f (rng_state p); _bitgen := _bitgen p |}.
Definition set_bitgen (b : bitgen_t) (p : DSFMT) : DSFMT :=
  {| rng_state := rng_state p; _bitgen := b |}.
Definition set_state (f : dsfmt_t -> dsfmt_t) (s : dsfmt_state) : dsfmt_state :=
  {| state := f (state s); has_uint32 := has_uint32 s; uinteger := uinteger s;
     buffered_uniforms := buffered_uniforms s; buffer_loc := buffer_loc s |}.
Definition set_status (f : list Z -> list Z) (t : dsfmt_t) : dsfmt_t :=
  {| status := f (status t); idx := idx t |}.
Definition set_idx (v : Z) (t : dsfmt_t) : dsfmt_t :=
  {| status := status t; idx := v |}.
Definition set_buffered_uniforms (f : list Z -> list Z) (s : dsfmt_state) : dsfmt_state :=
  {| state := state s; has_uint32 := has_uint32 s; uinteger := uinteger s;
     buffered_uniforms := f (buffered_uniforms s); buffer_loc := buffer_loc s |}.
Definition set_buffer_loc (v : Z) (s : dsfmt_state) : dsfmt_state :=
  {| state := state s; has_uint32 := has_uint32 s; uinteger := uinteger s;
     buffered_uniforms := buffered_uniforms s; buffer_loc := v |}.

(** ** The state dictionary *)
Record state_payload := mk_payload {
  d_state_state : option (list Z);
  d_idx : option Z
}.

Record state_dict := mk_dict {
  d_bit_generator : option string;
  d_state : option state_payload;
  d_buffer_loc : option Z;
  d_buffered_uniforms : option (list Z)
}.

Section Methods.

Variable C : dSFMT_h.

(** Modelled from the spec: [dsfmt_jump_n] of dSFMT.h is declared but its
    body is not among the sources.  Section 4.4: the precomputed polynomial
    jump ([dsfmt_jump]) is applied [count] times. *)
Definition dsfmt_jump_n (st : dsfmt_state) (count : Z) : dsfmt_state :=
  Nat.iter (Z.to_nat count) (dsfmt_jump C) st.

(** ** [_reset_state_variables] *)
Definition _reset_state_variables : Meth DSFMT unit :=
  modify (set_rng (set_buffer_loc DSFMT_N64)).

(** ** [seed]

    An integer goes through [operator.index]; a sequence makes it raise
    [TypeError], which the [except] clause turns into the array path (there
    the cast to [int64] must be safe and the sequence non-empty). *)
Definition seed (random_entropy : Z -> list Z) (seed : option seed_like)
  : Meth DSFMT unit :=
  match seed with
  | None =>
      let seed_arr := random_entropy (2 * DSFMT_N64) in
      modify (set_rng (set_state (fun t => dsfmt_init_by_array C t seed_arr (2 * DSFMT_N64))))
  | Some (SInt idx) =>
      if (idx >? 2 ^ 32 - 1) || (idx <? 0) then raise ValueError else
      modify (set_rng (set_state (fun t => dsfmt_init_gen_rand C t idx)))
  | Some (SArr obj) =>
      if negb (forallb fits_intp obj) || bool_decide (obj = []) then raise TypeError else
      if existsb (fun x => (x >? 2 ^ 32 - 1) || (x <? 0)) obj then raise ValueError else
      modify (set_rng (set_state (fun t =>
        dsfmt_init_by_array C t obj (Z.of_nat (length obj)))))
  end ;;;
  (* Clear the buffer *)
  _reset_state_variables.

(** ** [__init__]

    [mem] is the content of the block [PyArray_malloc_aligned] returns (not
    initialised); the buffer block is zero-filled. *)
Definition __init__ (mem : dsfmt_t) (random_entropy : Z -> list Z)
    (seed_arg : option seed_like) : Meth DSFMT unit :=
  modify (set_rng (set_state (fun _ => mem))) ;;;
  modify (set_rng (set_buffered_uniforms (fun _ => repeat 0 (Z.to_nat DSFMT_N64)))) ;;;
  modify (set_rng (set_buffer_loc DSFMT_N64)) ;;;
  seed random_entropy seed_arg ;;;
  modify (set_bitgen {| next_uint64 := dsfmt_uint64; next_uint32 := dsfmt_uint32;
                        next_double := dsfmt_double; next_raw := dsfmt_raw |}).

(** ** [jump_inplace], [jump]

    [dsfmt_jump_n] takes a C [int]. *)
Definition jump_inplace (iter : Z) : Meth DSFMT unit :=
  if iter <? 0 then raise ValueError else
  count <- lift (as_int iter) ;;
  modify (set_rng (fun st => dsfmt_jump_n st count)) ;;;
  (* Clear the buffer *)
  _reset_state_variables.

Definition jump (iter : Z) : Meth DSFMT unit :=
  iter <- lift (as_npy_intp iter) ;;
  jump_inplace iter.

(** ** The [state] property

    In both directions [loc] runs with the loops: it is [2*i + j] when the
    body executes. *)
Definition state_get : Meth DSFMT state_dict :=
  self <- get ;;
  let st := rng_state self in
  let state_arr :=
    flat_map (fun i => map (fun j => status (state st) !!! (2 * i + j)%nat)
                           (seq 0 2))
             (seq 0 (Z.to_nat DSFMT_N_PLUS_1)) in
  let buffered := map (fun i => buffered_uniforms st !!! i)
                      (seq 0 (Z.to_nat DSFMT_N64)) in
  ret {| d_bit_generator := Some "DSFMT"%string;
         d_state := Some {| d_state_state := Some state_arr;
                            d_idx := Some (idx (state st)) |};
         d_buffer_loc := Some (buffer_loc st);
         d_buffered_uniforms := Some buffered |}.

Definition state_set (value : pyobj state_dict) : Meth DSFMT unit :=
  match value with
  | PyOther => raise TypeError
  | PyDict value =>
      let bitgen := default ""%string (d_bit_generator value) in
      if negb (bool_decide (bitgen = "DSFMT"%string)) then raise ValueError else
      payload <- lift (subscript (d_state value)) ;;
      state_arr <- lift (obind (subscript (d_state_state payload))
                               (fun a => check_state_array a (2 * DSFMT_N_PLUS_1) 64)) ;;
      for_range DSFMT_N_PLUS_1 (fun i =>
        for_range 2 (fun j =>
          v <- lift (obind (item state_arr (2 * i + j)) (as_uint 64)) ;;
          modify (set_rng (set_state (set_status (fun l => <[(2 * i + j)%nat := v]> l)))))) ;;;
      payload <- lift (subscript (d_state value)) ;;
      i <- lift (obind (subscript (d_idx payload)) as_int) ;;
      modify (set_rng (set_state (set_idx i))) ;;;
      buffered <- lift (subscript (d_buffered_uniforms value)) ;;
      (* TODO: Check buffered_uniforms *)
      for_range DSFMT_N64 (fun i =>
        v <- lift (item buffered i) ;;
        modify (set_rng (set_buffered_uniforms (fun l => <[i := v]> l)))) ;;;
      loc <- lift (obind (subscript (d_buffer_loc value)) as_int) ;;
      modify (set_rng (set_buffer_loc loc))
  end.

(** ** [jumped] *)
Definition jumped (mem : dsfmt_t) (random_entropy : Z -> list Z)
    (self : positive) (iter : Z) : Meth (gmap positive DSFMT) positive :=
  iter <- lift (as_npy_intp iter) ;;
  bit_generator <- new blank ;;
  on bit_generator (__init__ mem random_entropy None) ;;;
  value <- on self state_get ;;
  on bit_generator (state_set (PyDict value)) ;;;
  on bit_generator (jump_inplace iter) ;;;
  ret bit_generator.

(** ** The output entry points *)
Definition call (f : fn) : option (dsfmt_state -> Z * dsfmt_state) :=
  match f with
  | NULL => None
  | dsfmt_uint64 => Some (dsfmt_next64 C)
  | dsfmt_uint32 => Some (dsfmt_next32 C)
  | dsfmt_double => Some (dsfmt_next_double C)
  | dsfmt_raw => Some (dsfmt_next_raw C)
  end.

Inductive entry_point := e_next_raw | e_next_uint32 | e_next_uint64 | e_next_double.

Definition entry (e : entry_point) (b : bitgen_t) : option (dsfmt_state -> Z * dsfmt_state) :=
  match e with
  | e_next_raw => call (next_raw b)
  | e_next_uint32 => call (next_uint32 b)
  | e_next_uint64 => call (next_uint64 b)
  | e_next_double => call (next_double b)
  end.

Definition draw (e : entry_point) (p : DSFMT) : option (Z * DSFMT) :=
  match entry e (_bitgen p) with
  | Some f => Some ((f (rng_state p)).1, set_rng (fun st => (f st).2) p)
  | None => None
  end.

Fixpoint draws (es : list entry_point) (p : DSFMT) : option (list Z * DSFMT) :=
  match es with
  | [] => Some ([], p)
  | e :: es' =>
      match draw e p with
      | Some (v, p') =>
          match draws es' p' with
          | Some (vs, p'') => Some (v :: vs, p'')
          | None => None
          end
      | None => None
      end
  end.

End Methods.

End DSFMT.

(** * Layout invariants and reachable states *)

(** ** Philox *)

(** What the C types and the buffer discipline of the core guarantee about a
    state block: the words of the member in use fit the word type, the buffer
    cells past [number] are zero and those of a 32-bit variant hold nothing in
    their high half, and the scalars fit their C types. *)
Record philox_layout (st : Philox.philox_all_t) : Prop := {
  lay_number : Philox.number st = 2 \/ Philox.number st = 4;
  lay_width : Philox.width st = 32 \/ Philox.width st = 64;
  lay_ctr_len : length (Philox.ctr (Philox.state st)) = 4%nat;
  lay_key_len : length (Philox.key (Philox.state st)) = 2%nat;
  lay_buf_len : length (Philox.buffer st) = 4%nat;
  lay_ctr : Forall (fun x => in_range (Philox.width st) x = true)
              (take (Z.to_nat (Philox.number st)) (Philox.ctr (Philox.state st)));
  lay_key : Forall (fun x => in_range (Philox.width st) x = true)
              (take (Z.to_nat (Philox.number st / 2)) (Philox.key (Philox.state st)));
  lay_buf : Forall (fun x => in_range (Philox.width st) x = true)
              (take (Z.to_nat (Philox.number st)) (Philox.buffer st));
  lay_buf_rest : Forall (fun x => x = 0)
                   (drop (Z.to_nat (Philox.number st)) (Philox.buffer st));
  lay_buffer_pos : fits_int (Philox.buffer_pos st) = true;
  lay_has_uint32 : fits_int (Philox.has_uint32 st) = true;
  lay_uinteger : in_range 32 (Philox.uinteger st) = true
}.

(** A function of the core keeps the layout of the variant it belongs to,
    and leaves [number] and [width] alone. *)
Definition philox_keeps (m : Philox.member) (f : Philox.philox_all_t -> Philox.philox_all_t) : Prop :=
  forall st, philox_layout st ->
    Philox.member_of (Philox.number st) (Philox.width st) = m ->
    philox_layout (f st) /\
    Philox.number (f st) = Philox.number st /\
    Philox.width (f st) = Philox.width st.

Record philox_h_ok (C : Philox.philox_h) : Prop := {
  ok_2x64_next64 : philox_keeps Philox.state2x64 (fun st => (Philox.philox2x64_next64 C st).2);
  ok_2x64_next32 : philox_keeps Philox.state2x64 (fun st => (Philox.philox2x64_next32 C st).2);
  ok_2x64_next_double : philox_keeps Philox.state2x64 (fun st => (Philox.philox2x64_next_double C st).2);
  ok_4x64_next64 : philox_keeps Philox.state4x64 (fun st => (Philox.philox4x64_next64 C st).2);
  ok_4x64_next32 : philox_keeps Philox.state4x64 (fun st => (Philox.philox4x64_next32 C st).2);
  ok_4x64_next_double : philox_keeps Philox.state4x64 (fun st => (Philox.philox4x64_next_double C st).2);
  ok_4x32_next64 : philox_keeps Philox.state4x32 (fun st => (Philox.philox4x32_next64 C st).2);
  ok_4x32_next32 : philox_keeps Philox.state4x32 (fun st => (Philox.philox4x32_next32 C st).2);
  ok_4x32_next_double : philox_keeps Philox.state4x32 (fun st => (Philox.philox4x32_next_double C st).2);
  ok_2x32_next64 : philox_keeps Philox.state2x32 (fun st => (Philox.philox2x32_next64 C st).2);
  ok_2x32_next32 : philox_keeps Philox.state2x32 (fun st => (Philox.philox2x32_next32 C st).2);
  ok_2x32_next_double : philox_keeps Philox.state2x32 (fun st => (Philox.philox2x32_next_double C st).2);
  ok_2x32_advance : forall step c, philox_keeps Philox.state2x32 (fun st => Philox.philox2x32_advance C st step c);
  ok_4x32_advance : forall step c, philox_keeps Philox.state4x32 (fun st => Philox.philox4x32_advance C st step c);
  ok_2x64_advance : forall step c, philox_keeps Philox.state2x64 (fun st => Philox.philox2x64_advance C st step c);
  ok_4x64_advance : forall step c, philox_keeps Philox.state4x64 (fun st => Philox.philox4x64_advance C st step c)
}.

(** The invariant of a constructed instance. *)
Record philox_inv (p : Philox.Philox) : Prop := {
  inv_layout : philox_layout (Philox.rng_state p);
  inv_n : Philox.number (Philox.rng_state p) = Philox.n p;
  inv_w : Philox.width (Philox.rng_state p) = Philox.w p;
  inv_table : Philox._setup_generator p = (p, Ok tt)
}.

(** The states an instance goes through: construction, then any sequence of
    [seed], [advance], [jump] and draws through the table (a call that raises
    leaves a state too). *)
Inductive philox_reachable (C : Philox.philox_h) (sba : list Z -> Z -> list Z)
  : Philox.Philox -> Prop :=
  | reach_init ent s c k number width p :
      Philox.__init__ sba ent s c k number width Philox.blank = (p, Ok tt) ->
      philox_reachable C sba p
  | reach_seed ent s c k p :
      philox_reachable C sba p ->
      philox_reachable C sba (Philox.seed sba ent s c k p).1
  | reach_advance delta c p :
      philox_reachable C sba p ->
      philox_reachable C sba (Philox.advance C delta c p).1
  | reach_jump iter p :
      philox_reachable C sba p ->
      philox_reachable C sba (Philox.jump C iter p).1
  | reach_draw e p v p' :
      philox_reachable C sba p ->
      Philox.draw C e p = Some (v, p') ->
      philox_reachable C sba p'.

(** [self.state = self.state] *)
Definition philox_roundtrip : Meth Philox.Philox unit :=
  value <- Philox.state_get ;;
  Philox.state_set (PyDict value).

(** An instance of a fixed configuration: layout, matching [n]/[w] on both
    sides of the C boundary, and a given table. *)
Definition philox_conf (N W : Z) (B : Philox.bitgen_t) (p : Philox.Philox) : Prop :=
  philox_layout (Philox.rng_state p) /\
  Philox.number (Philox.rng_state p) = N /\ Philox.width (Philox.rng_state p) = W /\
  Philox.n p = N /\ Philox.w p = W /\ Philox._bitgen p = B.

(** ** DSFMT *)

(** What the C types guarantee about the blocks of an instance. *)
Record dsfmt_t_layout (t : DSFMT.dsfmt_t) : Prop := {
  dlay_status_len : length (DSFMT.status t) = Z.to_nat (2 * DSFMT.DSFMT_N_PLUS_1);
  dlay_status : Forall (fun x => in_range 64 x = true) (DSFMT.status t);
  dlay_idx : fits_int (DSFMT.idx t) = true
}.

Record dsfmt_layout (st : DSFMT.dsfmt_state) : Prop := {
  dlay_state : dsfmt_t_layout (DSFMT.state st);
  dlay_buffered_len : length (DSFMT.buffered_uniforms st) = Z.to_nat DSFMT.DSFMT_N64;
  dlay_buffer_loc : fits_int (DSFMT.buffer_loc st) = true
}.

Record dSFMT_h_ok (C : DSFMT.dSFMT_h) : Prop := {
  ok_next_double : forall st, dsfmt_layout st -> dsfmt_layout (DSFMT.dsfmt_next_double C st).2;
  ok_next64 : forall st, dsfmt_layout st -> dsfmt_layout (DSFMT.dsfmt_next64 C st).2;
  ok_next32 : forall st, dsfmt_layout st -> dsfmt_layout (DSFMT.dsfmt_next32 C st).2;
  ok_next_raw : forall st, dsfmt_layout st -> dsfmt_layout (DSFMT.dsfmt_next_raw C st).2;
  ok_init_gen_rand : forall t s, dsfmt_t_layout t -> dsfmt_t_layout (DSFMT.dsfmt_init_gen_rand C t s);
  ok_init_by_array : forall t k len, dsfmt_t_layout t -> dsfmt_t_layout (DSFMT.dsfmt_init_by_array C t k len);
  ok_jump : forall st, dsfmt_layout st -> dsfmt_layout (DSFMT.dsfmt_jump C st)
}.

(** The states an instance goes through: construction over a block of the
    right type, then any sequence of [seed], [jump] and draws. *)
Inductive dsfmt_reachable (C : DSFMT.dSFMT_h) : DSFMT.DSFMT -> Prop :=
  | dreach_init mem ent s p :
      dsfmt_t_layout mem ->
      DSFMT.__init__ C mem ent s DSFMT.blank = (p, Ok tt) ->
      dsfmt_reachable C p
  | dreach_seed ent s p :
      dsfmt_reachable C p ->
      dsfmt_reachable C (DSFMT.seed C ent s p).1
  | dreach_jump iter p :
      dsfmt_reachable C p ->
      dsfmt_reachable C (DSFMT.jump C iter p).1
  | dreach_draw e p v p' :
      dsfmt_reachable C p ->
      DSFMT.draw C e p = Some (v, p') ->
      dsfmt_reachable C p'.

(** [self.state = self.state] *)
Definition dsfmt_roundtrip : Meth DSFMT.DSFMT unit :=
  value <- DSFMT.state_get ;;
  DSFMT.state_set (PyDict value).

(** The size of the state space [advance] reduces its argument by: counter
    values when the flag is set, draws otherwise. *)
Definition philox_state_space (N W : Z) (counter : bool) : Z :=
  if counter then 2 ^ (N * W) else 2 ^ (N * W + N / 2).

(** ** Concrete instances

    [Philox(key=5)], and the same instance after a state dictionary with a
    cached half word was set on it. *)
Definition philox_key5 : Philox.Philox :=
  (Philox.__init__ (fun _ _ => []) (fun _ => []) None None (Some (SInt 5)) 4 64 Philox.blank).1.

Definition half_cached_dict : Philox.state_dict :=
  {| Philox.d_bit_generator := Some "Philox"%string;
     Philox.d_state := Some {| Philox.d_counter := Some [0; 0; 0; 0];
                               Philox.d_key := Some [5; 0] |};
     Philox.d_buffer := Some [11; 12; 13; 14];
     Philox.d_buffer_pos := Some 2;
     Philox.d_has_uint32 := Some 1;
     Philox.d_uinteger := Some 7;
     Philox.d_number := Some 4;
     Philox.d_width := Some 64 |}.

Definition philox_half_cached : Philox.Philox :=
  (Philox.state_set (PyDict half_cached_dict) philox_key5).1.

(** The instance the setter produces on [b] from the snapshot of [p]: every
    field of [p], with the words of [b] left in the counter and key cells the
    variant of [p] does not use. *)
Definition philox_copy_onto (p b : Philox.Philox) : Philox.Philox :=
  let N := Z.to_nat (Philox.n p) in
  let st := Philox.rng_state p in
  {| Philox.rng_state :=
       {| Philox.state :=
            {| Philox.ctr := take N (Philox.ctr (Philox.state st))
                             ++ drop N (Philox.ctr (Philox.state (Philox.rng_state b)));
               Philox.key := take (Z.to_nat (Philox.n p / 2)) (Philox.key (Philox.state st))
                             ++ drop (Z.to_nat (Philox.n p / 2))
                                  (Philox.key (Philox.state (Philox.rng_state b))) |};
          Philox.buffer_pos := Philox.buffer_pos st;
          Philox.buffer := Philox.buffer st;
          Philox.has_uint32 := Philox.has_uint32 st;
          Philox.uinteger := Philox.uinteger st;
          Philox.number := Philox.number st;
          Philox.width := Philox.width st |};
     Philox.n := Philox.n p;
     Philox.w := Philox.w p;
     Philox._bitgen := Philox._bitgen p |}.

(** The instance the DSFMT setter produces on [b] from the snapshot of [q]:
    the state words, index, buffer and cursor of [q]; the leftover-half
    fields are no part of the dictionary and stay those of [b]. *)
Definition dsfmt_copy_onto (q b : DSFMT.DSFMT) : DSFMT.DSFMT :=
  {| DSFMT.rng_state :=
       {| DSFMT.state := DSFMT.state (DSFMT.rng_state q);
          DSFMT.has_uint32 := DSFMT.has_uint32 (DSFMT.rng_state b);
          DSFMT.uinteger := DSFMT.uinteger (DSFMT.rng_state b);
          DSFMT.buffered_uniforms := DSFMT.buffered_uniforms (DSFMT.rng_state q);
          DSFMT.buffer_loc := DSFMT.buffer_loc (DSFMT.rng_state q) |};
     DSFMT._bitgen := DSFMT._bitgen b |}.

(** ** Stand-in cores

    Small cores on which the shell can be run: the Philox one returns the sum
    of the low counter and key words and steps the low counter word, the
    DSFMT one walks its index.  They stand for the C code only as far as the
    layout goes; no statement below depends on which core is plugged in. *)
Definition counter_next (st : Philox.philox_all_t) : Z * Philox.philox_all_t :=
  ((Philox.ctr (Philox.state st) !!! 0%nat + Philox.key (Philox.state st) !!! 0%nat)
     mod 2 ^ Philox.width st,
   Philox.set_ctr (fun l => <[0%nat := (l !!! 0%nat + 1) mod 2 ^ Philox.width st]> l) st).

Definition counter_advance (st : Philox.philox_all_t) (step : list Z) (use_carry : bool)
  : Philox.philox_all_t :=
  Philox.set_ctr (fun l => <[0%nat := (l !!! 0%nat + step !!! 0%nat) mod 2 ^ Philox.width st]> l) st.

Definition counter_core : Philox.philox_h :=
  {| Philox.philox2x64_next64 := counter_next;
     Philox.philox2x64_next32 := counter_next;
     Philox.philox2x64_next_double := counter_next;
     Philox.philox4x64_next64 := counter_next;
     Philox.philox4x64_next32 := counter_next;
     Philox.philox4x64_next_double := counter_next;
     Philox.philox4x32_next64 := counter_next;
     Philox.philox4x32_next32 := counter_next;
     Philox.philox4x32_next_double := counter_next;
     Philox.philox2x32_next64 := counter_next;
     Philox.philox2x32_next32 := counter_next;
     Philox.philox2x32_next_double := counter_next;
     Philox.philox2x32_advance := counter_advance;
     Philox.philox4x32_advance := counter_advance;
     Philox.philox2x64_advance := counter_advance;
     Philox.philox4x64_advance := counter_advance |}.

(** A seed expander that repeats the first seed word. *)
Definition repeat_seed (seed : list Z) (k : Z) : list Z :=
  repeat (seed !!! 0%nat mod 2 ^ 64) (Z.to_nat k).

(** An entropy source that returns zeros. *)
Definition zero_entropy (k : Z) : list Z := repeat 0 (Z.to_nat k).

Definition index_next (st : DSFMT.dsfmt_state) : Z * DSFMT.dsfmt_state :=
  (DSFMT.status (DSFMT.state st) !!! 0%nat,
   DSFMT.set_state (DSFMT.set_idx ((DSFMT.idx (DSFMT.state st) + 2) mod 382)) st).

Definition index_core : DSFMT.dSFMT_h :=
  {| DSFMT.dsfmt_next_double := index_next;
     DSFMT.dsfmt_next64 := index_next;
     DSFMT.dsfmt_next32 := index_next;
     DSFMT.dsfmt_next_raw := index_next;
     DSFMT.dsfmt_init_gen_rand := fun _ s =>
       {| DSFMT.status := repeat (s mod 2 ^ 64) 384; DSFMT.idx := 382 |};
     DSFMT.dsfmt_init_by_array := fun _ _ len =>
       {| DSFMT.status := repeat (len mod 2 ^ 64) 384; DSFMT.idx := 382 |};
     DSFMT.dsfmt_jump := fun st =>
       DSFMT.set_state (DSFMT.set_idx ((DSFMT.idx (DSFMT.state st) + 1) mod 382)) st |}.

(** A block as [malloc] may return it. *)
Definition stale_block : DSFMT.dsfmt_t :=
  {| DSFMT.status := repeat 3 384; DSFMT.idx := 17 |}.

(** [Philox(1234)] and [DSFMT(1234)] on the stand-in cores. *)
Definition philox_1234 : Philox.Philox :=
  (Philox.__init__ repeat_seed zero_entropy (Some (SInt 1234)) None None 4 64 Philox.blank).1.

Definition dsfmt_1234 : DSFMT.DSFMT :=
  (DSFMT.__init__ index_core stale_block zero_entropy (Some (SInt 1234)) DSFMT.blank).1.

(** The layout of the state block of a DSFMT instance. *)
Definition dsfmt_ok (p : DSFMT.DSFMT) : Prop := dsfmt_layout (DSFMT.rng_state p).

(** [Philox()] with an entropy source that returns zeros. *)
Definition philox_default : Philox.Philox :=
  (Philox.__init__ repeat_seed zero_entropy None None None 4 64 Philox.blank).1.


(** The addresses an object heap already holds keep their objects. *)
Definition heap_extends {O} (h0 h : gmap positive O) : Prop :=
  forall l o, h0 !! l = Some o -> h !! l = Some o.

(** [Philox(key=5, number=2, width=32)]. *)
Definition philox_2x32 : Philox.Philox :=
  (Philox.__init__ (fun _ _ => []) (fun _ => []) None None (Some (SInt 5)) 2 32 Philox.blank).1.


(** A state dictionary without ['number'] whose ['width'] is 16. *)
Definition width16_dict : Philox.state_dict :=
  {| Philox.d_bit_generator := Some "Philox"%string;
     Philox.d_state := Some {| Philox.d_counter := Some [0; 0; 0; 0];
                               Philox.d_key := Some [0; 0] |};
     Philox.d_buffer := Some [0; 0; 0; 0];
     Philox.d_buffer_pos := Some 4;
     Philox.d_has_uint32 := Some 0;
     Philox.d_uinteger := Some 0;
     Philox.d_number := None;
     Philox.d_width := Some 16 |}.

(** ** Variants and tables *)

(** The table [_setup_generator] installs for a supported variant. *)
Definition philox_table (N W : Z) : Philox.bitgen_t :=
  if (N =? 4) && (W =? 64) then
    {| Philox.next_uint64 := Philox.philox4x64_uint64; Philox.next_uint32 := Philox.philox4x64_uint32;
       Philox.next_double := Philox.philox4x64_double; Philox.next_raw := Philox.philox4x64_uint64 |}
  else if (N =? 2) && (W =? 64) then
    {| Philox.next_uint64 := Philox.philox2x64_uint64; Philox.next_uint32 := Philox.philox2x64_uint32;
       Philox.next_double := Philox.philox2x64_double; Philox.next_raw := Philox.philox2x64_uint64 |}
  else if (N =? 4) && (W =? 32) then
    {| Philox.next_uint64 := Philox.philox4x32_uint64; Philox.next_uint32 := Philox.philox4x32_uint32;
       Philox.next_double := Philox.philox4x32_double; Philox.next_raw := Philox.philox4x32_raw |}
  else
    {| Philox.next_uint64 := Philox.philox2x32_uint64; Philox.next_uint32 := Philox.philox2x32_uint32;
       Philox.next_double := Philox.philox2x32_double; Philox.next_raw := Philox.philox2x32_raw |}.

(** The fields the setter fixes before it reads the payload. *)
Definition philox_variant (N W : Z) (B : Philox.bitgen_t) (p : Philox.Philox) : Prop :=
  Philox.n p = N /\ Philox.w p = W /\
  Philox.number (Philox.rng_state p) = N /\ Philox.width (Philox.rng_state p) = W /\
  Philox._bitgen p = B.


(** [m] raises nothing but what [P] admits. *)
Definition raises_only {S A} (P : exn -> Prop) (m : Meth S A) : Prop :=
  forall s s' e, m s = (s', Raise e) -> P e.


(** A state dictionary of a previous version: no ['number'], no ['width']. *)
Definition legacy_dict : Philox.state_dict :=
  {| Philox.d_bit_generator := Some "Philox"%string;
     Philox.d_state := Some {| Philox.d_counter := Some [1; 2; 3; 4];
                               Philox.d_key := Some [5; 6] |};
     Philox.d_buffer := Some [0; 0; 0; 0];
     Philox.d_buffer_pos := Some 4;
     Philox.d_has_uint32 := Some 0;
     Philox.d_uinteger := Some 0;
     Philox.d_number := None;
     Philox.d_width := None |}.

(** ** The shell fields of an instance *)

(** What only [__init__] and the state setter assign: the variant on the
    Python side and the function table. *)
Definition philox_shell (p : Philox.Philox) : Z * Z * Philox.bitgen_t :=
  (Philox.n p, Philox.w p, Philox._bitgen p).

(** The table [DSFMT.__init__] installs. *)
Definition dsfmt_table : DSFMT.bitgen_t :=
  {| DSFMT.next_uint64 := DSFMT.dsfmt_uint64; DSFMT.next_uint32 := DSFMT.dsfmt_uint32;
     DSFMT.next_double := DSFMT.dsfmt_double; DSFMT.next_raw := DSFMT.dsfmt_raw |}.

(** ** Seeding *)

(** An array of [k] words of [bits] bits. *)
Definition words_of (bits k : Z) (l : list Z) : Prop :=
  length l = Z.to_nat k /\ Forall (fun x => in_range bits x = true) l.

(** The arguments [Philox.seed] accepts on an [n]x[w] instance: each within
    its range, and not a seed together with a key. *)
Definition seed_accepts (n w : Z) (seed counter key : option seed_like) : bool :=
  match object_to_int seed (n * w / 2), object_to_int key (n / 2 * w),
        object_to_int counter (n * w) with
  | Ok s, Ok k, Ok _ => negb (given s && given k)
  | _, _, _ => false
  end.

(** The array [seed] takes the key words from, as [seed] computes it from the
    converted arguments. *)
Definition seed_array (sba : list Z -> Z -> list Z) (ent : Z -> list Z)
    (n w : Z) (seed key : option Z) : outcome ndarray :=
  obind (match key, seed with
         | Some key, _ => int_to_array key (Some (n / 2 * w)) w
         | None, Some seed =>
             obind (int_to_array seed None 64) (fun a =>
               Ok (mk_array uint64 (sba (arr_data a) (Z.max ((n / 2) * (w / 32) / 2) 1))))
         | None, None => Ok (mk_array uint32 (ent ((n / 2) * (w / 32))))
         end)
        (view (if w =? 64 then uint64 else uint32)).

Definition seed_key_words (sba : list Z -> Z -> list Z) (ent : Z -> list Z)
    (n w : Z) (seed key : option Z) : list Z :=
  match seed_array sba ent n w seed key with
  | Ok a => take (Z.to_nat (n / 2)) (arr_data a)
  | Raise _ => []
  end.

(** An instance after [seed] has written the key words [kw] and the counter
    words [cw] and has reset the buffering fields. *)
Definition philox_seeded (kw cw : list Z) (p : Philox.Philox) : Philox.Philox :=
  Philox.set_rng (fun st =>
    {| Philox.state :=
         {| Philox.ctr := cw ++ drop (length cw) (Philox.ctr (Philox.state st));
            Philox.key := kw ++ drop (length kw) (Philox.key (Philox.state st)) |};
       Philox.buffer_pos := Philox.PHILOX_BUFFER_SIZE;
       Philox.buffer := [0; 0; 0; 0];
       Philox.has_uint32 := 0;
       Philox.uinteger := 0;
       Philox.number := Philox.number st;
       Philox.width := Philox.width st |}) p.

(** The cells of the state block are there: four counter words, two key
    words, four buffer cells. *)
Definition philox_cells (p : Philox.Philox) : Prop :=
  length (Philox.ctr (Philox.state (Philox.rng_state p))) = 4%nat /\
  length (Philox.key (Philox.state (Philox.rng_state p))) = 2%nat /\
  length (Philox.buffer (Philox.rng_state p)) = 4%nat.

(** A zero-filled instance after [__init__] has recorded the variant. *)
Definition philox_fresh (number width : Z) : Philox.Philox :=
  Philox.set_rng (Philox.set_width width)
    (Philox.set_rng (Philox.set_number number)
       (Philox.set_w width (Philox.set_n number Philox.blank))).

(** [number in (2, 4)] and [width in (32, 64)]. *)
Definition supported_variant (number width : Z) : bool :=
  ((number =? 2) || (number =? 4)) && ((width =? 32) || (width =? 64)).

(** A state dictionary with the two optional keys filled in as the setter
    reads them. *)
Definition with_variant (d : Philox.state_dict) : Philox.state_dict :=
  {| Philox.d_bit_generator := Philox.d_bit_generator d;
     Philox.d_state := Philox.d_state d;
     Philox.d_buffer := Philox.d_buffer d;
     Philox.d_buffer_pos := Philox.d_buffer_pos d;
     Philox.d_has_uint32 := Philox.d_has_uint32 d;
     Philox.d_uinteger := Philox.d_uinteger d;
     Philox.d_number := Some (default 4 (Philox.d_number d));
     Philox.d_width := Some (default 64 (Philox.d_width d)) |}.

(** The exceptions that are neither of the two validation errors. *)
Definition late_failure (e : exn) : Prop := e <> ValueError /\ e <> TypeError.

(** ** DSFMT dictionaries *)

(** A DSFMT state dictionary as the getter returns it after the setter has
    accepted it: of ['buffered_uniforms'] the setter reads the first
    [DSFMT_N64] entries. *)
Definition dsfmt_as_read (d : DSFMT.state_dict) : DSFMT.state_dict :=
  {| DSFMT.d_bit_generator := DSFMT.d_bit_generator d;
     DSFMT.d_state := DSFMT.d_state d;
     DSFMT.d_buffer_loc := DSFMT.d_buffer_loc d;
     DSFMT.d_buffered_uniforms :=
       match DSFMT.d_buffered_uniforms d with
       | Some l => Some (take (Z.to_nat DSFMT.DSFMT_N64) l)
       | None => None
       end |}.

(** ** Strings *)

(** [c not in s] *)
Fixpoint lacks (c : Ascii.ascii) (s : string) : bool :=
  match s with
  | EmptyString => true
  | String a s' => negb (Ascii.eqb a c) && lacks c s'
  end.

(** ** More concrete instances *)

(** A seed sequence that returns sevens, and one whose words need 41 bits. *)
Definition sevens_seq : Philox.SeedSequence :=
  {| Philox.generate_state := fun k => repeat 7 (Z.to_nat k) |}.

Definition wide_seq : Philox.SeedSequence :=
  {| Philox.generate_state := fun k => repeat (2 ^ 40) (Z.to_nat k) |}.

(** The Python objects of [Philox(1234)] and of the 2x32 instance, with no
    seed sequence recorded. *)
Definition philox_1234_object : Philox.PhiloxObject :=
  {| Philox.seed_seq := None; Philox.cdata := philox_1234 |}.

Definition philox_2x32_object : Philox.PhiloxObject :=
  {| Philox.seed_seq := None; Philox.cdata := philox_2x32 |}.

(** [DSFMT()] on the stand-in core. *)
Definition dsfmt_default : DSFMT.DSFMT :=
  (DSFMT.__init__ index_core stale_block zero_entropy None DSFMT.blank).1.

(** A DSFMT state dictionary whose state array is too short, and one with
    more buffered uniforms than the buffer holds. *)
Definition short_state_dict : DSFMT.state_dict :=
  {| DSFMT.d_bit_generator := Some "DSFMT"%string;
     DSFMT.d_state := Some {| DSFMT.d_state_state := Some (repeat 9 10);
                              DSFMT.d_idx := Some 200 |};
     DSFMT.d_buffer_loc := Some 10;
     DSFMT.d_buffered_uniforms := Some (repeat 4 382) |}.

Definition long_buffer_dict : DSFMT.state_dict :=
  {| DSFMT.d_bit_generator := Some "DSFMT"%string;
     DSFMT.d_state := Some {| DSFMT.d_state_state := Some (repeat 9 384);
                              DSFMT.d_idx := Some 200 |};
     DSFMT.d_buffer_loc := Some 10;
     DSFMT.d_buffered_uniforms := Some (repeat 4 400) |}.

(** * Proofs *)

(** * Reasoning about methods *)

Lemma bind_get {S B} (k : S -> Meth S B) (s : S) : bind get k s = k s s.
Proof. reflexivity. Qed.

Lemma bind_modify {S B} (f : S -> S) (k : unit -> Meth S B) (s : S) :
  bind (modify f) k s = k tt (f s).
Proof. reflexivity. Qed.

Lemma bind_lift_Ok {S A B} (a : A) (k : A -> Meth S B) (s : S) :
  bind (lift (Ok a)) k s = k a s.
Proof. reflexivity. Qed.

Lemma bind_lift_Raise {S A B} (e : exn) (k : A -> Meth S B) (s : S) :
  bind (lift (Raise e)) k s = (s, Raise e).
Proof. reflexivity. Qed.

Lemma bind_ret {S A B} (a : A) (k : A -> Meth S B) (s : S) :
  bind (ret a) k s = k a s.
Proof. reflexivity. Qed.

Lemma bind_assoc {S A B D} (m : Meth S A) (k1 : A -> Meth S B) (k2 : B -> Meth S D) (s : S) :
  bind (bind m k1) k2 s = bind m (fun a => bind (k1 a) k2) s.
Proof. unfold bind. destruct (m s) as [s' [a|e]]; reflexivity. Qed.

Lemma bind_Ok {S A B} (m : Meth S A) (k : A -> Meth S B) (s s' : S) (a : A) :
  m s = (s', Ok a) -> bind m k s = k a s'.
Proof. unfold bind. intros ->. reflexivity. Qed.

(** [m] keeps [I], whatever the outcome of the call. *)
Definition preserves {S A} (I : S -> Prop) (m : Meth S A) : Prop :=
  forall s, I s -> I (m s).1.

Lemma preserves_ret {S A} (I : S -> Prop) (a : A) : preserves I (ret a).
Proof. intros s H. exact H. Qed.

Lemma preserves_raise {S A} (I : S -> Prop) (e : exn) : preserves I (@raise S A e).
Proof. intros s H. exact H. Qed.

Lemma preserves_lift {S A} (I : S -> Prop) (r : outcome A) : preserves I (lift r).
Proof. intros s H. exact H. Qed.

Lemma preserves_modify {S} (I : S -> Prop) (f : S -> S) :
  (forall s, I s -> I (f s)) -> preserves I (modify f).
Proof. intros Hf s H. apply Hf, H. Qed.

Lemma preserves_bind {S A B} (I : S -> Prop) (m : Meth S A) (k : A -> Meth S B) :
  preserves I m -> (forall a, preserves I (k a)) -> preserves I (bind m k).
Proof.
  intros Hm Hk s H. unfold bind.
  specialize (Hm s H). destruct (m s) as [s' [a|e]]; simpl in *.
  - apply Hk, Hm.
  - exact Hm.
Qed.

Lemma preserves_for_each {S} (I : S -> Prop) (l : list nat) (body : nat -> Meth S unit) :
  (forall i, preserves I (body i)) -> preserves I (for_each l body).
Proof.
  intros Hb. induction l as [|i l IH]; simpl.
  - apply preserves_ret.
  - apply preserves_bind; [apply Hb | intros _; exact IH].
Qed.

Lemma preserves_for_range {S} (I : S -> Prop) (k : Z) (body : nat -> Meth S unit) :
  (forall i, preserves I (body i)) -> preserves I (for_range k body).
Proof. intros Hb. apply preserves_for_each, Hb. Qed.

(** * Words and ranges *)

Lemma in_range_spec bits v : in_range bits v = true <-> 0 <= v < 2 ^ bits.
Proof. unfold in_range. rewrite andb_true_iff, Z.leb_le, Z.ltb_lt. reflexivity. Qed.

Lemma in_range_0 bits : 0 <= bits -> in_range bits 0 = true.
Proof. intros H. apply in_range_spec. split; [lia | apply Z.pow_pos_nonneg; lia]. Qed.

Lemma as_uint_Ok bits v x : as_uint bits v = Ok x -> x = v /\ in_range bits v = true.
Proof. unfold as_uint. destruct (in_range bits v); [intros [= <-]; auto | discriminate]. Qed.

Lemma as_uint_in_range bits v : in_range bits v = true -> as_uint bits v = Ok v.
Proof. unfold as_uint. intros ->. reflexivity. Qed.

Lemma as_int_fits v : fits_int v = true -> as_int v = Ok v.
Proof. unfold as_int. intros ->. reflexivity. Qed.

Lemma land_ones_small v : in_range 32 v = true -> Z.land v (Z.ones 32) = v.
Proof.
  intros H%in_range_spec. rewrite Z.land_ones by lia. apply Z.mod_small. exact H.
Qed.

Lemma Forall_take_insert {A} (P : A -> Prop) (k i : nat) (x : A) (l : list A) :
  Forall P (take k l) -> P x -> Forall P (take k (<[i := x]> l)).
Proof.
  intros Hl Hx. destruct (decide (i < k)%nat) as [Hlt|Hge].
  - rewrite take_insert_lt by exact Hlt. apply Forall_insert; assumption.
  - rewrite take_insert_ge by lia. exact Hl.
Qed.

Lemma Forall_drop_insert {A} (P : A -> Prop) (k i : nat) (x : A) (l : list A) :
  Forall P (drop k l) -> P x -> Forall P (drop k (<[i := x]> l)).
Proof.
  intros Hl Hx. destruct (decide (i < k)%nat) as [Hlt|Hge].
  - rewrite drop_insert_lt by exact Hlt. exact Hl.
  - rewrite drop_insert_ge by lia. apply Forall_insert; assumption.
Qed.

Ltac pres_step :=
  lazymatch goal with
  | |- preserves _ (ret _) => apply preserves_ret
  | |- preserves _ (raise _) => apply preserves_raise
  | |- preserves _ (lift _) => apply preserves_lift
  | |- preserves _ (bind _ _) => apply preserves_bind; [ | intros ? ]
  | |- preserves _ (for_range _ _) => apply preserves_for_range; intros ?
  | |- preserves _ (if ?b then _ else _) => destruct b
  | |- preserves _ (match ?o with _ => _ end) => destruct o
  end.

Ltac pres := cbv zeta; repeat pres_step.

(** * Philox: the invariant holds in every reachable state *)

Section PhiloxInvariant.

Import Philox.

Variable C : philox_h.
Variable sba : list Z -> Z -> list Z.
Hypothesis HC : philox_h_ok C.

Lemma word_bits_member_of N W :
  (N = 2 \/ N = 4) -> (W = 32 \/ W = 64) -> word_bits (member_of N W) = W.
Proof. intros [-> | ->] [-> | ->]; reflexivity. Qed.

Lemma conf_supported N W B p : philox_conf N W B p -> (N = 2 \/ N = 4) /\ (W = 32 \/ W = 64).
Proof.
  intros (Hl & Hn & Hw & _). destruct Hl as [H1 H2]. rewrite Hn in H1. rewrite Hw in H2. auto.
Qed.

Lemma conf_set_key N W B p i x :
  philox_conf N W B p -> in_range W x = true ->
  philox_conf N W B (set_rng (set_key (fun l => <[i := x]> l)) p).
Proof.
  intros (Hl & Hn & Hw & Hn' & Hw' & Hb) Hx.
  repeat split; try assumption; destruct Hl; simpl in *; try assumption.
  - rewrite length_insert. assumption.
  - apply Forall_take_insert; [assumption | rewrite Hw; exact Hx].
Qed.

Lemma conf_set_ctr N W B p i x :
  philox_conf N W B p -> in_range W x = true ->
  philox_conf N W B (set_rng (set_ctr (fun l => <[i := x]> l)) p).
Proof.
  intros (Hl & Hn & Hw & Hn' & Hw' & Hb) Hx.
  repeat split; try assumption; destruct Hl; simpl in *; try assumption.
  - rewrite length_insert. assumption.
  - apply Forall_take_insert; [assumption | rewrite Hw; exact Hx].
Qed.

Lemma conf_zero_cell N W B p i :
  philox_conf N W B p ->
  philox_conf N W B (set_rng (set_buffer (fun l => <[i := 0]> l)) p).
Proof.
  intros (Hl & Hn & Hw & Hn' & Hw' & Hb).
  repeat split; try assumption; destruct Hl; simpl in *; try assumption.
  - rewrite length_insert. assumption.
  - apply Forall_take_insert; [assumption |].
    apply in_range_0. destruct lay_width0 as [-> | ->]; lia.
  - apply Forall_drop_insert; [assumption | reflexivity].
Qed.

Lemma conf_scalars N W B p u h bp :
  philox_conf N W B p ->
  in_range 32 u = true -> fits_int h = true -> fits_int bp = true ->
  philox_conf N W B
    (set_rng (set_buffer_pos bp) (set_rng (set_has_uint32 h) (set_rng (set_uinteger u) p))).
Proof.
  intros (Hl & Hn & Hw & Hn' & Hw' & Hb) Hu Hh Hbp.
  repeat split; try assumption; destruct Hl; simpl in *; assumption.
Qed.

Lemma conf_clear_uint32 N W B p :
  philox_conf N W B p ->
  philox_conf N W B (set_rng (set_has_uint32 0) (set_rng (set_uinteger 0) p)).
Proof.
  intros (Hl & Hn & Hw & Hn' & Hw' & Hb).
  repeat split; try assumption; destruct Hl; simpl in *; try assumption; reflexivity.
Qed.

Lemma store_key_preserves N W B m i v :
  word_bits m = W -> preserves (philox_conf N W B) (store_key m i v).
Proof.
  intros Hm s Hs. unfold store_key, bind, lift.
  destruct (as_uint (word_bits m) v) as [x|e] eqn:E; simpl; [|exact Hs].
  apply as_uint_Ok in E as [-> Hr]. rewrite Hm in Hr. apply conf_set_key; assumption.
Qed.

Lemma store_ctr_preserves N W B m i v :
  word_bits m = W -> preserves (philox_conf N W B) (store_ctr m i v).
Proof.
  intros Hm s Hs. unfold store_ctr, bind, lift.
  destruct (as_uint (word_bits m) v) as [x|e] eqn:E; simpl; [|exact Hs].
  apply as_uint_Ok in E as [-> Hr]. rewrite Hm in Hr. apply conf_set_ctr; assumption.
Qed.

Lemma reset_preserves N W B : preserves (philox_conf N W B) _reset_state_variables.
Proof.
  intros s Hs. unfold _reset_state_variables.
  rewrite !bind_modify.
  assert (Hs' : philox_conf N W B
            (set_rng (set_buffer_pos PHILOX_BUFFER_SIZE)
               (set_rng (set_has_uint32 0) (set_rng (set_uinteger 0) s))))
    by (apply conf_scalars; auto).
  revert Hs'. generalize (set_rng (set_buffer_pos PHILOX_BUFFER_SIZE)
               (set_rng (set_has_uint32 0) (set_rng (set_uinteger 0) s))).
  apply preserves_for_range. intros i p Hp.
  unfold store_u64. simpl. apply conf_zero_cell, Hp.
Qed.

Lemma seed_preserves N W B ent s c k : preserves (philox_conf N W B) (seed sba ent s c k).
Proof.
  intros p Hp. unfold seed. rewrite bind_get. cbv beta.
  destruct (conf_supported N W B p Hp) as [HN HW].
  pose proof (word_bits_member_of N W HN HW) as Hm.
  pose proof Hp as (Hl & Hn & Hw & Hn' & Hw' & Hb).
  rewrite Hn', Hw'.
  match goal with
  | |- philox_conf _ _ _ (?M p).1 =>
      cut (preserves (philox_conf N W B) M); [intros HM; exact (HM p Hp)|]
  end.
  clear - Hm. pres.
  all: try (apply store_key_preserves; exact Hm).
  all: try (apply store_ctr_preserves; exact Hm).
  all: try apply reset_preserves.
Qed.

Lemma conf_core N W B (f : philox_all_t -> philox_all_t) p :
  philox_keeps (member_of N W) f ->
  philox_conf N W B p -> philox_conf N W B (set_rng f p).
Proof.
  intros Hf (Hl & Hn & Hw & Hn' & Hw' & Hb).
  destruct (Hf (rng_state p) Hl) as (Hl' & Hn2 & Hw2).
  { rewrite Hn, Hw. reflexivity. }
  unfold philox_conf. simpl. rewrite Hn2, Hw2. auto 10.
Qed.

Lemma advance_preserves N W B delta c : preserves (philox_conf N W B) (advance C delta c).
Proof.
  intros p Hp. unfold advance. cbv zeta.
  destruct (delta =? 0); [exact Hp|].
  rewrite bind_get. cbv beta.
  destruct (conf_supported N W B p Hp) as [HN HW].
  pose proof Hp as (Hl & Hn & Hw & Hn' & Hw' & Hb).
  rewrite Hn', Hw'.
  match goal with
  | |- philox_conf _ _ _ (?M p).1 =>
      cut (preserves (philox_conf N W B) M); [intros HM; exact (HM p Hp)|]
  end.
  clear - HC HN HW.
  destruct HN as [-> | ->], HW as [-> | ->]; simpl; pres.
  all: try apply reset_preserves.
  all: try (apply preserves_modify; intros q Hq; apply conf_core; [|exact Hq];
            first [ apply (ok_2x32_advance C HC) | apply (ok_4x32_advance C HC)
                  | apply (ok_2x64_advance C HC) | apply (ok_4x64_advance C HC) ]).
  all: apply preserves_modify; intros q (Hl & Hn & Hw & Hn' & Hw' & Hb);
       repeat split; try assumption; destruct Hl; simpl in *; try assumption; reflexivity.
Qed.

Lemma jump_preserves N W B iter : preserves (philox_conf N W B) (jump C iter).
Proof.
  intros p Hp. unfold jump, jump_inplace. rewrite bind_get. apply advance_preserves, Hp.
Qed.

End PhiloxInvariant.

Section PhiloxReachable.

Import Philox.

Variable C : philox_h.
Variable sba : list Z -> Z -> list Z.
Hypothesis HC : philox_h_ok C.

Lemma setup_stable p p' :
  _setup_generator p = (p, Ok tt) ->
  n p' = n p -> w p' = w p -> _bitgen p' = _bitgen p ->
  _setup_generator p' = (p', Ok tt).
Proof.
  unfold _setup_generator. rewrite !bind_get. cbv beta.
  intros H Hn Hw Hb. rewrite Hn, Hw.
  repeat match goal with
         | H : context [if ?b then _ else _] |- _ => destruct b
         end; try reflexivity.
  all: unfold modify in *; injection H as H;
       apply (f_equal _bitgen) in H; simpl in H;
       destruct p' as [r' n' w' b']; simpl in *; subst b'; rewrite <- H; reflexivity.
Qed.

Lemma inv_conf p : philox_inv p -> philox_conf (n p) (w p) (_bitgen p) p.
Proof. intros [Hl Hn Hw Ht]. repeat split; try assumption; destruct Hl; assumption. Qed.

Lemma conf_inv N W B p p' :
  philox_inv p -> philox_conf N W B p -> philox_conf N W B p' -> philox_inv p'.
Proof.
  intros [Hl Hn Hw Ht] (_ & _ & _ & Hn1 & Hw1 & Hb1) (Hl' & Hn' & Hw' & Hn2 & Hw2 & Hb2).
  split; try congruence.
  apply (setup_stable p); congruence.
Qed.

Lemma preserves_inv {A} (m : Meth Philox A) :
  (forall N W B, preserves (philox_conf N W B) m) -> preserves philox_inv m.
Proof.
  intros Hm p Hp. eapply conf_inv; [exact Hp | apply inv_conf, Hp |].
  apply Hm, inv_conf, Hp.
Qed.

Lemma blank_conf number width :
  (number = 2 \/ number = 4) -> (width = 32 \/ width = 64) ->
  philox_conf number width (_bitgen blank)
    (set_rng (set_width width) (set_rng (set_number number) (set_w width (set_n number blank)))).
Proof.
  intros HN HW. repeat split; simpl; try assumption; try reflexivity.
  - destruct HN as [-> | ->], HW as [-> | ->]; simpl; repeat constructor.
  - destruct HN as [-> | ->], HW as [-> | ->]; simpl; repeat constructor.
  - destruct HN as [-> | ->], HW as [-> | ->]; simpl; repeat constructor.
  - destruct HN as [-> | ->]; simpl; repeat constructor.
Qed.

Lemma init_inv ent s c k number width p :
  __init__ sba ent s c k number width blank = (p, Ok tt) -> philox_inv p.
Proof.
  unfold __init__.
  destruct ((number =? 2) || (number =? 4)) eqn:EN; simpl; [|discriminate].
  destruct ((width =? 32) || (width =? 64)) eqn:EW; simpl; [|discriminate].
  assert (HN : number = 2 \/ number = 4) by (apply orb_true_iff in EN; lia).
  assert (HW : width = 32 \/ width = 64) by (apply orb_true_iff in EW; lia).
  rewrite !bind_modify.
  pose proof (seed_preserves sba number width (_bitgen blank) ent s c k _
                (blank_conf number width HN HW)) as Hq.
  unfold bind at 1.
  destruct (seed sba ent s c k _) as [q [[]|e]]; [|discriminate].
  simpl in Hq. destruct Hq as (Hl & Hn & Hw & Hn' & Hw' & Hb).
  unfold _setup_generator. rewrite bind_get. cbv beta. rewrite Hn', Hw'.
  destruct HN as [-> | ->], HW as [-> | ->]; simpl; intros [= <-];
    (split; [exact Hl | simpl; congruence | simpl; congruence |]);
    unfold _setup_generator; rewrite bind_get; simpl; rewrite Hn', Hw'; reflexivity.
Qed.

Lemma inv_table_cases p :
  philox_inv p ->
  (n p = 4 /\ w p = 64 /\ _bitgen p = {| next_uint64 := philox4x64_uint64; next_uint32 := philox4x64_uint32;
                          next_double := philox4x64_double; next_raw := philox4x64_uint64 |}) \/
  (n p = 2 /\ w p = 64 /\ _bitgen p = {| next_uint64 := philox2x64_uint64; next_uint32 := philox2x64_uint32;
                          next_double := philox2x64_double; next_raw := philox2x64_uint64 |}) \/
  (n p = 4 /\ w p = 32 /\ _bitgen p = {| next_uint64 := philox4x32_uint64; next_uint32 := philox4x32_uint32;
                          next_double := philox4x32_double; next_raw := philox4x32_raw |}) \/
  (n p = 2 /\ w p = 32 /\ _bitgen p = {| next_uint64 := philox2x32_uint64; next_uint32 := philox2x32_uint32;
                          next_double := philox2x32_double; next_raw := philox2x32_raw |}).
Proof.
  intros [Hl Hn Hw Ht]. destruct Hl as [HN HW]. rewrite Hn in HN. rewrite Hw in HW.
  unfold _setup_generator in Ht. rewrite bind_get in Ht.
  destruct HN as [HN | HN], HW as [HW | HW]; rewrite HN, HW in Ht; simpl in Ht;
    injection Ht as Ht; apply (f_equal _bitgen) in Ht; simpl in Ht; auto 10.
Qed.

Lemma draw_inv e p v p' : philox_inv p -> draw C e p = Some (v, p') -> philox_inv p'.
Proof.
  intros Hp. unfold draw.
  destruct (entry C e (_bitgen p)) as [f|] eqn:E; [|discriminate].
  intros [= _ <-].
  pose proof (inv_conf p Hp) as Hc.
  apply (conf_inv (n p) (w p) (_bitgen p) p); [exact Hp | exact Hc |].
  apply conf_core; [|exact Hc].
  destruct (inv_table_cases p Hp) as [(Hn & Hw & Hb) | [(Hn & Hw & Hb) | [(Hn & Hw & Hb) | (Hn & Hw & Hb)]]];
    rewrite Hn, Hw; rewrite Hb in E; destruct e; simpl in E; injection E as <-; apply HC.
Qed.

Lemma reachable_inv p : philox_reachable C sba p -> philox_inv p.
Proof.
  induction 1 as [ent s c k number width p Hinit | ent s c k p _ IH
                 | delta c p _ IH | iter p _ IH | e p v p' _ IH Hd].
  - eapply init_inv, Hinit.
  - revert IH. apply preserves_inv. intros N W B. apply seed_preserves.
  - revert IH. apply preserves_inv. intros N W B. apply advance_preserves, HC.
  - revert IH. apply preserves_inv. intros N W B. apply jump_preserves, HC.
  - eapply draw_inv; eassumption.
Qed.

End PhiloxReachable.

#[local] Arguments in_range : simpl never.
#[local] Arguments fits_int : simpl never.
#[local] Arguments Philox.load_u32 : simpl never.

Lemma load_u32_small (l : list Z) (i : nat) :
  in_range 32 (l !!! i) = true -> Philox.load_u32 l i = l !!! i.
Proof. apply land_ones_small. Qed.

Ltac split_Forall :=
  repeat match goal with
         | H : Forall _ (_ :: _) |- _ => apply Forall_cons in H as [? H]
         | H : Forall _ [] |- _ => clear H
         end.

Ltac eval_to_nat :=
  repeat match goal with
         | |- context [Z.to_nat ?z] =>
             let r := eval vm_compute in (Z.to_nat z) in
             progress change (Z.to_nat z) with r
         | |- context [Z.of_nat ?k] =>
             let r := eval vm_compute in (Z.of_nat k) in
             progress change (Z.of_nat k) with r
         | |- context [Z.div ?a ?b] =>
             let r := eval vm_compute in (Z.div a b) in
             progress change (Z.div a b) with r
         end.

Ltac use_ranges :=
  repeat match goal with
         | H : in_range _ _ = true |- _ => rewrite !H
         | H : fits_int _ = true |- _ => rewrite !H
         end.

Ltac msteps :=
  repeat (first [ rewrite bind_assoc | rewrite bind_lift_Ok | rewrite bind_modify
                | rewrite bind_get | rewrite bind_ret ]; cbv beta).

Ltac crunch :=
  repeat (progress (cbn;
                    unfold Philox._reset_state_variables, for_range, Philox.PHILOX_BUFFER_SIZE,
                      Philox.store_u64, Philox.store_u32, Philox.store_ctr, Philox.store_key;
                    eval_to_nat; msteps;
                    rewrite ?bool_decide_eq_true_2 by reflexivity;
                    rewrite ?load_u32_small by (cbn; assumption);
                    rewrite ?as_uint_in_range by first [assumption | reflexivity];
                    rewrite ?as_int_fits by first [assumption | reflexivity];
                    use_ranges)).

Lemma philox_roundtrip_id p : philox_inv p -> philox_roundtrip p = (p, Ok tt).
Proof.
  intros Hp.
  destruct (inv_table_cases p Hp) as [(Hn & Hw & Hb) | [(Hn & Hw & Hb) | [(Hn & Hw & Hb) | (Hn & Hw & Hb)]]].
  all: destruct Hp as [Hl Hn' Hw' _].
  all: destruct p as [[[ctr key] bp buf h u num wid] n w B]; simpl in *; subst.
  all: destruct Hl as [_ _ Hc Hk Hbl Hcr Hkr Hbr Hb0 Hbp Hh Hu]; simpl in *.
  all: destruct ctr as [|c0 [|c1 [|c2 [|c3 [|]]]]]; try discriminate Hc.
  all: destruct key as [|k0 [|k1 [|]]]; try discriminate Hk.
  all: destruct buf as [|b0 [|b1 [|b2 [|b3 [|]]]]]; try discriminate Hbl.
  all: simpl in *; split_Forall; subst.
  all: unfold philox_roundtrip, Philox.state_get, Philox.state_set, check_state_array;
       unfold bind at 1; rewrite bind_get; crunch.
  all: reflexivity.
Qed.

(** * DSFMT: layout of reachable states *)

Section DsfmtReachable.

Import DSFMT.

Variable C : dSFMT_h.
Hypothesis HC : dSFMT_h_ok C.

Lemma dsfmt_ok_state f p :
  (forall t, dsfmt_t_layout t -> dsfmt_t_layout (f t)) ->
  dsfmt_ok p -> dsfmt_ok (set_rng (set_state f) p).
Proof. intros Hf [Ht Hb Hl]. split; simpl; auto. Qed.

Lemma dsfmt_ok_buffer_loc v p :
  fits_int v = true -> dsfmt_ok p -> dsfmt_ok (set_rng (set_buffer_loc v) p).
Proof. intros Hv [Ht Hb Hl]. split; simpl; auto. Qed.

Lemma dsfmt_reset_preserves : preserves dsfmt_ok _reset_state_variables.
Proof. apply preserves_modify. intros s. apply dsfmt_ok_buffer_loc. reflexivity. Qed.

Lemma dsfmt_seed_preserves ent s : preserves dsfmt_ok (seed C ent s).
Proof.
  unfold seed. pres; try apply dsfmt_reset_preserves.
  all: apply preserves_modify; intros q; apply dsfmt_ok_state; intros t; apply HC.
Qed.

Lemma dsfmt_jump_n_layout st count : dsfmt_layout st -> dsfmt_layout (dsfmt_jump_n C st count).
Proof.
  intros H. unfold dsfmt_jump_n. induction (Z.to_nat count) as [|k IH]; simpl; [exact H|].
  apply HC, IH.
Qed.

Lemma dsfmt_jump_inplace_preserves iter : preserves dsfmt_ok (jump_inplace C iter).
Proof.
  unfold jump_inplace. pres; try apply dsfmt_reset_preserves.
  apply preserves_modify. intros q Hq. apply dsfmt_jump_n_layout, Hq.
Qed.

Lemma dsfmt_jump_preserves iter : preserves dsfmt_ok (jump C iter).
Proof. unfold jump. pres. apply dsfmt_jump_inplace_preserves. Qed.

Lemma dsfmt_init_ok mem ent s p :
  dsfmt_t_layout mem -> __init__ C mem ent s blank = (p, Ok tt) -> dsfmt_ok p.
Proof.
  intros Hmem. unfold __init__. rewrite !bind_modify.
  match goal with
  | |- bind _ _ ?p0 = _ -> _ =>
      assert (H0 : dsfmt_ok p0) by (split; [exact Hmem | reflexivity | reflexivity]);
      pose proof (dsfmt_seed_preserves ent s p0 H0) as Hq; unfold bind;
      destruct (seed C ent s p0) as [q [[]|e]]; [|discriminate]
  end.
  unfold modify. intros [= <-]. exact Hq.
Qed.

Lemma dsfmt_draw_ok e p v p' : dsfmt_ok p -> draw C e p = Some (v, p') -> dsfmt_ok p'.
Proof.
  intros Hp. unfold draw. destruct (entry C e (_bitgen p)) as [f|] eqn:E; [|discriminate].
  intros [= _ <-]. unfold dsfmt_ok. simpl.
  unfold entry, call in E.
  destruct e; 
    repeat match goal with
           | E : match ?x with _ => _ end = Some _ |- _ => destruct x; try discriminate E
           end; injection E as <-; apply HC, Hp.
Qed.

Lemma dsfmt_reachable_ok p : dsfmt_reachable C p -> dsfmt_ok p.
Proof.
  induction 1 as [mem ent s p Hmem Hinit | ent s p _ IH | iter p _ IH | e p v p' _ IH Hd].
  - eapply dsfmt_init_ok; eassumption.
  - apply dsfmt_seed_preserves, IH.
  - apply dsfmt_jump_preserves, IH.
  - eapply dsfmt_draw_ok; eassumption.
Qed.

End DsfmtReachable.

(** * Loops that write a block over itself *)

Lemma for_each_fixed {S} (l : list nat) (body : nat -> Meth S unit) (s : S) :
  (forall i, i ∈ l -> body i s = (s, Ok tt)) -> for_each l body s = (s, Ok tt).
Proof.
  induction l as [|i l IH]; intros H; simpl; [reflexivity|].
  rewrite (bind_Ok _ _ s s tt) by (apply H; left).
  apply IH. intros j Hj. apply H. right. exact Hj.
Qed.

Lemma map_lookup_total_seq (l : list Z) : map (fun i => l !!! i) (seq 0 (length l)) = l.
Proof.
  apply list_eq. intros i. rewrite list_lookup_fmap.
  destruct (decide (i < length l)%nat) as [Hlt|Hge].
  - rewrite lookup_seq_lt by exact Hlt. simpl.
    rewrite list_lookup_lookup_total_lt by exact Hlt. reflexivity.
  - rewrite lookup_seq_ge by lia. rewrite lookup_ge_None_2 by lia. reflexivity.
Qed.

Lemma flat_pairs {A} (f : nat -> A) (a k : nat) :
  flat_map (fun i => map (fun j => f (2 * i + j)%nat) (seq 0 2)) (seq a k)
  = map f (seq (2 * a) (2 * k)).
Proof.
  revert a. induction k as [|k IH]; intros a.
  { rewrite Nat.mul_0_r. reflexivity. }
  cbn [seq flat_map]. rewrite IH.
  replace (2 * S k)%nat with (2 + 2 * k)%nat by lia.
  rewrite seq_app, map_app. f_equal.
  - cbn [seq map].
    replace (2 * a + 0)%nat with (2 * a)%nat by lia.
    replace (2 * a + 1)%nat with (S (2 * a)) by lia. reflexivity.
  - replace (2 * S a)%nat with (2 * a + 2)%nat by lia. reflexivity.
Qed.

Lemma forallb_of_Forall {A} (f : A -> bool) (l : list A) :
  Forall (fun x => f x = true) l -> forallb f l = true.
Proof. induction 1 as [|x l Hx _ IH]; simpl; [reflexivity|]. rewrite Hx, IH. reflexivity. Qed.

Lemma item_lookup {A} `{!Inhabited A} (l : list A) (i : nat) :
  (i < length l)%nat -> item l i = Ok (l !!! i).
Proof.
  intros H. unfold item. rewrite list_lookup_lookup_total_lt by exact H. reflexivity.
Qed.

(** * DSFMT: the state property round trip *)

Section DsfmtRoundtrip.

Import DSFMT.

Lemma dsfmt_state_get_eq p :
  dsfmt_layout (rng_state p) ->
  state_get p =
  (p, Ok {| d_bit_generator := Some "DSFMT"%string;
            d_state := Some {| d_state_state := Some (status (state (rng_state p)));
                               d_idx := Some (idx (state (rng_state p))) |};
            d_buffer_loc := Some (buffer_loc (rng_state p));
            d_buffered_uniforms := Some (buffered_uniforms (rng_state p)) |}).
Proof.
  intros [[Hlen Hst Hidx] Hbl Hloc]. unfold state_get. rewrite bind_get. unfold ret.
  do 4 f_equal.
  - do 3 f_equal.
    change (seq 0 (Z.to_nat DSFMT_N_PLUS_1)) with (seq 0 192).
    rewrite (flat_pairs (fun k => status (state (rng_state p)) !!! k) 0 192).
    change (2 * 192)%nat with (Z.to_nat (2 * DSFMT_N_PLUS_1)). rewrite <- Hlen.
    apply map_lookup_total_seq.
  - f_equal. rewrite <- Hbl. apply map_lookup_total_seq.
Qed.

Lemma dsfmt_roundtrip_id p : dsfmt_layout (rng_state p) -> dsfmt_roundtrip p = (p, Ok tt).
Proof.
  intros Hl. unfold dsfmt_roundtrip.
  rewrite (bind_Ok _ _ p p _ (dsfmt_state_get_eq p Hl)).
  destruct Hl as [[Hlen Hst Hidx] Hbl Hloc].
  unfold state_set. cbn [d_bit_generator d_state d_buffer_loc d_buffered_uniforms
                         d_state_state d_idx default].
  rewrite bool_decide_eq_true_2 by reflexivity. cbn [negb subscript obind].
  rewrite bind_lift_Ok. cbn [d_state_state d_idx subscript obind].
  unfold check_state_array. rewrite Hlen.
  change (Z.of_nat (Z.to_nat (2 * DSFMT_N_PLUS_1)) =? 2 * DSFMT_N_PLUS_1) with true.
  rewrite (forallb_of_Forall _ _ Hst). cbn [andb].
  rewrite bind_lift_Ok.
  assert (Hwrite : for_range DSFMT_N_PLUS_1 (fun i =>
            for_range 2 (fun j =>
              v <- lift (obind (item (status (state (rng_state p))) (2 * i + j)) (as_uint 64)) ;;
              modify (set_rng (set_state (set_status (fun l => <[(2 * i + j)%nat := v]> l)))))) p
          = (p, Ok tt)).
  { apply for_each_fixed. intros i Hi. apply for_each_fixed. intros j Hj.
    apply elem_of_seq in Hi. apply elem_of_seq in Hj.
    assert (Hk : (2 * i + j < length (status (state (rng_state p))))%nat).
    { rewrite Hlen. change (Z.to_nat (2 * DSFMT_N_PLUS_1)) with 384%nat.
      change (Z.to_nat DSFMT_N_PLUS_1) with 192%nat in Hi.
      change (Z.to_nat 2) with 2%nat in Hj. lia. }
    rewrite item_lookup by exact Hk. cbn [obind].
    rewrite as_uint_in_range.
    2:{ rewrite Forall_lookup in Hst. apply (Hst (2 * i + j)%nat).
        apply list_lookup_lookup_total_lt, Hk. }
    rewrite bind_lift_Ok. unfold modify. f_equal.
    destruct p as [[[st ix] h u b loc] tb]. unfold set_rng, set_state, set_status. simpl in *.
    rewrite list_insert_id; [reflexivity|].
    apply list_lookup_lookup_total_lt, Hk. }
  rewrite (bind_Ok _ _ p p tt Hwrite).
  rewrite bind_lift_Ok. cbn [d_state_state d_idx subscript obind].
  rewrite as_int_fits by exact Hidx.
  rewrite bind_lift_Ok, bind_modify, bind_lift_Ok.
  assert (Hp1 : set_rng (set_state (set_idx (idx (state (rng_state p))))) p = p).
  { destruct p as [[[st ix] h u b loc] tb]. reflexivity. }
  rewrite Hp1.
  assert (Hbuf : for_range DSFMT_N64 (fun i =>
            v <- lift (item (buffered_uniforms (rng_state p)) i) ;;
            modify (set_rng (set_buffered_uniforms (fun l => <[i := v]> l)))) p
          = (p, Ok tt)).
  { apply for_each_fixed. intros i Hi. apply elem_of_seq in Hi.
    assert (Hk : (i < length (buffered_uniforms (rng_state p)))%nat) by (rewrite Hbl; lia).
    rewrite item_lookup by exact Hk. rewrite bind_lift_Ok. unfold modify. f_equal.
    destruct p as [[[st ix] h u b loc] tb]. unfold set_rng, set_buffered_uniforms. simpl in *.
    rewrite list_insert_id; [reflexivity|].
    apply list_lookup_lookup_total_lt, Hk. }
  rewrite (bind_Ok _ _ p p tt Hbuf).
  rewrite as_int_fits by exact Hloc. rewrite bind_lift_Ok. unfold modify.
  destruct p as [[[st ix] h u b loc] tb]. reflexivity.
Qed.

End DsfmtRoundtrip.

(** * Philox: [advance] *)

Section PhiloxAdvance.

Import Philox.

Variable C : philox_h.

Lemma advance_zero counter p : advance C 0 counter p = (p, Ok tt).
Proof. reflexivity. Qed.

Lemma wrap_int_range v bits : 0 <= bits -> 0 <= wrap_int v bits < 2 ^ bits.
Proof. intros H. unfold wrap_int. apply Z.mod_pos_bound, Z.pow_pos_nonneg; lia. Qed.

Lemma step_in_range N W v :
  (N = 2 \/ N = 4) -> (W = 32 \/ W = 64) ->
  in_range ((N + 1) * W) (wrap_int v (N * W + N / 2)) = true.
Proof.
  intros HN HW. apply in_range_spec.
  assert (0 <= N * W + N / 2 <= (N + 1) * W)
    by (destruct HN as [-> | ->], HW as [-> | ->]; vm_compute; split; discriminate).
  pose proof (wrap_int_range v (N * W + N / 2) ltac:(lia)) as Hr.
  split; [lia|]. eapply Z.lt_le_trans; [apply Hr|].
  apply Z.pow_le_mono_r; lia.
Qed.

Lemma advance_congr delta delta' counter p :
  (delta = 0 <-> delta' = 0) ->
  (let c := default true counter in
   wrap_int (if c then delta * n p else delta) (n p * w p + n p / 2)
   = wrap_int (if c then delta' * n p else delta') (n p * w p + n p / 2)) ->
  advance C delta counter p = advance C delta' counter p.
Proof.
  intros H0 Hw. cbv zeta in Hw. unfold advance. cbv zeta.
  destruct (Z.eqb_spec delta 0) as [E|E], (Z.eqb_spec delta' 0) as [E'|E']; try tauto.
  rewrite !bind_get. cbv beta. rewrite Hw. reflexivity.
Qed.

Lemma advance_clears delta counter p :
  (n p = 2 \/ n p = 4) -> (w p = 32 \/ w p = 64) -> delta <> 0 ->
  (advance C delta counter p).2 = Ok tt /\
  has_uint32 (rng_state (advance C delta counter p).1) = 0 /\
  uinteger (rng_state (advance C delta counter p).1) = 0.
Proof.
  intros HN HW Hd. unfold advance. cbv zeta.
  destruct (Z.eqb_spec delta 0) as [|_]; [contradiction|].
  rewrite bind_get. cbv beta.
  unfold int_to_array.
  rewrite (step_in_range (n p) (w p) _ HN HW).
  destruct HN as [-> | ->], HW as [-> | ->]; cbn [dtype_of_size Z.eqb Pos.eqb obind andb];
    rewrite bind_lift_Ok; cbn [arr_data]; rewrite bind_modify, !bind_modify;
    destruct (default true counter); repeat split; reflexivity.
Qed.

End PhiloxAdvance.

(** * Inverting a successful call *)

Lemma bind_inv_Ok {S A B} (m : Meth S A) (k : A -> Meth S B) (s s' : S) (b : B) :
  bind m k s = (s', Ok b) -> exists s1 a, m s = (s1, Ok a) /\ k a s1 = (s', Ok b).
Proof.
  unfold bind. destruct (m s) as [s1 [a|e]]; [|discriminate].
  intros H. exists s1, a. auto.
Qed.

Ltac inv_call H :=
  repeat lazymatch type of H with
         | bind get _ _ = _ => rewrite bind_get in H; cbv beta in H
         | bind (modify _) _ _ = _ => rewrite bind_modify in H
         | bind _ _ _ = (_, Ok _) =>
             let s1 := fresh "s" in let a := fresh "a" in let Hm := fresh "Hm" in
             apply bind_inv_Ok in H as (s1 & a & Hm & H)
         | raise _ _ = (_, Ok _) => discriminate H
         | (if ?b then _ else _) _ = _ => destruct b eqn:?
         | (match ?x with _ => _ end) _ = _ => destruct x eqn:?
         | (let _ := _ in _) _ = _ => cbv zeta in H
         end.


(** * Philox: what [seed] and the setter leave in the buffering fields *)

Section PhiloxBuffering.

Import Philox.

Lemma reset_post q p' :
  _reset_state_variables q = (p', Ok tt) ->
  has_uint32 (rng_state p') = 0 /\ uinteger (rng_state p') = 0 /\
  buffer_pos (rng_state p') = PHILOX_BUFFER_SIZE /\
  (forall i x, (i < 4)%nat -> buffer (rng_state p') !! i = Some x -> x = 0).
Proof.
  unfold _reset_state_variables, for_range, PHILOX_BUFFER_SIZE.
  change (Z.to_nat 4) with 4%nat. cbn [seq for_each]. unfold store_u64.
  rewrite !as_uint_in_range by reflexivity.
  repeat (first [rewrite bind_modify | rewrite bind_assoc | rewrite bind_lift_Ok | rewrite bind_ret]; cbv beta).
  unfold ret. intros [= <-]. cbn. repeat split.
  intros i x Hi. destruct (buffer (rng_state q)) as [|b0 [|b1 [|b2 [|b3 l]]]];
    destruct i as [|[|[|[|i]]]]; cbn; try lia; congruence.
Qed.




End PhiloxBuffering.

(** * Philox: the snapshot of one instance set on another *)

Lemma philox_snapshot_copy p b :
  philox_inv p ->
  length (Philox.ctr (Philox.state (Philox.rng_state b))) = 4%nat ->
  length (Philox.key (Philox.state (Philox.rng_state b))) = 2%nat ->
  length (Philox.buffer (Philox.rng_state b)) = 4%nat ->
  exists d, Philox.state_get p = (p, Ok d) /\
            Philox.state_set (PyDict d) b = (philox_copy_onto p b, Ok tt).
Proof.
  intros Hp Hbc Hbk Hbb.
  destruct (inv_table_cases p Hp) as [(Hn & Hw & Hb) | [(Hn & Hw & Hb) | [(Hn & Hw & Hb) | (Hn & Hw & Hb)]]].
  all: destruct Hp as [Hl Hn' Hw' _].
  all: destruct p as [[[ctr key] bp buf h u num wid] n w B]; simpl in *; subst.
  all: destruct b as [[[ctr' key'] bp' buf' h' u' num' wid'] n' w' B']; simpl in *.
  all: destruct Hl as [_ _ Hc Hk Hbl Hcr Hkr Hbr Hb0 Hbp Hh Hu]; simpl in *.
  all: destruct ctr as [|c0 [|c1 [|c2 [|c3 [|]]]]]; try discriminate Hc.
  all: destruct key as [|k0 [|k1 [|]]]; try discriminate Hk.
  all: destruct buf as [|b0 [|b1 [|b2 [|b3 [|]]]]]; try discriminate Hbl.
  all: destruct ctr' as [|c0' [|c1' [|c2' [|c3' [|]]]]]; try discriminate Hbc.
  all: destruct key' as [|k0' [|k1' [|]]]; try discriminate Hbk.
  all: destruct buf' as [|b0' [|b1' [|b2' [|b3' [|]]]]]; try discriminate Hbb.
  all: simpl in *; split_Forall; subst.
  all: eexists; split;
       [ unfold Philox.state_get; rewrite bind_get; crunch; reflexivity
       | unfold Philox.state_set, check_state_array, philox_copy_onto; crunch; reflexivity ].
Qed.

(** * Objects on the heap *)

Lemma on_Some {O A} (l : positive) (m : Meth O A) (h : gmap positive O) (o : O) :
  h !! l = Some o -> on l m h = (<[l := (m o).1]> h, (m o).2).
Proof. unfold on. intros ->. reflexivity. Qed.

Lemma fresh_lookup {O} (h : gmap positive O) : h !! fresh (dom h) = None.
Proof. apply not_elem_of_dom, is_fresh. Qed.

Lemma fresh_ne {O} (h : gmap positive O) (l : positive) (o : O) :
  h !! l = Some o -> l <> fresh (dom h).
Proof. intros H ->. rewrite fresh_lookup in H. discriminate. Qed.

(** * Philox: [jump_inplace], [jump], [jumped] *)

Section PhiloxJump.

Import Philox.

Variable C : philox_h.
Variable sba : list Z -> Z -> list Z.

Lemma jump_inplace_eq iter p :
  jump_inplace C iter p = advance C (iter * 2 ^ (w p * n p / 2)) (Some true) p.
Proof. reflexivity. Qed.

Lemma advance_Ok delta counter p :
  (n p = 2 \/ n p = 4) -> (w p = 32 \/ w p = 64) -> (advance C delta counter p).2 = Ok tt.
Proof.
  intros HN HW. destruct (Z.eq_dec delta 0) as [-> | Hd]; [reflexivity|].
  apply advance_clears; assumption.
Qed.

Lemma inv_supported p : philox_inv p -> (n p = 2 \/ n p = 4) /\ (w p = 32 \/ w p = 64).
Proof. intros [[HN HW] Hn Hw _]. rewrite <- Hn, <- Hw. auto. Qed.

Lemma jumped_spec ent (h : gmap positive Philox) self p b iter :
  h !! self = Some p -> philox_inv p ->
  __init__ sba ent None None None 4 64 blank = (b, Ok tt) ->
  fits_intp iter = true ->
  exists d q,
    state_get p = (p, Ok d) /\
    state_set (PyDict d) b = (q, Ok tt) /\
    q = philox_copy_onto p b /\
    (jump_inplace C iter q).2 = Ok tt /\
    jumped C sba ent self iter h
    = (<[fresh (dom h) := (jump_inplace C iter q).1]> h, Ok (fresh (dom h))).
Proof.
  intros Hself Hp Hinit Hiter.
  pose proof (init_inv sba ent None None None 4 64 b Hinit) as Hb.
  destruct Hb as [[_ _ Hc Hk Hbl _ _ _ _ _ _ _] _ _ _].
  destruct (philox_snapshot_copy p b Hp Hc Hk Hbl) as (d & Hget & Hset).
  exists d, (philox_copy_onto p b).
  assert (HOk : (jump_inplace C iter (philox_copy_onto p b)).2 = Ok tt).
  { rewrite jump_inplace_eq. destruct (inv_supported p Hp). apply advance_Ok; assumption. }
  repeat split; try assumption.
  set (l := fresh (dom h)).
  assert (Hne : self <> l) by (eapply fresh_ne; eassumption).
  unfold jumped, as_npy_intp. rewrite Hiter. rewrite bind_lift_Ok.
  unfold bind at 1. unfold new at 1. fold l.
  unfold bind at 1. rewrite (on_Some l _ _ blank) by apply lookup_insert_eq.
  rewrite Hinit. cbn [fst snd]. rewrite insert_insert_eq.
  unfold bind at 1. rewrite (on_Some self _ _ p) by (rewrite lookup_insert_ne by auto; exact Hself).
  rewrite Hget. cbn [fst snd].
  rewrite (insert_id (<[l := b]> h) self p) by (rewrite lookup_insert_ne by auto; exact Hself).
  unfold bind at 1. rewrite (on_Some l _ _ b) by apply lookup_insert_eq.
  rewrite Hset. cbn [fst snd]. rewrite insert_insert_eq.
  unfold bind at 1. rewrite (on_Some l _ _ (philox_copy_onto p b)) by apply lookup_insert_eq.
  rewrite insert_insert_eq.
  destruct (jump_inplace C iter (philox_copy_onto p b)) as [q' r]. simpl in HOk. subst r.
  reflexivity.
Qed.

End PhiloxJump.

(** * Loops that copy an array into a block *)

Lemma bind_ext {S A B} (m : Meth S A) (k k' : A -> Meth S B) (s : S) :
  (forall a s', k a s' = k' a s') -> bind m k s = bind m k' s.
Proof. intros H. unfold bind. destruct (m s) as [s' [a|e]]; [apply H | reflexivity]. Qed.

Lemma for_each_app {S} (l1 l2 : list nat) (body : nat -> Meth S unit) (s : S) :
  for_each (l1 ++ l2) body s = bind (for_each l1 body) (fun _ => for_each l2 body) s.
Proof.
  revert s. induction l1 as [|i l1 IH]; intros s; simpl.
  - reflexivity.
  - rewrite bind_assoc. apply bind_ext. intros _ s'. apply IH.
Qed.

Lemma insert_take_drop (arr l : list Z) (k : nat) :
  length l = length arr -> (k < length arr)%nat ->
  <[k := arr !!! k]> (take k arr ++ drop k l) = take (S k) arr ++ drop (S k) l.
Proof.
  intros Hlen Hk.
  rewrite insert_app_r_alt by (rewrite length_take; lia).
  rewrite length_take. replace (k - k `min` length arr)%nat with 0%nat by lia.
  destruct (drop k l) as [|x l'] eqn:E.
  { apply (f_equal length) in E. rewrite length_drop in E. simpl in E. lia. }
  simpl. rewrite (take_S_r arr k (arr !!! k)) by (apply list_lookup_lookup_total_lt, Hk).
  rewrite <- app_assoc. simpl. do 2 f_equal.
  replace (S k) with (k + 1)%nat by lia. rewrite <- drop_drop, E. reflexivity.
Qed.

Section DsfmtCopy.

Import DSFMT.

Lemma buffered_loop (arr : list Z) (s : DSFMT) (k : nat) :
  length (buffered_uniforms (rng_state s)) = length arr -> (k <= length arr)%nat ->
  for_each (seq 0 k) (fun i =>
    v <- lift (item arr i) ;;
    modify (set_rng (set_buffered_uniforms (fun l => <[i := v]> l)))) s
  = (set_rng (set_buffered_uniforms (fun l => take k arr ++ drop k l)) s, Ok tt).
Proof.
  intros Hlen. induction k as [|k IH]; intros Hk.
  - simpl. unfold ret. destruct s as [[t h u b loc] tb]. reflexivity.
  - rewrite seq_S, for_each_app. rewrite (bind_Ok _ _ _ _ _ (IH ltac:(lia))).
    cbn [for_each Nat.add]. rewrite bind_assoc.
    rewrite item_lookup by lia. rewrite bind_lift_Ok, bind_modify. unfold ret.
    destruct s as [[t h u b loc] tb]. unfold set_rng, set_buffered_uniforms. simpl in *.
    rewrite insert_take_drop by (assumption || lia). reflexivity.
Qed.

Lemma status_loop (arr : list Z) (s : DSFMT) (k : nat) :
  length (status (state (rng_state s))) = length arr ->
  Forall (fun x => in_range 64 x = true) arr ->
  (2 * k <= length arr)%nat ->
  for_each (seq 0 k) (fun i =>
    for_range 2 (fun j =>
      v <- lift (obind (item arr (2 * i + j)) (as_uint 64)) ;;
      modify (set_rng (set_state (set_status (fun l => <[(2 * i + j)%nat := v]> l)))))) s
  = (set_rng (set_state (set_status (fun l => take (2 * k) arr ++ drop (2 * k) l))) s, Ok tt).
Proof.
  intros Hlen Harr. induction k as [|k IH]; intros Hk.
  - simpl. unfold ret. destruct s as [[[st ix] h u b loc] tb]. reflexivity.
  - rewrite seq_S, for_each_app. rewrite (bind_Ok _ _ _ _ _ (IH ltac:(lia))).
    cbn [for_each Nat.add]. unfold for_range. change (Z.to_nat 2) with 2%nat.
    cbn [seq for_each].
    assert (Hr : forall i, (i < length arr)%nat -> obind (item arr i) (as_uint 64) = Ok (arr !!! i)).
    { intros i Hi. rewrite item_lookup by exact Hi. cbn [obind]. apply as_uint_in_range.
      rewrite Forall_lookup in Harr. apply (Harr i), list_lookup_lookup_total_lt, Hi. }
    rewrite !Hr by lia.
    repeat (first [rewrite bind_assoc | rewrite bind_lift_Ok | rewrite bind_modify | rewrite bind_ret];
            cbv beta).
    unfold ret. destruct s as [[[st ix] h u b loc] tb].
    unfold set_rng, set_state, set_status. simpl in Hlen |- *.
    do 4 f_equal.
    replace (k + (k + 0) + 0)%nat with (2 * k)%nat by lia.
    replace (k + (k + 0) + 1)%nat with (S (2 * k)) by lia.
    replace (k + (k + 0))%nat with (2 * k)%nat by lia.
    rewrite insert_take_drop by (assumption || lia).
    rewrite insert_take_drop by (assumption || lia).
    replace (S (k + S (k + 0))) with (S (S (2 * k))) by lia. reflexivity.
Qed.

Lemma dsfmt_snapshot_copy q b :
  dsfmt_layout (rng_state q) ->
  length (status (state (rng_state b))) = Z.to_nat (2 * DSFMT_N_PLUS_1) ->
  length (buffered_uniforms (rng_state b)) = Z.to_nat DSFMT_N64 ->
  exists d, state_get q = (q, Ok d) /\
            state_set (PyDict d) b = (dsfmt_copy_onto q b, Ok tt).
Proof.
  intros Hl Hbs Hbb. eexists. split; [apply dsfmt_state_get_eq, Hl|].
  destruct Hl as [[Hlen Hst Hidx] Hbl Hloc].
  unfold state_set. cbn [d_bit_generator d_state d_buffer_loc d_buffered_uniforms
                         d_state_state d_idx default].
  rewrite bool_decide_eq_true_2 by reflexivity. cbn [negb subscript obind].
  rewrite bind_lift_Ok. cbn [d_state_state d_idx subscript obind].
  unfold check_state_array. rewrite Hlen.
  change (Z.of_nat (Z.to_nat (2 * DSFMT_N_PLUS_1)) =? 2 * DSFMT_N_PLUS_1) with true.
  rewrite (forallb_of_Forall _ _ Hst). cbn [andb].
  rewrite bind_lift_Ok.
  unfold for_range at 1. change (Z.to_nat DSFMT_N_PLUS_1) with 192%nat.
  assert (H1 := status_loop (status (state (rng_state q))) b 192).
  rewrite (bind_Ok _ _ _ _ _ (H1 ltac:(congruence) Hst
             ltac:(rewrite Hlen; vm_compute; apply le_n))). clear H1.
  rewrite bind_lift_Ok. cbn [d_state_state d_idx subscript obind].
  rewrite as_int_fits by exact Hidx.
  rewrite bind_lift_Ok, bind_modify, bind_lift_Ok.
  unfold for_range at 1. change (Z.to_nat DSFMT_N64) with 382%nat.
  match goal with
  | |- bind _ _ ?s0 = _ =>
      assert (H2 := buffered_loop (buffered_uniforms (rng_state q)) s0 382)
  end.
  rewrite (bind_Ok _ _ _ _ _ (H2 ltac:(simpl; congruence)
             ltac:(rewrite Hbl; vm_compute; apply le_n))). clear H2.
  rewrite as_int_fits by exact Hloc. rewrite bind_lift_Ok. unfold modify.
  destruct q as [[[st ix] h u bf loc] tb], b as [[[st' ix'] h' u' bf' loc'] tb'].
  unfold dsfmt_copy_onto, set_rng, set_state, set_status, set_idx, set_buffered_uniforms,
    set_buffer_loc. simpl in *.
  change (2 * 192)%nat with 384%nat.
  change (Z.to_nat (2 * DSFMT_N_PLUS_1)) with 384%nat in *.
  change (Z.to_nat DSFMT_N64) with 382%nat in *.
  rewrite (take_ge st) by lia. rewrite (drop_ge st') by lia.
  rewrite (take_ge bf) by lia. rewrite (drop_ge bf') by lia.
  rewrite !app_nil_r. reflexivity.
Qed.

End DsfmtCopy.

(** * DSFMT: [jump_inplace], [jump], [jumped] *)

Section DsfmtJump.

Import DSFMT.

Variable C : dSFMT_h.

Lemma dsfmt_jump_inplace_ok iter q :
  0 <= iter -> fits_int iter = true ->
  jump_inplace C iter q
  = (set_rng (set_buffer_loc DSFMT_N64)
       (set_rng (fun st => Nat.iter (Z.to_nat iter) (dsfmt_jump C) st) q), Ok tt).
Proof.
  intros H0 Hfit. unfold jump_inplace.
  destruct (Z.ltb_spec iter 0) as [|_]; [lia|].
  rewrite as_int_fits by exact Hfit. reflexivity.
Qed.

Lemma dsfmt_jump_inplace_negative iter q :
  iter < 0 -> jump_inplace C iter q = (q, Raise ValueError).
Proof.
  intros H. unfold jump_inplace. destruct (Z.ltb_spec iter 0) as [_|]; [reflexivity | lia].
Qed.

Lemma dsfmt_init_default mem ent :
  exists b, __init__ C mem ent None blank = (b, Ok tt).
Proof. eexists. reflexivity. Qed.

Lemma dsfmt_jumped_spec (HC : dSFMT_h_ok C) mem ent (h : gmap positive DSFMT) self q iter :
  h !! self = Some q -> dsfmt_layout (rng_state q) -> dsfmt_t_layout mem ->
  0 <= iter -> fits_int iter = true ->
  exists b d q0,
    __init__ C mem ent None blank = (b, Ok tt) /\
    state_get q = (q, Ok d) /\
    state_set (PyDict d) b = (q0, Ok tt) /\
    q0 = dsfmt_copy_onto q b /\
    (jump_inplace C iter q0).2 = Ok tt /\
    jumped C mem ent self iter h
    = (<[fresh (dom h) := (jump_inplace C iter q0).1]> h, Ok (fresh (dom h))).
Proof.
  intros Hself Hq Hmem H0 Hfit.
  destruct (dsfmt_init_default mem ent) as [b Hinit].
  pose proof (dsfmt_init_ok C HC mem ent None b Hmem Hinit) as [[Hbs _ _] Hbb _].
  destruct (dsfmt_snapshot_copy q b Hq Hbs Hbb) as (d & Hget & Hset).
  exists b, d, (dsfmt_copy_onto q b).
  assert (HOk : (jump_inplace C iter (dsfmt_copy_onto q b)).2 = Ok tt)
    by (rewrite dsfmt_jump_inplace_ok by assumption; reflexivity).
  repeat split; try assumption.
  set (l := fresh (dom h)).
  assert (Hne : self <> l) by (eapply fresh_ne; eassumption).
  assert (Hintp : fits_intp iter = true).
  { unfold fits_int in Hfit. unfold fits_intp.
    apply andb_true_iff in Hfit as [H1 H2]. apply Z.leb_le in H1. apply Z.ltb_lt in H2.
    apply andb_true_iff. split; [apply Z.leb_le | apply Z.ltb_lt]; lia. }
  unfold jumped, as_npy_intp. rewrite Hintp. rewrite bind_lift_Ok.
  unfold bind at 1. unfold new at 1. fold l.
  unfold bind at 1. rewrite (on_Some l _ _ blank) by apply lookup_insert_eq.
  rewrite Hinit. cbn [fst snd]. rewrite insert_insert_eq.
  unfold bind at 1. rewrite (on_Some self _ _ q) by (rewrite lookup_insert_ne by auto; exact Hself).
  rewrite Hget. cbn [fst snd].
  rewrite (insert_id (<[l := b]> h) self q) by (rewrite lookup_insert_ne by auto; exact Hself).
  unfold bind at 1. rewrite (on_Some l _ _ b) by apply lookup_insert_eq.
  rewrite Hset. cbn [fst snd]. rewrite insert_insert_eq.
  unfold bind at 1. rewrite (on_Some l _ _ (dsfmt_copy_onto q b)) by apply lookup_insert_eq.
  rewrite insert_insert_eq.
  destruct (jump_inplace C iter (dsfmt_copy_onto q b)) as [q' r]. simpl in HOk. subst r.
  reflexivity.
Qed.

End DsfmtJump.

(** * The stand-in cores respect the layout *)

Lemma mod_in_range bits v : 0 <= bits -> in_range bits (v mod 2 ^ bits) = true.
Proof. intros H. apply in_range_spec, Z.mod_pos_bound, Z.pow_pos_nonneg; lia. Qed.

Lemma layout_set_ctr st i x :
  philox_layout st -> in_range (Philox.width st) x = true ->
  philox_layout (Philox.set_ctr (fun l => <[i := x]> l) st).
Proof.
  intros [] Hx. split; simpl; try assumption.
  - rewrite length_insert. assumption.
  - apply Forall_take_insert; assumption.
Qed.

Lemma layout_width_nonneg st : philox_layout st -> 0 <= Philox.width st.
Proof. intros [_ [-> | ->]]; lia. Qed.

Lemma counter_next_keeps m : philox_keeps m (fun st => (counter_next st).2).
Proof.
  intros st Hl _. simpl. split; [|split; reflexivity].
  apply layout_set_ctr; [exact Hl|]. apply mod_in_range, layout_width_nonneg, Hl.
Qed.

Lemma counter_advance_keeps m step c : philox_keeps m (fun st => counter_advance st step c).
Proof.
  intros st Hl _. unfold counter_advance. split; [|split; reflexivity].
  apply layout_set_ctr; [exact Hl|]. apply mod_in_range, layout_width_nonneg, Hl.
Qed.

Lemma counter_core_ok : philox_h_ok counter_core.
Proof. split; intros; first [apply counter_next_keeps | apply counter_advance_keeps]. Qed.

Lemma fits_int_mod v : fits_int (v mod 382) = true.
Proof.
  pose proof (Z.mod_pos_bound v 382 ltac:(lia)) as H. unfold fits_int.
  apply andb_true_iff. split; [apply Z.leb_le | apply Z.ltb_lt]; lia.
Qed.

Lemma Forall_repeat {A} (P : A -> Prop) (x : A) (k : nat) : P x -> Forall P (repeat x k).
Proof. intros H. induction k; simpl; constructor; assumption. Qed.

Lemma index_core_ok : dSFMT_h_ok index_core.
Proof.
  split; cbn -[repeat Z.pow Z.modulo].
  1-4: intros st [[H1 H2 H3] H4 H5]; repeat split; cbn -[Z.modulo]; try assumption;
       apply fits_int_mod.
  1-2: intros; split; cbn -[repeat Z.pow Z.modulo];
       [ reflexivity | apply Forall_repeat, mod_in_range; lia | reflexivity ].
  intros st [[H1 H2 H3] H4 H5]; repeat split; cbn -[Z.modulo]; try assumption;
    apply fits_int_mod.
Qed.

Lemma stale_block_layout : dsfmt_t_layout stale_block.
Proof.
  split; cbn -[repeat]; [reflexivity | apply Forall_repeat; reflexivity | reflexivity].
Qed.

Lemma philox_1234_reachable : philox_reachable counter_core repeat_seed philox_1234.
Proof.
  apply (reach_init _ _ zero_entropy (Some (SInt 1234)) None None 4 64).
  vm_compute. reflexivity.
Qed.

Lemma dsfmt_1234_reachable : dsfmt_reachable index_core dsfmt_1234.
Proof.
  apply (dreach_init _ stale_block zero_entropy (Some (SInt 1234))).
  - apply stale_block_layout.
  - vm_compute. reflexivity.
Qed.

(** * [jumped] leaves the existing objects alone *)

Section Frame.

Context {O : Type}.
Variable h0 : gmap positive O.

Lemma on_fresh_preserves {A} (m : Meth O A) :
  preserves (heap_extends h0) (on (fresh (dom h0)) m).
Proof.
  intros h Hh. unfold on. destruct (h !! fresh (dom h0)) as [x|]; [|exact Hh].
  intros l o Hl. simpl. rewrite lookup_insert_ne; [apply Hh, Hl|].
  intros <-. rewrite fresh_lookup in Hl. discriminate.
Qed.

Lemma on_pure_preserves {A} (l : positive) (m : Meth O A) :
  (forall x, (m x).1 = x) -> preserves (heap_extends h0) (on l m).
Proof.
  intros Hm h Hh. unfold on. destruct (h !! l) as [x|] eqn:E; [|exact Hh].
  intros l' o Hl. simpl. rewrite Hm. rewrite insert_id by exact E. apply Hh, Hl.
Qed.

Lemma new_extends (o : O) : heap_extends h0 (<[fresh (dom h0) := o]> h0).
Proof.
  intros l x Hl. rewrite lookup_insert_ne; [exact Hl|].
  intros <-. rewrite fresh_lookup in Hl. discriminate.
Qed.

End Frame.

Lemma philox_state_get_pure p : (Philox.state_get p).1 = p.
Proof.
  assert (H : preserves (eq p) Philox.state_get).
  { unfold Philox.state_get. pres. intros s Hs. exact Hs. }
  symmetry. exact (H p eq_refl).
Qed.

Lemma dsfmt_state_get_pure q : (DSFMT.state_get q).1 = q.
Proof. reflexivity. Qed.

Lemma philox_jumped_frame C sba ent self iter (h : gmap positive Philox.Philox) l o :
  h !! l = Some o -> (Philox.jumped C sba ent self iter h).1 !! l = Some o.
Proof.
  revert l o. change (heap_extends h (Philox.jumped C sba ent self iter h).1).
  unfold Philox.jumped.
  destruct (as_npy_intp iter) as [i|e]; [|intros l o Hl; exact Hl].
  rewrite bind_lift_Ok. unfold bind at 1. unfold new at 1.
  match goal with
  | |- heap_extends _ (?M ?s).1 => cut (preserves (heap_extends h) M); [intros HM; apply HM, new_extends|]
  end.
  pres; try apply on_fresh_preserves.
  apply on_pure_preserves, philox_state_get_pure.
Qed.

Lemma dsfmt_jumped_frame C mem ent self iter (h : gmap positive DSFMT.DSFMT) l o :
  h !! l = Some o -> (DSFMT.jumped C mem ent self iter h).1 !! l = Some o.
Proof.
  revert l o. change (heap_extends h (DSFMT.jumped C mem ent self iter h).1).
  unfold DSFMT.jumped.
  destruct (as_npy_intp iter) as [i|e]; [|intros l o Hl; exact Hl].
  rewrite bind_lift_Ok. unfold bind at 1. unfold new at 1.
  match goal with
  | |- heap_extends _ (?M ?s).1 => cut (preserves (heap_extends h) M); [intros HM; apply HM, new_extends|]
  end.
  pres; try apply on_fresh_preserves.
  apply on_pure_preserves, dsfmt_state_get_pure.
Qed.

(** * Philox: the variant the setter selects *)

Section PhiloxSetterVariant.

Import Philox.

Lemma variant_payload N W B (f : philox_all_t -> philox_all_t) :
  (forall st, number (f st) = number st /\ width (f st) = width st) ->
  preserves (philox_variant N W B) (modify (set_rng f)).
Proof.
  intros Hf. apply preserves_modify. intros s (Hn & Hw & Hnum & Hwid & Hb).
  destruct (Hf (rng_state s)) as [H1 H2].
  unfold philox_variant. simpl. rewrite H1, H2. auto.
Qed.

(** X1.  The state setter on a dictionary tagged ['Philox'] whose [number]
    and [width], with 4 and 64 for a missing key, name a supported variant:
    whatever the outcome of the call, the instance ends with that [number]
    and [width] on both sides of the C boundary and with the function table
    of that variant. *)
Theorem setter_selects_supported_variant (d : state_dict) (p : Philox) :
  d_bit_generator d = Some "Philox"%string ->
  (default 4 (d_number d) = 2 \/ default 4 (d_number d) = 4) ->
  (default 64 (d_width d) = 32 \/ default 64 (d_width d) = 64) ->
  philox_variant (default 4 (d_number d)) (default 64 (d_width d))
    (philox_table (default 4 (d_number d)) (default 64 (d_width d)))
    (state_set (PyDict d) p).1.
Proof.
  intros Htag HN HW. unfold state_set. rewrite Htag. cbn [default].
  rewrite bool_decide_eq_true_2 by reflexivity. cbn [negb].
  generalize dependent (default 4 (d_number d)). intros N HN.
  generalize dependent (default 64 (d_width d)). intros W HW.
  rewrite (as_int_fits N) by (destruct HN as [-> | ->]; reflexivity).
  rewrite bind_lift_Ok, !bind_modify.
  rewrite (as_int_fits W) by (destruct HW as [-> | ->]; reflexivity).
  rewrite bind_lift_Ok, !bind_modify.
  unfold _setup_generator at 1. rewrite bind_assoc, bind_get. cbv beta.
  destruct HN as [-> | ->], HW as [-> | ->]; cbn [n w set_n set_w set_rng Z.eqb Pos.eqb andb];
    rewrite bind_modify, bind_get; cbv beta;
    match goal with
    | |- philox_variant ?N ?W ?B (?M ?s).1 =>
        cut (preserves (philox_variant N W B) M);
        [ intros HM; apply HM; repeat split; reflexivity | ]
    end;
    unfold _reset_state_variables, store_u32, store_u64, store_ctr, store_key; pres;
    apply variant_payload; intros st; split; reflexivity.
Qed.

End PhiloxSetterVariant.

(** * Calls that raise *)

Lemma raises_only_ret {S A} (P : exn -> Prop) (a : A) : raises_only P (@ret S A a).
Proof. intros s s' e H. discriminate. Qed.

Lemma raises_only_modify {S} (P : exn -> Prop) (f : S -> S) : raises_only P (modify f).
Proof. intros s s' e H. discriminate. Qed.

Lemma raises_only_lift {S A} (P : exn -> Prop) (r : outcome A) :
  (forall e, r = Raise e -> P e) -> raises_only P (@lift S A r).
Proof. intros Hr s s' e [= _ ->]. apply Hr. reflexivity. Qed.

Lemma raises_only_bind {S A B} (P : exn -> Prop) (m : Meth S A) (k : A -> Meth S B) :
  raises_only P m -> (forall a, raises_only P (k a)) -> raises_only P (bind m k).
Proof.
  intros Hm Hk s s' e. unfold bind. destruct (m s) as [s1 [a|e1]] eqn:E.
  - apply Hk.
  - intros [= _ <-]. eapply Hm, E.
Qed.

Lemma raises_only_for_range {S} (P : exn -> Prop) (k : Z) (body : nat -> Meth S unit) :
  (forall i, raises_only P (body i)) -> raises_only P (for_range k body).
Proof.
  intros Hb. unfold for_range. induction (seq 0 (Z.to_nat k)) as [|i l IH]; simpl.
  - apply raises_only_ret.
  - apply raises_only_bind; [apply Hb | intros _; exact IH].
Qed.

Lemma getitem_raises a i e : getitem a i = Raise e -> e <> ValueError.
Proof. unfold getitem. destruct (arr_data a !! i); [discriminate | intros [= <-]; discriminate]. Qed.

Lemma as_uint_raises bits v e : as_uint bits v = Raise e -> e <> ValueError.
Proof. unfold as_uint. destruct (in_range bits v); [discriminate | intros [= <-]; discriminate]. Qed.

Lemma object_to_int_range v bits z :
  object_to_int v bits = Ok (Some z) -> in_range bits z = true.
Proof.
  destruct v as [[x|l]|]; simpl; [| |discriminate].
  - destruct (in_range bits x) eqn:E; [intros [= <-]; exact E | discriminate].
  - destruct (forallb (in_range 64) l); simpl; [|discriminate].
    destruct (in_range bits (from_words 64 l)) eqn:E; [intros [= <-]; exact E | discriminate].
Qed.

Section PhiloxSeedValidation.

Import Philox.

Lemma store_key_raises m i v : raises_only (fun e => e <> ValueError) (store_key m i v).
Proof.
  unfold store_key. apply raises_only_bind; [|intros; apply raises_only_modify].
  apply raises_only_lift. intros e. apply as_uint_raises.
Qed.

Lemma store_ctr_raises m i v : raises_only (fun e => e <> ValueError) (store_ctr m i v).
Proof.
  unfold store_ctr. apply raises_only_bind; [|intros; apply raises_only_modify].
  apply raises_only_lift. intros e. apply as_uint_raises.
Qed.

Lemma reset_raises : raises_only (fun e => e <> ValueError) _reset_state_variables.
Proof.
  unfold _reset_state_variables.
  do 3 (apply raises_only_bind; [apply raises_only_modify | intros _]).
  apply raises_only_for_range. intros i. unfold store_u64.
  apply raises_only_bind; [|intros; apply raises_only_modify].
  apply raises_only_lift. intros e. apply as_uint_raises.
Qed.

Ltac inv_raise H :=
  repeat lazymatch type of H with
         | bind get _ _ = _ => rewrite bind_get in H; cbv beta in H
         | bind (ret _) _ _ = _ => rewrite bind_ret in H; cbv beta in H
         | bind (bind _ _) _ _ = _ => rewrite bind_assoc in H
         | bind (lift ?r) _ _ = _ =>
             let E := fresh "E" in
             destruct r eqn:E;
             [ rewrite bind_lift_Ok in H; cbv beta in H
             | rewrite bind_lift_Raise in H; injection H as <- _; reflexivity ]
         | raise _ _ = _ => unfold raise in H; injection H as <-; reflexivity
         | (if ?b then _ else _) _ = _ => destruct b eqn:?
         | bind (match ?x with _ => _ end) _ _ = _ => destruct x eqn:?
         | (let _ := _ in _) _ = _ => cbv zeta in H
         end.

(** X2.  On an instance of a supported variant, a [ValueError] raised by
    [Philox.seed] (a seed, key or counter out of range, or seed and key
    given together) leaves every field of the instance as it was: it comes
    before the first write. *)
Theorem seed_validation_error_leaves_state (sba : list Z -> Z -> list Z) ent s c k p p' :
  (n p = 2 \/ n p = 4) -> (w p = 32 \/ w p = 64) ->
  seed sba ent s c k p = (p', Raise ValueError) -> p' = p.
Proof.
  intros HN HW H. unfold seed in H. cbv zeta in H. inv_raise H.
  all: exfalso; revert H.
  all: match goal with
       | |- ?M ?s0 = (_, Raise ValueError) -> False =>
           cut (raises_only (fun e => e <> ValueError) M);
           [ intros HM H; exact (HM _ _ _ H eq_refl) | ]
       end.
  all: apply raises_only_bind;
       [ apply raises_only_for_range; intros i;
         apply raises_only_bind; [|intros; apply store_key_raises];
         apply raises_only_lift; intros e; apply getitem_raises
       | intros _ ].
  all: apply raises_only_bind;
       [ apply raises_only_lift
       | intros cnt; apply raises_only_bind; [|intros _; apply reset_raises];
         apply raises_only_for_range; intros i;
         apply raises_only_bind; [|intros; apply store_ctr_raises];
         apply raises_only_lift; intros e; apply getitem_raises ].
  all: intros e He; unfold int_to_array in He.
  all: assert (Hd : exists dt, dtype_of_size (w p) = Ok dt)
         by (destruct HW as [-> | ->]; eexists; reflexivity);
       destruct Hd as [dt Hd]; rewrite Hd in He; cbn [obind] in He.
  all: match type of He with
       | (if in_range ?b ?v then _ else _) = _ =>
           assert (Hr : in_range b v = true); [| rewrite Hr in He; discriminate He]
       end.
  all: match goal with
       | |- in_range _ (default 0 ?a) = true => destruct a; cbn [default]
       end.
  all: try (eapply object_to_int_range; eassumption).
  all: apply in_range_spec; split; [lia|]; apply Z.pow_pos_nonneg; [lia|];
       destruct HN as [-> | ->], HW as [-> | ->]; discriminate.
Qed.

End PhiloxSeedValidation.

(** * Restoring a snapshot on another instance *)

Lemma philox_copy_snapshot p b d :
  philox_inv p -> philox_inv b ->
  Philox.state_get p = (p, Ok d) ->
  Philox.state_get (philox_copy_onto p b) = (philox_copy_onto p b, Ok d).
Proof.
  intros Hp Hb.
  destruct Hb as [[_ _ Hbc Hbk Hbb _ _ _ _ _ _ _] _ _ _].
  destruct (inv_table_cases p Hp) as [(Hn & Hw & Hb) | [(Hn & Hw & Hb) | [(Hn & Hw & Hb) | (Hn & Hw & Hb)]]].
  all: destruct Hp as [Hl Hn' Hw' _].
  all: destruct p as [[[ctr key] bp buf h u num wid] n w B]; simpl in *; subst.
  all: destruct b as [[[ctr' key'] bp' buf' h' u' num' wid'] n' w' B']; simpl in *.
  all: destruct Hl as [_ _ Hc Hk Hbl Hcr Hkr Hbr Hb0 Hbp Hh Hu]; simpl in *.
  all: destruct ctr as [|c0 [|c1 [|c2 [|c3 [|]]]]]; try discriminate Hc.
  all: destruct key as [|k0 [|k1 [|]]]; try discriminate Hk.
  all: destruct buf as [|b0 [|b1 [|b2 [|b3 [|]]]]]; try discriminate Hbl.
  all: destruct ctr' as [|c0' [|c1' [|c2' [|c3' [|]]]]]; try discriminate Hbc.
  all: destruct key' as [|k0' [|k1' [|]]]; try discriminate Hbk.
  all: destruct buf' as [|b0' [|b1' [|b2' [|b3' [|]]]]]; try discriminate Hbb.
  all: simpl in *; split_Forall; subst.
  all: unfold Philox.state_get, philox_copy_onto; rewrite !bind_get; crunch.
  all: intros [= <-]; reflexivity.
Qed.

Lemma philox_1234_inv : philox_inv philox_1234.
Proof. apply (reachable_inv counter_core repeat_seed counter_core_ok), philox_1234_reachable. Qed.

Lemma dsfmt_1234_ok : dsfmt_ok dsfmt_1234.
Proof. apply (dsfmt_reachable_ok index_core index_core_ok), dsfmt_1234_reachable. Qed.

Lemma philox_default_init :
  Philox.__init__ repeat_seed zero_entropy None None None 4 64 Philox.blank
  = (philox_default, Ok tt).
Proof. vm_compute. reflexivity. Qed.


(** * The claims *)

(** C1.  Round trip of the [state] property.  For every reachable state of a
    [Philox] or a [DSFMT] instance (construction followed by any sequence of
    [seed], [advance], [jump] and draws, on cores that respect the layout of
    the state block), reading the state and setting it back succeeds and the
    outputs drawn afterwards through any sequence of the four entry points
    are those drawn without the round trip. *)
Theorem state_roundtrip_reproduces_outputs
    (CP : Philox.philox_h) (sba : list Z -> Z -> list Z) (CD : DSFMT.dSFMT_h)
    (p : Philox.Philox) (q : DSFMT.DSFMT)
    (es : list Philox.entry_point) (es' : list DSFMT.entry_point) :
  philox_h_ok CP -> dSFMT_h_ok CD ->
  philox_reachable CP sba p -> dsfmt_reachable CD q ->
  (philox_roundtrip p).2 = Ok tt /\
  Philox.draws CP es (philox_roundtrip p).1 = Philox.draws CP es p /\
  (dsfmt_roundtrip q).2 = Ok tt /\
  DSFMT.draws CD es' (dsfmt_roundtrip q).1 = DSFMT.draws CD es' q.
Proof.
  intros HP HD Hp Hq.
  rewrite (philox_roundtrip_id p) by (eapply reachable_inv; eassumption).
  rewrite (dsfmt_roundtrip_id q) by (eapply dsfmt_reachable_ok; eassumption).
  repeat split; reflexivity.
Qed.

(** A run of C1 on [Philox(1234)] and [DSFMT(1234)]. *)
Lemma state_roundtrip_reproduces_outputs_witness :
  (philox_roundtrip philox_1234).2 = Ok tt /\
  Philox.draws counter_core
    [Philox.e_next_uint64; Philox.e_next_uint32; Philox.e_next_double; Philox.e_next_raw]
    (philox_roundtrip philox_1234).1
  = Philox.draws counter_core
      [Philox.e_next_uint64; Philox.e_next_uint32; Philox.e_next_double; Philox.e_next_raw]
      philox_1234 /\
  (dsfmt_roundtrip dsfmt_1234).2 = Ok tt /\
  DSFMT.draws index_core [DSFMT.e_next_double; DSFMT.e_next_uint32]
    (dsfmt_roundtrip dsfmt_1234).1
  = DSFMT.draws index_core [DSFMT.e_next_double; DSFMT.e_next_uint32] dsfmt_1234.
Proof.
  exact (state_roundtrip_reproduces_outputs counter_core repeat_seed index_core
           philox_1234 dsfmt_1234 _ _
           counter_core_ok index_core_ok philox_1234_reachable dsfmt_1234_reachable).
Defined.

(** C2.  Determinism.  Two [Philox] instances constructed with the same seed
    (and the same other arguments) end construction in the same state with
    the same outcome, whatever the entropy source returns to either, and so
    give the same [N] outputs of [next_uint64], for every [N]. *)
Theorem philox_same_seed_same_outputs
    (C : Philox.philox_h) (sba : list Z -> Z -> list Z) (ent1 ent2 : Z -> list Z)
    (s : seed_like) (counter key : option seed_like) (number width : Z) (N : nat) :
  Philox.__init__ sba ent1 (Some s) counter key number width Philox.blank
  = Philox.__init__ sba ent2 (Some s) counter key number width Philox.blank /\
  Philox.draws C (repeat Philox.e_next_uint64 N)
    (Philox.__init__ sba ent1 (Some s) counter key number width Philox.blank).1
  = Philox.draws C (repeat Philox.e_next_uint64 N)
      (Philox.__init__ sba ent2 (Some s) counter key number width Philox.blank).1.
Proof.
  assert (Hseed : forall p, Philox.seed sba ent1 (Some s) counter key p
                            = Philox.seed sba ent2 (Some s) counter key p).
  { intros p. unfold Philox.seed. rewrite !bind_get. cbv beta zeta.
    destruct (object_to_int (Some s) (Philox.n p * Philox.w p / 2)) as [[z|]|e] eqn:E;
      rewrite ?bind_lift_Ok, ?bind_lift_Raise; try reflexivity.
    destruct s; simpl in E;
      repeat match type of E with (if ?b then _ else _) = _ => destruct b end;
      discriminate. }
  assert (Hinit : Philox.__init__ sba ent1 (Some s) counter key number width Philox.blank
                  = Philox.__init__ sba ent2 (Some s) counter key number width Philox.blank).
  { unfold Philox.__init__.
    destruct (negb _); [reflexivity|]. destruct (negb _); [reflexivity|].
    rewrite !bind_modify. unfold bind. rewrite Hseed. reflexivity. }
  split; [exact Hinit | rewrite Hinit; reflexivity].
Qed.






(** C5 (as stated, refuted).  On a 4x64 instance that holds a cached half
    word, [advance(2^256)] clears the cache and empties the buffer, whereas
    [advance(2^256 mod 2^(N*W))] is [advance(0)] and returns at once: the two
    calls leave different states, whatever the core does. *)
Lemma advance_full_period_differs :
  (forall C, Philox.has_uint32 (Philox.rng_state
     (Philox.advance C (2 ^ 256) (Some true) philox_half_cached).1) = 0) /\
  (forall C, Philox.has_uint32 (Philox.rng_state
     (Philox.advance C (2 ^ 256 mod 2 ^ (Philox.n philox_half_cached * Philox.w philox_half_cached))
        (Some true) philox_half_cached).1) = 1).
Proof.
  split; intros C.
  - apply advance_clears; [right | right | ]; reflexivity || discriminate.
  - reflexivity.
Qed.

(** C5 (amended).  On an instance of a supported variant, [advance] reduces
    its argument by Euclidean remainder modulo the size of the state space,
    [2^(N*W)] counter values in counter mode and [2^(N*W + N/2)] draws
    otherwise: for every [delta] that is zero or not a multiple of that size,
    [advance(delta)] and [advance(delta mod size)] are the same call. *)
Theorem advance_reduces_delta
    (C : Philox.philox_h) (delta : Z) (counter : option bool) (p : Philox.Philox) :
  (Philox.n p = 2 \/ Philox.n p = 4) -> (Philox.w p = 32 \/ Philox.w p = 64) ->
  (delta = 0 \/
   delta mod philox_state_space (Philox.n p) (Philox.w p) (default true counter) <> 0) ->
  Philox.advance C delta counter p
  = Philox.advance C
      (delta mod philox_state_space (Philox.n p) (Philox.w p) (default true counter))
      counter p.
Proof.
  intros HN HW Hd.
  set (S := philox_state_space (Philox.n p) (Philox.w p) (default true counter)) in *.
  apply advance_congr.
  - split.
    + intros ->. apply Zmod_0_l.
    + intros Hm. destruct Hd as [Hd | Hd]; [exact Hd | contradiction].
  - cbv zeta. unfold wrap_int. subst S. unfold philox_state_space.
    destruct (default true counter).
    + assert (Hpow : 2 ^ (Philox.n p * Philox.w p + Philox.n p / 2)
                     = 2 ^ (Philox.n p * Philox.w p) * Philox.n p).
      { destruct HN as [-> | ->], HW as [-> | ->]; reflexivity. }
      rewrite Hpow.
      assert (Hn : Philox.n p <> 0) by (destruct HN as [-> | ->]; discriminate).
      rewrite !Z.mul_mod_distr_r by
        first [ exact Hn
              | apply Z.pow_nonzero;
                [discriminate | destruct HN as [-> | ->], HW as [-> | ->]; discriminate] ].
      rewrite Z.mod_mod by (apply Z.pow_nonzero;
        [discriminate | destruct HN as [-> | ->], HW as [-> | ->]; discriminate]).
      reflexivity.
    + rewrite Z.mod_mod by (apply Z.pow_nonzero;
        [discriminate | destruct HN as [-> | ->], HW as [-> | ->]; discriminate]).
      reflexivity.
Qed.

(** A run of C5 (amended): [delta = 2^256 + 5] in counter mode. *)
Lemma advance_reduces_delta_witness :
  Philox.advance counter_core (2 ^ 256 + 5) (Some true) philox_1234
  = Philox.advance counter_core
      ((2 ^ 256 + 5) mod philox_state_space (Philox.n philox_1234) (Philox.w philox_1234) true)
      (Some true) philox_1234.
Proof.
  apply (advance_reduces_delta counter_core (2 ^ 256 + 5) (Some true) philox_1234).
  - right. reflexivity.
  - right. reflexivity.
  - right. vm_compute. discriminate.
Defined.

(** C6 (as stated, refuted).  [advance(0, counter)] returns before it touches
    the state: on an instance that holds a cached half word the cache
    survives the call, for every core and every value of the flag. *)
Lemma advance_zero_keeps_cache :
  (forall C counter, Philox.has_uint32 (Philox.rng_state
     (Philox.advance C 0 counter philox_half_cached).1) = 1) /\
  (forall C counter, Philox.uinteger (Philox.rng_state
     (Philox.advance C 0 counter philox_half_cached).1) = 7).
Proof. split; intros C counter; reflexivity. Qed.

(** C6 (amended).  On an instance of a supported variant, for every non-zero
    [delta] and every value of the counter flag, [advance] returns normally
    and leaves [has_uint32 = 0] and [uinteger = 0] on the instance it was
    called on; [advance(0, counter)] returns at once and leaves the instance
    as it was. *)
Theorem advance_clears_cache
    (C : Philox.philox_h) (delta : Z) (counter : option bool) (p : Philox.Philox) :
  (Philox.n p = 2 \/ Philox.n p = 4) -> (Philox.w p = 32 \/ Philox.w p = 64) ->
  (delta <> 0 ->
   (Philox.advance C delta counter p).2 = Ok tt /\
   Philox.has_uint32 (Philox.rng_state (Philox.advance C delta counter p).1) = 0 /\
   Philox.uinteger (Philox.rng_state (Philox.advance C delta counter p).1) = 0) /\
  Philox.advance C 0 counter p = (p, Ok tt).
Proof.
  intros HN HW. split; [|reflexivity].
  intros Hd. apply advance_clears; assumption.
Qed.

(** A run of C6 (amended): [advance(-3, False)] on a cached half word. *)
Lemma advance_clears_cache_witness :
  Philox.has_uint32 (Philox.rng_state
    (Philox.advance counter_core (-3) (Some false) philox_half_cached).1) = 0 /\
  Philox.uinteger (Philox.rng_state
    (Philox.advance counter_core (-3) (Some false) philox_half_cached).1) = 0.
Proof.
  destruct (advance_clears_cache counter_core (-3) (Some false) philox_half_cached) as [H _].
  - right. reflexivity.
  - right. reflexivity.
  - destruct H as (_ & H1 & H2); [discriminate|]. split; assumption.
Defined.

(** C7 (as stated, refuted).  [jumped] takes [iter] as an [npy_intp]: with
    [iter = 2^63] the call raises [OverflowError] before an instance is
    created, and returns none. *)
Lemma jumped_iter_exceeds_intp :
  (forall C sba ent self (h : gmap positive Philox.Philox),
     Philox.jumped C sba ent self (2 ^ 63) h = (h, Raise OverflowError)) /\
  (forall C mem ent self (h : gmap positive DSFMT.DSFMT),
     DSFMT.jumped C mem ent self (2 ^ 63) h = (h, Raise OverflowError)).
Proof. split; intros; reflexivity. Qed.

(** C7 (amended).  For every instance and every non-negative [iter] that fits
    the C integer types it is passed in ([npy_intp]; for [DSFMT] also the
    [int] of [dsfmt_jump_n]), [jumped(iter)] returns a newly allocated
    instance: the snapshot of the caller read by the getter is set on a
    freshly constructed default instance, and the new instance is that copy
    after [jump_inplace(iter)].  For every [iter] whatsoever, the caller and
    every other existing instance are left as they were. *)
Theorem jumped_copies_then_jumps
    (CP : Philox.philox_h) (sba : list Z -> Z -> list Z) (CD : DSFMT.dSFMT_h)
    (ent : Z -> list Z) (mem : DSFMT.dsfmt_t)
    (hP : gmap positive Philox.Philox) (hD : gmap positive DSFMT.DSFMT)
    (selfP selfD : positive) (p b : Philox.Philox) (q : DSFMT.DSFMT) :
  hP !! selfP = Some p -> philox_inv p ->
  Philox.__init__ sba ent None None None 4 64 Philox.blank = (b, Ok tt) ->
  dSFMT_h_ok CD -> dsfmt_t_layout mem ->
  hD !! selfD = Some q -> dsfmt_ok q ->
  (forall iter, 0 <= iter -> fits_intp iter = true ->
     exists d c,
       Philox.state_get p = (p, Ok d) /\
       Philox.state_set (PyDict d) b = (c, Ok tt) /\
       (Philox.jump_inplace CP iter c).2 = Ok tt /\
       hP !! fresh (dom hP) = None /\
       Philox.jumped CP sba ent selfP iter hP
       = (<[fresh (dom hP) := (Philox.jump_inplace CP iter c).1]> hP, Ok (fresh (dom hP)))) /\
  (forall iter, 0 <= iter -> fits_int iter = true ->
     exists b' d c,
       DSFMT.__init__ CD mem ent None DSFMT.blank = (b', Ok tt) /\
       DSFMT.state_get q = (q, Ok d) /\
       DSFMT.state_set (PyDict d) b' = (c, Ok tt) /\
       (DSFMT.jump_inplace CD iter c).2 = Ok tt /\
       hD !! fresh (dom hD) = None /\
       DSFMT.jumped CD mem ent selfD iter hD
       = (<[fresh (dom hD) := (DSFMT.jump_inplace CD iter c).1]> hD, Ok (fresh (dom hD)))) /\
  (forall iter, heap_extends hP (Philox.jumped CP sba ent selfP iter hP).1 /\
                (Philox.jumped CP sba ent selfP iter hP).1 !! selfP = Some p) /\
  (forall iter, heap_extends hD (DSFMT.jumped CD mem ent selfD iter hD).1 /\
                (DSFMT.jumped CD mem ent selfD iter hD).1 !! selfD = Some q).
Proof.
  intros HselfP Hp Hinit HD Hmem HselfD Hq. split; [|split; [|split]].
  - intros iter H0 Hfit.
    destruct (jumped_spec CP sba ent hP selfP p b iter HselfP Hp Hinit Hfit)
      as (d & c & Hget & Hset & _ & HOk & Hj).
    exists d, c. repeat split; try assumption. apply fresh_lookup.
  - intros iter H0 Hfit.
    destruct (dsfmt_jumped_spec CD HD mem ent hD selfD q iter HselfD Hq Hmem H0 Hfit)
      as (b' & d & c & Hb' & Hget & Hset & _ & HOk & Hj).
    exists b', d, c. repeat split; try assumption. apply fresh_lookup.
  - intros iter. split.
    + intros l o. apply philox_jumped_frame.
    + apply philox_jumped_frame, HselfP.
  - intros iter. split.
    + intros l o. apply dsfmt_jumped_frame.
    + apply dsfmt_jumped_frame, HselfD.
Qed.

(** A run of C7 (amended): [jumped(2)] on [Philox(1234)] and [DSFMT(1234)]. *)
Lemma jumped_copies_then_jumps_witness :
  (exists d c,
     Philox.state_get philox_1234 = (philox_1234, Ok d) /\
     Philox.state_set (PyDict d) philox_default = (c, Ok tt) /\
     Philox.jumped counter_core repeat_seed zero_entropy 1 2 {[1%positive := philox_1234]}
     = (<[fresh (dom ({[1%positive := philox_1234]} : gmap positive Philox.Philox)) :=
            (Philox.jump_inplace counter_core 2 c).1]> {[1%positive := philox_1234]},
        Ok (fresh (dom ({[1%positive := philox_1234]} : gmap positive Philox.Philox))))) /\
  (Philox.jumped counter_core repeat_seed zero_entropy 1 2 {[1%positive := philox_1234]}).1
    !! 1%positive = Some philox_1234 /\
  (DSFMT.jumped index_core stale_block zero_entropy 1 2 {[1%positive := dsfmt_1234]}).1
    !! 1%positive = Some dsfmt_1234.
Proof.
  destruct (jumped_copies_then_jumps counter_core repeat_seed index_core zero_entropy
              stale_block {[1%positive := philox_1234]} {[1%positive := dsfmt_1234]} 1 1
              philox_1234 philox_default dsfmt_1234
              (lookup_singleton_eq _ _) philox_1234_inv philox_default_init
              index_core_ok stale_block_layout (lookup_singleton_eq _ _) dsfmt_1234_ok)
    as (H1 & _ & H3 & H4).
  split; [|split; [apply (H3 2) | apply (H4 2)]].
  destruct (H1 2) as (d & c & Hget & Hset & _ & _ & Hj); [lia | reflexivity |].
  exists d, c. auto.
Defined.


(** C9 (the code breaks it).  [Philox.jump_inplace] has no check of [iter]:
    [jump(-1)] on a Philox instance returns normally, for every core, where
    [DSFMT.jump(-1)] raises [ValueError]. *)
Theorem philox_jump_accepts_negative_iter :
  (forall C, (Philox.jump C (-1) philox_key5).2 = Ok tt) /\
  (forall C sba, exists l,
     (Philox.jumped C sba zero_entropy 1 (-1) {[1%positive := philox_key5]}).2 = Ok l) /\
  (forall C q, DSFMT.jump C (-1) q = (q, Raise ValueError)).
Proof.
  split; [|split].
  - intros C. apply advance_Ok; right; reflexivity.
  - intros C sba. eexists. vm_compute. reflexivity.
  - intros C q. reflexivity.
Qed.

(** C10 (the code breaks it).  The setter does not validate [number] and
    [width]: a dictionary without ['number'] and with [width = 16], set on a
    2x32 instance, is accepted, [number] defaults to 4, and
    [_setup_generator] finds no variant for (4, 16), so the table stays the
    2x32 one. *)
Theorem setter_unsupported_width_keeps_stale_table :
  (Philox.state_set (PyDict width16_dict) philox_2x32).2 = Ok tt /\
  Philox.n (Philox.state_set (PyDict width16_dict) philox_2x32).1 = 4 /\
  Philox.w (Philox.state_set (PyDict width16_dict) philox_2x32).1 = 16 /\
  Philox._bitgen (Philox.state_set (PyDict width16_dict) philox_2x32).1
  = {| Philox.next_uint64 := Philox.philox2x32_uint64;
       Philox.next_uint32 := Philox.philox2x32_uint32;
       Philox.next_double := Philox.philox2x32_double;
       Philox.next_raw := Philox.philox2x32_raw |}.
Proof. vm_compute. repeat split; reflexivity. Qed.

(** * Further properties of the shell *)

(** A run of X1: a dictionary without the two keys set on a 2x32 instance. *)
Lemma setter_selects_supported_variant_witness :
  philox_variant 4 64 (philox_table 4 64) (Philox.state_set (PyDict legacy_dict) philox_2x32).1.
Proof.
  apply (setter_selects_supported_variant legacy_dict philox_2x32).
  - reflexivity.
  - right. reflexivity.
  - right. reflexivity.
Defined.

(** A run of X2: [seed(-1)] on a 4x64 instance holding a cached half word. *)
Lemma seed_validation_error_leaves_state_witness :
  (Philox.seed repeat_seed zero_entropy (Some (SInt (-1))) None None philox_half_cached).1
  = philox_half_cached.
Proof.
  apply (seed_validation_error_leaves_state repeat_seed zero_entropy
           (Some (SInt (-1))) None None philox_half_cached).
  - right. reflexivity.
  - right. reflexivity.
  - vm_compute. reflexivity.
Defined.

(** X3.  [DSFMT.jump_inplace] with a negative [iter] raises [ValueError] and
    leaves the instance as it was; so does [DSFMT.jump] when [iter] fits
    [npy_intp]. *)
Theorem dsfmt_jump_rejects_negative_iter (C : DSFMT.dSFMT_h) (iter : Z) (q : DSFMT.DSFMT) :
  iter < 0 ->
  DSFMT.jump_inplace C iter q = (q, Raise ValueError) /\
  (fits_intp iter = true -> DSFMT.jump C iter q = (q, Raise ValueError)).
Proof.
  intros H.
  assert (Hj : DSFMT.jump_inplace C iter q = (q, Raise ValueError)).
  { unfold DSFMT.jump_inplace. destruct (Z.ltb_spec iter 0) as [_|]; [reflexivity | lia]. }
  split; [exact Hj|].
  intros Hfit. unfold DSFMT.jump, as_npy_intp. rewrite Hfit, bind_lift_Ok. exact Hj.
Qed.

(** A run of X3: [jump(-7)] on [DSFMT(1234)]. *)
Lemma dsfmt_jump_rejects_negative_iter_witness :
  DSFMT.jump index_core (-7) dsfmt_1234 = (dsfmt_1234, Raise ValueError).
Proof.
  destruct (dsfmt_jump_rejects_negative_iter index_core (-7) dsfmt_1234) as [_ H].
  - reflexivity.
  - apply H. reflexivity.
Defined.

(** X4.  The snapshot of an instance, set on any other constructed instance,
    is accepted, and the instance it was set on then reads back as the very
    same snapshot. *)
Theorem restored_instance_reads_back (p b : Philox.Philox) :
  philox_inv p -> philox_inv b ->
  exists d,
    Philox.state_get p = (p, Ok d) /\
    Philox.state_set (PyDict d) b = (philox_copy_onto p b, Ok tt) /\
    Philox.state_get (philox_copy_onto p b) = (philox_copy_onto p b, Ok d).
Proof.
  intros Hp Hb.
  pose proof Hb as [[_ _ Hbc Hbk Hbb _ _ _ _ _ _ _] _ _ _].
  destruct (philox_snapshot_copy p b Hp Hbc Hbk Hbb) as (d & Hget & Hset).
  exists d. repeat split; try assumption.
  apply philox_copy_snapshot; assumption.
Qed.

(** A run of X4: the snapshot of [Philox(1234)] set on [Philox()]. *)
Lemma restored_instance_reads_back_witness :
  exists d,
    Philox.state_get philox_1234 = (philox_1234, Ok d) /\
    Philox.state_set (PyDict d) philox_default
    = (philox_copy_onto philox_1234 philox_default, Ok tt) /\
    Philox.state_get (philox_copy_onto philox_1234 philox_default)
    = (philox_copy_onto philox_1234 philox_default, Ok d).
Proof.
  apply (restored_instance_reads_back philox_1234 philox_default).
  - exact philox_1234_inv.
  - exact (init_inv repeat_seed zero_entropy None None None 4 64 philox_default
             philox_default_init).
Defined.

(** * Philox: the function table of a constructed instance *)

Lemma preserves_get {S} (I : S -> Prop) : preserves I get.
Proof. intros s H. exact H. Qed.

Section PhiloxTable.

Import Philox.

Variable C : philox_h.
Variable sba : list Z -> Z -> list Z.

(** X5.  On a constructed instance [next_raw] is the 32-bit draw of the
    variant when [width] is 32 and its 64-bit draw when [width] is 64: the
    same value and the same step of the state. *)
Theorem next_raw_follows_width (p : Philox) :
  philox_inv p ->
  (w p = 32 -> draw C e_next_raw p = draw C e_next_uint32 p) /\
  (w p = 64 -> draw C e_next_raw p = draw C e_next_uint64 p).
Proof.
  intros Hp.
  destruct (inv_table_cases p Hp) as [(Hn & Hw & Hb) | [(Hn & Hw & Hb) | [(Hn & Hw & Hb) | (Hn & Hw & Hb)]]].
  all: unfold draw, entry; rewrite Hb, Hw; cbn.
  all: split; intros H; first [discriminate H | reflexivity].
Qed.

Lemma shell_set_rng f p : philox_shell (set_rng f p) = philox_shell p.
Proof. reflexivity. Qed.

Lemma shell_modify F f : preserves (fun q => philox_shell q = F) (modify (set_rng f)).
Proof. apply preserves_modify. intros s H. exact H. Qed.

Ltac shell_frame :=
  pres;
  repeat first
    [ apply shell_modify
    | apply preserves_get
    | progress unfold store_key, store_ctr, store_u64, _reset_state_variables; pres ].

Lemma seed_shell F ent s c k : preserves (fun q => philox_shell q = F) (seed sba ent s c k).
Proof. unfold seed. shell_frame. Qed.

Lemma advance_shell F delta c : preserves (fun q => philox_shell q = F) (advance C delta c).
Proof. unfold advance. shell_frame. Qed.

Lemma draw_shell e p v p' : draw C e p = Some (v, p') -> philox_shell p' = philox_shell p.
Proof.
  unfold draw. destruct (entry C e (_bitgen p)); [|discriminate].
  intros [= _ <-]. reflexivity.
Qed.

(** X8.  [seed], [advance], [jump] and the draws never assign [n], [w] or the
    function table, whatever their arguments and whatever the outcome of the
    call: the variant of an instance is fixed by [__init__] and the state
    setter alone. *)
Theorem variant_is_fixed_outside_init_and_setter (p : Philox) :
  (forall ent s c k, philox_shell (seed sba ent s c k p).1 = philox_shell p) /\
  (forall delta c, philox_shell (advance C delta c p).1 = philox_shell p) /\
  (forall iter, philox_shell (jump C iter p).1 = philox_shell p) /\
  (forall e, match draw C e p with
             | Some (_, p') => philox_shell p' = philox_shell p
             | None => True
             end).
Proof.
  repeat split.
  - intros. apply (seed_shell (philox_shell p)). reflexivity.
  - intros. apply (advance_shell (philox_shell p)). reflexivity.
  - intros. unfold jump. rewrite jump_inplace_eq.
    apply (advance_shell (philox_shell p)). reflexivity.
  - intros e. destruct (draw C e p) as [[v p']|] eqn:E; [|exact I].
    eapply draw_shell; eassumption.
Qed.

End PhiloxTable.

(** * No call through a null pointer *)

Lemma dsfmt_reachable_table C q : dsfmt_reachable C q -> DSFMT._bitgen q = dsfmt_table.
Proof.
  induction 1 as [mem ent s p Hmem Hinit | ent s p Hp IH | iter p Hp IH | e p v p' Hp IH Hd].
  - unfold DSFMT.__init__ in Hinit. inv_call Hinit.
    unfold modify in Hinit. injection Hinit as <-. reflexivity.
  - rewrite <- IH. unfold DSFMT.seed.
    apply (preserves_bind (fun x => DSFMT._bitgen x = DSFMT._bitgen p)); [|intros _|reflexivity].
    + destruct s as [[idx|obj]|]; pres;
        try (apply preserves_modify; intros x Hx; exact Hx).
    + apply preserves_modify. intros x Hx. exact Hx.
  - rewrite <- IH. unfold DSFMT.jump, DSFMT.jump_inplace, DSFMT._reset_state_variables.
    assert (H : preserves (fun x => DSFMT._bitgen x = DSFMT._bitgen p)
                  (iter0 <- lift (as_npy_intp iter) ;;
                   (if iter0 <? 0 then raise ValueError else
                    count <- lift (as_int iter0) ;;
                    modify (DSFMT.set_rng (fun st => DSFMT.dsfmt_jump_n C st count)) ;;;
                    modify (DSFMT.set_rng (DSFMT.set_buffer_loc DSFMT.DSFMT_N64))))).
    { pres; apply preserves_modify; intros x Hx; exact Hx. }
    apply H. reflexivity.
  - unfold DSFMT.draw in Hd. destruct (DSFMT.entry C e (DSFMT._bitgen p)); [|discriminate].
    injection Hd as _ <-. exact IH.
Qed.

(** X6.  On every instance that construction, [seed], [advance], [jump] and
    draws can produce, the table is the one of the instance's variant and each
    of the four entry points is bound: no draw goes through a null pointer. *)
Theorem reachable_tables_are_bound
    (C : Philox.philox_h) (sba : list Z -> Z -> list Z) (p : Philox.Philox)
    (D : DSFMT.dSFMT_h) (q : DSFMT.DSFMT) :
  philox_h_ok C -> philox_reachable C sba p -> dsfmt_reachable D q ->
  Philox._bitgen p = philox_table (Philox.n p) (Philox.w p) /\
  DSFMT._bitgen q = dsfmt_table /\
  (forall e, is_Some (Philox.draw C e p)) /\
  (forall e, is_Some (DSFMT.draw D e q)).
Proof.
  intros HC Hp Hq.
  pose proof (reachable_inv C sba HC p Hp) as Hinv.
  pose proof (dsfmt_reachable_table D q Hq) as Hd.
  destruct (inv_table_cases p Hinv) as [(Hn & Hw & Hb) | [(Hn & Hw & Hb) | [(Hn & Hw & Hb) | (Hn & Hw & Hb)]]].
  all: rewrite Hn, Hw; split; [exact Hb|]; split; [exact Hd|]; split.
  all: intros []; first [ unfold Philox.draw; rewrite Hb | unfold DSFMT.draw; rewrite Hd ];
       cbn; eexists; reflexivity.
Qed.

(** * Philox: a jump of zero strides *)

Section PhiloxJumpZero.

Import Philox.

Variable C : philox_h.
Variable sba : list Z -> Z -> list Z.

(** X7.  [jump(0)] returns at once and changes no field, the buffered outputs
    and the cached half word included; [jumped(0)] of a constructed instance
    is the exact copy the setter makes of it on the new instance. *)
Theorem jump_zero_changes_nothing ent (h : gmap positive Philox) self p b :
  h !! self = Some p -> philox_inv p ->
  __init__ sba ent None None None 4 64 blank = (b, Ok tt) ->
  jump C 0 p = (p, Ok tt) /\
  jumped C sba ent self 0 h
  = (<[fresh (dom h) := philox_copy_onto p b]> h, Ok (fresh (dom h))).
Proof.
  intros Hself Hp Hinit.
  assert (Hz : forall q, jump_inplace C 0 q = (q, Ok tt)).
  { intros q. rewrite jump_inplace_eq. rewrite Z.mul_0_l. apply advance_zero. }
  split; [apply Hz|].
  destruct (jumped_spec C sba ent h self p b 0 Hself Hp Hinit eq_refl)
    as (d & q & _ & _ & -> & _ & ->).
  rewrite Hz. reflexivity.
Qed.

End PhiloxJumpZero.

(** * Philox: what [seed] writes *)

Lemma lor_shiftl_in_range lo hi :
  in_range 32 lo = true -> in_range 32 hi = true ->
  in_range 64 (Z.lor lo (Z.shiftl hi 32)) = true.
Proof.
  rewrite !in_range_spec. intros [Hl0 Hl] [Hh0 Hh].
  assert (Hs : 0 <= Z.shiftl hi 32 < 2 ^ 64).
  { rewrite Z.shiftl_mul_pow2 by lia. lia. }
  split; [apply Z.lor_nonneg; lia|].
  destruct (Z.eq_dec (Z.lor lo (Z.shiftl hi 32)) 0) as [-> | Hne]; [lia|].
  apply Z.log2_lt_pow2; [pose proof (proj2 (Z.lor_nonneg lo (Z.shiftl hi 32)) (conj Hl0 (proj1 Hs))); lia|].
  rewrite Z.log2_lor by lia.
  apply Z.max_lub_lt.
  - destruct (Z.eq_dec lo 0) as [-> | ?]; [reflexivity|].
    apply Z.log2_lt_pow2; lia.
  - destruct (Z.eq_dec (Z.shiftl hi 32) 0) as [-> | ?]; [reflexivity|].
    apply Z.log2_lt_pow2; lia.
Qed.

Lemma land_ones_in_range x :
  in_range 64 x = true -> in_range 32 (Z.land x (Z.ones 32)) = true.
Proof.
  intros Hx. rewrite Z.land_ones by lia. apply mod_in_range. lia.
Qed.

Lemma shiftr_in_range x : in_range 64 x = true -> in_range 32 (Z.shiftr x 32) = true.
Proof.
  rewrite !in_range_spec. intros [H0 H1]. rewrite Z.shiftr_div_pow2 by lia.
  split; [apply Z.div_pos; lia|].
  apply Z.div_lt_upper_bound; lia.
Qed.

Lemma div_mod_in_range bits k v : 0 <= bits -> in_range bits ((v / k) mod 2 ^ bits) = true.
Proof. intros. apply mod_in_range. assumption. Qed.

Ltac is_pos_lit p :=
  lazymatch p with
  | xH => idtac
  | xO ?q => is_pos_lit q
  | xI ?q => is_pos_lit q
  end.

Ltac is_lit z :=
  lazymatch z with
  | Z0 => idtac
  | Zpos ?p => is_pos_lit p
  | Zneg ?p => is_pos_lit p
  end.

(** Closed arithmetic, evaluated where it stands. *)
Ltac zlit :=
  repeat match goal with
         | |- context [Z.mul ?a ?b] =>
             is_lit a; is_lit b;
             let r := eval vm_compute in (Z.mul a b) in change (Z.mul a b) with r
         | |- context [Z.div ?a ?b] =>
             is_lit a; is_lit b;
             let r := eval vm_compute in (Z.div a b) in change (Z.div a b) with r
         | |- context [Z.add ?a ?b] =>
             is_lit a; is_lit b;
             let r := eval vm_compute in (Z.add a b) in change (Z.add a b) with r
         | |- context [Z.max ?a ?b] =>
             is_lit a; is_lit b;
             let r := eval vm_compute in (Z.max a b) in change (Z.max a b) with r
         | |- context [Z.eqb ?a ?b] =>
             is_lit a; is_lit b;
             let r := eval vm_compute in (Z.eqb a b) in change (Z.eqb a b) with r
         | |- context [Z.to_nat ?a] =>
             is_lit a;
             let r := eval vm_compute in (Z.to_nat a) in change (Z.to_nat a) with r
         end.

Ltac seed_crunch :=
  repeat (progress (cbn;
                    unfold int_to_array, dtype_of_size, view, getitem, for_range,
                      Philox._reset_state_variables, Philox.PHILOX_BUFFER_SIZE,
                      Philox.store_u64, Philox.store_key, Philox.store_ctr;
                    zlit; msteps;
                    use_ranges;
                    rewrite ?as_uint_in_range
                      by first [ assumption | reflexivity | apply mod_in_range; lia
                               | apply lor_shiftl_in_range; assumption
                               | apply land_ones_in_range; assumption
                               | apply shiftr_in_range; assumption ])).

Section PhiloxSeed.

Import Philox.

Variable sba : list Z -> Z -> list Z.
Variable ent : Z -> list Z.
Hypothesis Hent : forall k, words_of 32 k (ent k).
Hypothesis Hsba : forall seed k, words_of 64 k (sba seed k).

Lemma seed_closed_form s c k p sz kz cz :
  (n p = 2 \/ n p = 4) -> (w p = 32 \/ w p = 64) -> philox_cells p ->
  object_to_int s (n p * w p / 2) = Ok sz ->
  object_to_int k (n p / 2 * w p) = Ok kz ->
  object_to_int c (n p * w p) = Ok cz ->
  given sz && given kz = false ->
  seed sba ent s c k p
  = (philox_seeded (seed_key_words sba ent (n p) (w p) sz kz)
       (to_words (w p) (Z.to_nat (n p)) (default 0 cz)) p, Ok tt).
Proof.
  intros HN HW (Hc & Hk & Hb) Es Ek Ec Hg.
  destruct p as [[[ctr key] bp buf h u num wid] N W B]; simpl in *.
  destruct ctr as [|c0 [|c1 [|c2 [|c3 [|]]]]]; try discriminate Hc.
  destruct key as [|k0 [|k1 [|]]]; try discriminate Hk.
  destruct buf as [|b0 [|b1 [|b2 [|b3 [|]]]]]; try discriminate Hb.
  clear Hc Hk Hb.
  unfold seed. rewrite bind_get. cbn [n w rng_state].
  rewrite Es, bind_lift_Ok, Ek, bind_lift_Ok, Ec, bind_lift_Ok, Hg.
  assert (Hkr : forall z, kz = Some z -> in_range (N / 2 * W) z = true).
  { intros z ->. eapply object_to_int_range; eassumption. }
  assert (Hsr : forall z, sz = Some z -> 0 <= z).
  { intros z ->. apply object_to_int_range in Es. apply in_range_spec in Es. lia. }
  assert (Hcr : in_range (N * W) (default 0 cz) = true).
  { destruct cz as [z|]; [eapply object_to_int_range; eassumption|].
    apply in_range_0. destruct HN as [-> | ->], HW as [-> | ->]; lia. }
  clear Es Ek Ec.
  destruct HN as [-> | ->], HW as [-> | ->].
  all: destruct kz as [kz|], sz as [sz|]; try discriminate Hg.
  all: try specialize (Hkr _ eq_refl); try (specialize (Hsr _ eq_refl); apply Z.leb_le in Hsr).
  all: unfold seed_key_words, seed_array, philox_seeded, int_to_array, dtype_of_size.
  all: revert Hcr; try revert Hkr; cbv zeta; zlit; intros; cbn [obind].
  all: rewrite ?Hsr; repeat (progress (cbn [obind arr_data]; msteps; zlit)).
  all: try match goal with
           | |- context [sba ?a ?b] =>
               let Hl := fresh "Hl" in let Hf := fresh "Hf" in
               pose proof (Hsba a b) as [Hl Hf]; revert Hl Hf; zlit;
               generalize (sba a b); intros l Hl Hf;
               destruct l as [|x0 [|x1 [|x2 [|x3 [|]]]]]; try discriminate Hl; clear Hl
           | |- context [ent ?a] =>
               let Hl := fresh "Hl" in let Hf := fresh "Hf" in
               pose proof (Hent a) as [Hl Hf]; revert Hl Hf; zlit;
               generalize (ent a); intros l Hl Hf;
               destruct l as [|x0 [|x1 [|x2 [|x3 [|]]]]]; try discriminate Hl; clear Hl
           end.
  all: split_Forall.
  all: seed_crunch.
  all: reflexivity.
Qed.

End PhiloxSeed.

Lemma to_words_length bits len v : length (to_words bits len v) = len.
Proof. revert v. induction len as [|len IH]; intros v; simpl; [reflexivity | rewrite IH; reflexivity]. Qed.

Lemma to_words_in_range bits len v :
  0 <= bits -> Forall (fun x => in_range bits x = true) (to_words bits len v).
Proof.
  intros Hb. revert v. induction len as [|len IH]; intros v; simpl; constructor.
  - apply mod_in_range. assumption.
  - apply IH.
Qed.

Lemma zero_entropy_words k : words_of 32 k (zero_entropy k).
Proof.
  unfold words_of, zero_entropy. split; [apply repeat_length|].
  apply Forall_repeat. reflexivity.
Qed.

Lemma repeat_seed_words seed k : words_of 64 k (repeat_seed seed k).
Proof.
  unfold words_of, repeat_seed. split; [apply repeat_length|].
  apply Forall_repeat. apply mod_in_range. lia.
Qed.

Section PhiloxSeeded.

Import Philox.

(** The snapshot of a freshly seeded instance. *)
Lemma seeded_snapshot kw cw p :
  (n p = 2 \/ n p = 4) -> (w p = 32 \/ w p = 64) -> philox_cells p ->
  length kw = Z.to_nat (n p / 2) -> Forall (fun x => in_range (w p) x = true) kw ->
  length cw = Z.to_nat (n p) -> Forall (fun x => in_range (w p) x = true) cw ->
  state_get (philox_seeded kw cw p)
  = (philox_seeded kw cw p,
     Ok {| d_bit_generator := Some "Philox"%string;
           d_state := Some {| d_counter := Some cw; d_key := Some kw |};
           d_buffer := Some (repeat 0 (Z.to_nat (n p)));
           d_buffer_pos := Some PHILOX_BUFFER_SIZE;
           d_has_uint32 := Some 0;
           d_uinteger := Some 0;
           d_number := Some (number (rng_state p));
           d_width := Some (width (rng_state p)) |}).
Proof.
  intros HN HW (Hc & Hk & Hb) Hkl Hkr Hcl Hcr.
  destruct p as [[[ctr key] bp buf h u num wid] N W B]; simpl in *.
  destruct HN as [-> | ->], HW as [-> | ->].
  all: revert Hkl Hcl; zlit; intros Hkl Hcl.
  all: destruct kw as [|y0 [|y1 [|]]]; try discriminate Hkl.
  all: destruct cw as [|z0 [|z1 [|z2 [|z3 [|]]]]]; try discriminate Hcl.
  all: split_Forall.
  all: unfold state_get, philox_seeded; rewrite bind_get; crunch; reflexivity.
Qed.

End PhiloxSeeded.

Section PhiloxSeedTheorems.

Import Philox.

Variable sba : list Z -> Z -> list Z.
Variable ent : Z -> list Z.
Hypothesis Hent : forall k, words_of 32 k (ent k).
Hypothesis Hsba : forall seed k, words_of 64 k (sba seed k).

Lemma seed_key_words_ok N W sz kz :
  (N = 2 \/ N = 4) -> (W = 32 \/ W = 64) ->
  (forall z, kz = Some z -> in_range (N / 2 * W) z = true) ->
  (forall z, sz = Some z -> 0 <= z) ->
  length (seed_key_words sba ent N W sz kz) = Z.to_nat (N / 2) /\
  Forall (fun x => in_range W x = true) (seed_key_words sba ent N W sz kz).
Proof.
  intros HN HW Hkr Hsr.
  destruct HN as [-> | ->], HW as [-> | ->].
  all: destruct kz as [kz|], sz as [sz|].
  all: try specialize (Hkr _ eq_refl); try (specialize (Hsr _ eq_refl); apply Z.leb_le in Hsr).
  all: unfold seed_key_words, seed_array, int_to_array, dtype_of_size.
  all: try revert Hkr; cbv zeta; zlit; intros; cbn [obind].
  all: rewrite ?Hsr, ?Hkr; repeat (progress (cbn [obind arr_data]; zlit)).
  all: try match goal with
           | |- context [sba ?a ?b] =>
               let Hl := fresh "Hl" in let Hf := fresh "Hf" in
               pose proof (Hsba a b) as [Hl Hf]; revert Hl Hf; zlit;
               generalize (sba a b); intros l Hl Hf;
               destruct l as [|x0 [|x1 [|x2 [|x3 [|]]]]]; try discriminate Hl; clear Hl
           | |- context [ent ?a] =>
               let Hl := fresh "Hl" in let Hf := fresh "Hf" in
               pose proof (Hent a) as [Hl Hf]; revert Hl Hf; zlit;
               generalize (ent a); intros l Hl Hf;
               destruct l as [|x0 [|x1 [|x2 [|x3 [|]]]]]; try discriminate Hl; clear Hl
           end.
  all: split_Forall.
  all: cbn; split; [reflexivity|].
  all: repeat constructor.
  all: first [ assumption | apply mod_in_range; lia | apply lor_shiftl_in_range; assumption
             | apply land_ones_in_range; assumption | apply shiftr_in_range; assumption ].
Qed.

Lemma seed_key_words_key N W sz z :
  (N = 2 \/ N = 4) -> (W = 32 \/ W = 64) -> in_range (N / 2 * W) z = true ->
  seed_key_words sba ent N W sz (Some z) = to_words W (Z.to_nat (N / 2)) z.
Proof.
  intros HN HW Hz.
  unfold seed_key_words, seed_array, int_to_array, dtype_of_size. rewrite Hz.
  destruct HN as [-> | ->], HW as [-> | ->]; reflexivity.
Qed.

(** The conversions [seed] starts with, read off [seed_accepts]. *)
Lemma seed_accepts_inv N W s c k :
  seed_accepts N W s c k = true ->
  exists sz kz cz,
    object_to_int s (N * W / 2) = Ok sz /\ object_to_int k (N / 2 * W) = Ok kz /\
    object_to_int c (N * W) = Ok cz /\ given sz && given kz = false.
Proof.
  unfold seed_accepts.
  destruct (object_to_int s _) as [sz|]; [|discriminate].
  destruct (object_to_int k _) as [kz|]; [|discriminate].
  destruct (object_to_int c _) as [cz|]; [|discriminate].
  intros H. exists sz, kz, cz. repeat split. apply negb_true_iff. exact H.
Qed.

Lemma seed_rejects s c k p :
  seed_accepts (n p) (w p) s c k = false -> seed sba ent s c k p = (p, Raise ValueError).
Proof.
  unfold seed_accepts, seed. rewrite bind_get. cbv beta.
  destruct (object_to_int s _) as [sz|e] eqn:Es.
  2:{ intros _. rewrite bind_lift_Raise. destruct s as [[z|l]|]; simpl in Es;
      repeat match type of Es with
             | (if ?b then _ else _) = _ => destruct b
             end; congruence. }
  rewrite bind_lift_Ok.
  destruct (object_to_int k _) as [kz|e] eqn:Ek.
  2:{ intros _. rewrite bind_lift_Raise. destruct k as [[z|l]|]; simpl in Ek;
      repeat match type of Ek with
             | (if ?b then _ else _) = _ => destruct b
             end; congruence. }
  rewrite bind_lift_Ok.
  destruct (object_to_int c _) as [cz|e] eqn:Ec.
  2:{ intros _. rewrite bind_lift_Raise. destruct c as [[z|l]|]; simpl in Ec;
      repeat match type of Ec with
             | (if ?b then _ else _) = _ => destruct b
             end; congruence. }
  rewrite bind_lift_Ok. intros H. apply negb_false_iff in H. rewrite H. reflexivity.
Qed.

Lemma seed_accepted_result s c k p sz kz cz :
  (n p = 2 \/ n p = 4) -> (w p = 32 \/ w p = 64) -> philox_cells p ->
  object_to_int s (n p * w p / 2) = Ok sz ->
  object_to_int k (n p / 2 * w p) = Ok kz ->
  object_to_int c (n p * w p) = Ok cz ->
  given sz && given kz = false ->
  exists kw cw,
    length kw = Z.to_nat (n p / 2) /\ Forall (fun x => in_range (w p) x = true) kw /\
    length cw = Z.to_nat (n p) /\ Forall (fun x => in_range (w p) x = true) cw /\
    kw = seed_key_words sba ent (n p) (w p) sz kz /\
    cw = to_words (w p) (Z.to_nat (n p)) (default 0 cz) /\
    seed sba ent s c k p = (philox_seeded kw cw p, Ok tt).
Proof.
  intros HN HW Hcells Es Ek Ec Hg.
  exists (seed_key_words sba ent (n p) (w p) sz kz),
         (to_words (w p) (Z.to_nat (n p)) (default 0 cz)).
  destruct (seed_key_words_ok (n p) (w p) sz kz HN HW) as [Hl Hr].
  { intros z ->. eapply object_to_int_range; eassumption. }
  { intros z ->. apply object_to_int_range in Es. apply in_range_spec in Es. lia. }
  repeat split; try assumption.
  - apply to_words_length.
  - apply to_words_in_range. destruct HW as [-> | ->]; lia.
  - apply (seed_closed_form sba ent Hent Hsba); assumption.
Qed.

(** X9.  On a constructed instance [seed] has two outcomes only: with
    arguments in range, and not a seed together with a key, it returns
    normally; with any other arguments it raises [ValueError] and the instance
    is left as it was.  ([random_entropy] and [seed_by_array] return arrays of
    the requested length.) *)
Theorem seed_returns_or_rejects s c k p :
  (n p = 2 \/ n p = 4) -> (w p = 32 \/ w p = 64) -> philox_cells p ->
  seed sba ent s c k p
  = if seed_accepts (n p) (w p) s c k
    then ((seed sba ent s c k p).1, Ok tt)
    else (p, Raise ValueError).
Proof.
  intros HN HW Hcells.
  destruct (seed_accepts (n p) (w p) s c k) eqn:Ha.
  - destruct (seed_accepts_inv _ _ _ _ _ Ha) as (sz & kz & cz & Es & Ek & Ec & Hg).
    destruct (seed_accepted_result s c k p sz kz cz HN HW Hcells Es Ek Ec Hg)
      as (kw & cw & _ & _ & _ & _ & _ & _ & ->).
    reflexivity.
  - apply seed_rejects. exact Ha.
Qed.

Lemma inv_cells p : philox_inv p -> philox_cells p.
Proof. intros [[_ _ Hc Hk Hb _ _ _ _ _ _ _] _ _ _]. repeat split; assumption. Qed.

(** X11.  Seeding erases the past: two constructed instances of the same
    variant that are seeded with the same arguments either both reject them
    or both accept them, and after that they have the same state
    dictionary, whatever they held before. *)
Theorem seeding_erases_history s c k p p' :
  philox_inv p -> philox_inv p' -> n p' = n p -> w p' = w p ->
  (seed sba ent s c k p').2 = (seed sba ent s c k p).2 /\
  ((seed sba ent s c k p).2 = Ok tt ->
   exists d,
     state_get (seed sba ent s c k p).1 = ((seed sba ent s c k p).1, Ok d) /\
     state_get (seed sba ent s c k p').1 = ((seed sba ent s c k p').1, Ok d)).
Proof.
  intros Hp Hp' Hn Hw.
  destruct (inv_supported p Hp) as [HN HW].
  assert (HN' : n p' = 2 \/ n p' = 4) by (rewrite Hn; exact HN).
  assert (HW' : w p' = 32 \/ w p' = 64) by (rewrite Hw; exact HW).
  pose proof (inv_cells p Hp) as Hc. pose proof (inv_cells p' Hp') as Hc'.
  destruct (seed_accepts (n p) (w p) s c k) eqn:Ha.
  - destruct (seed_accepts_inv _ _ _ _ _ Ha) as (sz & kz & cz & Es & Ek & Ec & Hg).
    destruct (seed_accepted_result s c k p sz kz cz HN HW Hc Es Ek Ec Hg)
      as (kw & cw & Hkl & Hkr & Hcl & Hcr & Ekw & Ecw & E).
    rewrite <- Hn, <- Hw in Es, Ek, Ec.
    destruct (seed_accepted_result s c k p' sz kz cz HN' HW' Hc' Es Ek Ec Hg)
      as (kw' & cw' & Hkl' & Hkr' & Hcl' & Hcr' & Ekw' & Ecw' & E').
    rewrite Hn, Hw in Ekw', Ecw'. rewrite <- Ekw in Ekw'. rewrite <- Ecw in Ecw'. subst kw' cw'.
    rewrite E, E'. split; [reflexivity|]. intros _. cbn [fst].
    eexists. split.
    + apply seeded_snapshot; assumption.
    + rewrite (seeded_snapshot kw cw p') by assumption.
      rewrite Hn.
      destruct Hp as [_ Hnum Hwid _], Hp' as [_ Hnum' Hwid' _].
      rewrite Hnum, Hwid, Hnum', Hwid', Hn, Hw. reflexivity.
  - rewrite (seed_rejects s c k p Ha).
    rewrite <- Hn, <- Hw in Ha. rewrite (seed_rejects s c k p' Ha).
    split; [reflexivity | discriminate].
Qed.

Lemma to_words_zero bits len : to_words bits len 0 = repeat 0 len.
Proof.
  induction len as [|len IH]; [reflexivity|].
  cbn [to_words repeat]. rewrite Zmod_0_l, Zdiv_0_l. rewrite IH. reflexivity.
Qed.

(** X24.  The counter after a successful [seed] is the one given, whichever
    of the seed, key and entropy paths set the key: the [number] counter words
    are the little-endian [width]-bit words of the [counter] argument, and all
    zero when no counter is given. *)
Theorem seed_sets_counter_words s c k p p' cz :
  philox_inv p ->
  object_to_int c (n p * w p) = Ok cz ->
  seed sba ent s c k p = (p', Ok tt) ->
  take (Z.to_nat (n p)) (ctr (state (rng_state p')))
  = to_words (w p) (Z.to_nat (n p)) (default 0 cz) /\
  (c = None ->
   take (Z.to_nat (n p)) (ctr (state (rng_state p'))) = repeat 0 (Z.to_nat (n p))).
Proof.
  intros Hp Ec H.
  destruct (inv_supported p Hp) as [HN HW].
  pose proof (inv_cells p Hp) as Hcells.
  destruct (seed_accepts (n p) (w p) s c k) eqn:Ha.
  2:{ rewrite (seed_rejects s c k p Ha) in H. discriminate H. }
  destruct (seed_accepts_inv _ _ _ _ _ Ha) as (sz & kz & cz' & Es & Ek & Ec' & Hg).
  rewrite Ec in Ec'. injection Ec' as <-.
  destruct (seed_accepted_result s c k p sz kz cz HN HW Hcells Es Ek Ec Hg)
    as (kw & cw & _ & _ & Hcl & _ & _ & Ecw & E).
  rewrite E in H. injection H as <-.
  assert (Ht : take (Z.to_nat (n p)) (ctr (state (rng_state (philox_seeded kw cw p)))) = cw).
  { unfold philox_seeded. cbn [set_rng rng_state state ctr].
    rewrite <- Hcl. apply take_app_length. }
  rewrite Ht. split; [exact Ecw|].
  intros ->. cbn [object_to_int] in Ec. injection Ec as <-.
  rewrite Ecw. apply to_words_zero.
Qed.

End PhiloxSeedTheorems.

Lemma supported_variant_spec N W :
  supported_variant N W = true <-> (N = 2 \/ N = 4) /\ (W = 32 \/ W = 64).
Proof. unfold supported_variant. lia. Qed.

Section PhiloxInit.

Import Philox.

Variable sba : list Z -> Z -> list Z.
Variable ent : Z -> list Z.
Hypothesis Hent : forall k, words_of 32 k (ent k).
Hypothesis Hsba : forall seed k, words_of 64 k (sba seed k).

Lemma fresh_cells N W : philox_cells (philox_fresh N W).
Proof. repeat split. Qed.

Lemma init_closed_form s c k N W sz kz cz :
  (N = 2 \/ N = 4) -> (W = 32 \/ W = 64) ->
  object_to_int s (N * W / 2) = Ok sz ->
  object_to_int k (N / 2 * W) = Ok kz ->
  object_to_int c (N * W) = Ok cz ->
  given sz && given kz = false ->
  __init__ sba ent s c k N W blank
  = (set_bitgen (philox_table N W)
       (philox_seeded (seed_key_words sba ent N W sz kz)
          (to_words W (Z.to_nat N) (default 0 cz)) (philox_fresh N W)), Ok tt).
Proof.
  intros HN HW Es Ek Ec Hg.
  pose proof (seed_closed_form sba ent Hent Hsba s c k (philox_fresh N W) sz kz cz
                HN HW (fresh_cells N W) Es Ek Ec Hg) as Hseed.
  cbn [n w philox_fresh set_rng set_w set_n] in Hseed.
  unfold __init__.
  replace (negb ((N =? 2) || (N =? 4))) with false by (destruct HN as [-> | ->]; reflexivity).
  replace (negb ((W =? 32) || (W =? 64))) with false by (destruct HW as [-> | ->]; reflexivity).
  msteps. fold (philox_fresh N W).
  erewrite bind_Ok by exact Hseed.
  unfold _setup_generator. rewrite bind_get.
  destruct HN as [-> | ->], HW as [-> | ->]; reflexivity.
Qed.

(** X12.  The constructor has two outcomes only.  With [number] in (2, 4),
    [width] in (32, 64) and seeding arguments [seed] accepts it returns
    normally, and the instance is a constructed one of that variant with the
    function table of that variant; otherwise it raises [ValueError]. *)
Theorem constructor_accepts_or_rejects s c k number width :
  if supported_variant number width && seed_accepts number width s c k
  then (__init__ sba ent s c k number width blank).2 = Ok tt /\
       philox_inv (__init__ sba ent s c k number width blank).1 /\
       n (__init__ sba ent s c k number width blank).1 = number /\
       w (__init__ sba ent s c k number width blank).1 = width /\
       _bitgen (__init__ sba ent s c k number width blank).1 = philox_table number width
  else (__init__ sba ent s c k number width blank).2 = Raise ValueError.
Proof.
  destruct (supported_variant number width) eqn:Hs; cbn [andb].
  - apply supported_variant_spec in Hs as [HN HW].
    destruct (seed_accepts number width s c k) eqn:Ha.
    + destruct (seed_accepts_inv _ _ _ _ _ Ha) as (sz & kz & cz & Es & Ek & Ec & Hg).
      pose proof (init_closed_form s c k number width sz kz cz HN HW Es Ek Ec Hg) as E.
      pose proof (init_inv sba ent s c k number width _ E) as Hinv.
      rewrite E. cbn [fst snd]. split; [reflexivity|]. split; [exact Hinv|].
      repeat split.
    + unfold __init__.
      replace (negb ((number =? 2) || (number =? 4))) with false
        by (destruct HN as [-> | ->]; reflexivity).
      replace (negb ((width =? 32) || (width =? 64))) with false
        by (destruct HW as [-> | ->]; reflexivity).
      msteps. fold (philox_fresh number width).
      unfold bind. rewrite (seed_rejects sba ent s c k (philox_fresh number width) Ha).
      reflexivity.
  - unfold supported_variant in Hs. unfold __init__.
    destruct ((number =? 2) || (number =? 4)); cbn [negb]; [|reflexivity].
    cbn [andb] in Hs. rewrite Hs. reflexivity.
Qed.

End PhiloxInit.

Section PhiloxKeyed.

Import Philox.

(** With a key the entropy source and the seed expander are not consulted. *)
Lemma seed_key_env sba ent sba' ent' c k p :
  seed sba ent None c (Some k) p = seed sba' ent' None c (Some k) p.
Proof.
  unfold seed. rewrite !bind_get. cbv beta.
  destruct (object_to_int (Some k) (n p / 2 * w p)) as [[kz|]|e] eqn:E.
  all: cbn [object_to_int]; rewrite !bind_lift_Ok.
  - destruct (object_to_int c (n p * w p)) as [cz|e];
      [rewrite !bind_lift_Ok | rewrite !bind_lift_Raise]; reflexivity.
  - exfalso. destruct k as [z|l]; simpl in E;
      repeat match type of E with
             | (if ?b then _ else _) = _ => destruct b
             end; discriminate.
  - rewrite !bind_lift_Raise. reflexivity.
Qed.

Lemma init_key_env sba ent sba' ent' c k N W p :
  __init__ sba ent None c (Some k) N W p = __init__ sba' ent' None c (Some k) N W p.
Proof.
  unfold __init__.
  destruct (negb ((N =? 2) || (N =? 4))); [reflexivity|].
  destruct (negb ((W =? 32) || (W =? 64))); [reflexivity|].
  msteps. unfold bind. rewrite (seed_key_env sba ent sba' ent'). reflexivity.
Qed.

(** The getter does not read the function table. *)
Lemma state_get_set_bitgen B p :
  state_get (set_bitgen B p) = (set_bitgen B p, (state_get p).2).
Proof.
  unfold state_get. rewrite !bind_get. cbn [set_bitgen n w rng_state].
  destruct (n p <? 0); [reflexivity|].
  repeat match goal with
         | |- context [lift ?r] =>
             lazymatch r with
             | Ok _ => fail
             | Raise _ => fail
             | _ => destruct r; [rewrite !bind_lift_Ok | rewrite !bind_lift_Raise; reflexivity]
             end
         end.
  reflexivity.
Qed.

(** X10.  [Philox(key=k, counter=c, number=N, width=W)] with [k] and [c] in
    range: the construction succeeds - no entropy is read, no seed is
    expanded - and the state dictionary of the instance holds the
    little-endian [W]-bit words of [k] as its key, those of [c] (of 0 when no
    counter is given) as its counter, an empty buffer, and [N] and [W]. *)
Theorem keyed_construction_snapshot sba ent c k N W kz cz :
  (N = 2 \/ N = 4) -> (W = 32 \/ W = 64) ->
  object_to_int (Some k) (N / 2 * W) = Ok (Some kz) ->
  object_to_int c (N * W) = Ok cz ->
  exists p,
    __init__ sba ent None c (Some k) N W blank = (p, Ok tt) /\
    state_get p
    = (p, Ok {| d_bit_generator := Some "Philox"%string;
                d_state := Some {| d_counter := Some (to_words W (Z.to_nat N) (default 0 cz));
                                   d_key := Some (to_words W (Z.to_nat (N / 2)) kz) |};
                d_buffer := Some (repeat 0 (Z.to_nat N));
                d_buffer_pos := Some 4;
                d_has_uint32 := Some 0;
                d_uinteger := Some 0;
                d_number := Some N;
                d_width := Some W |}).
Proof.
  intros HN HW Ek Ec.
  pose proof (init_closed_form repeat_seed zero_entropy zero_entropy_words repeat_seed_words
                None c (Some k) N W None (Some kz) cz HN HW eq_refl Ek Ec eq_refl) as E.
  rewrite (init_key_env _ _ sba ent) in E.
  assert (Hkz : in_range (N / 2 * W) kz = true) by (eapply object_to_int_range; eassumption).
  rewrite (seed_key_words_key _ _ N W None kz HN HW Hkz) in E.
  eexists. split; [exact E|].
  set (kw := to_words W (Z.to_nat (N / 2)) kz) in *.
  set (cw := to_words W (Z.to_nat N) (default 0 cz)) in *.
  assert (HW0 : 0 <= W) by (destruct HW as [-> | ->]; lia).
  pose proof (seeded_snapshot kw cw (philox_fresh N W) HN HW (fresh_cells N W)
                (to_words_length _ _ _) (to_words_in_range _ _ _ HW0)
                (to_words_length _ _ _) (to_words_in_range _ _ _ HW0)) as Hs.
  cbn [n w philox_fresh set_rng set_w set_n number width rng_state set_width set_number] in Hs.
  rewrite state_get_set_bitgen. fold (philox_fresh N W). rewrite Hs. reflexivity.
Qed.

End PhiloxKeyed.

(** * Philox: seeding from a seed sequence *)

Section PhiloxSeedSeq.

Import Philox.

Variable sba : list Z -> Z -> list Z.
Variable ent : Z -> list Z.

Lemma seed_from_seq_unfold ss counter o :
  _seed_from_seq sba ent ss counter o
  = ({| seed_seq := Some ss;
        cdata := (seed sba ent None counter
                    (Some (SArr (generate_state ss (Z.max (n (cdata o) * w (cdata o) / 128) 1))))
                    (cdata o)).1 |},
     (seed sba ent None counter
        (Some (SArr (generate_state ss (Z.max (n (cdata o) * w (cdata o) / 128) 1))))
        (cdata o)).2).
Proof. reflexivity. Qed.

(** X13.  [_seed_from_seq] on a constructed instance of a variant other than
    2x32, with a seed sequence whose [generate_state] returns the requested
    number of 64-bit words and a counter in range: the call records the seed
    sequence, succeeds, and the key of the instance is the generated words
    read at the width of the variant; the counter is the one given (0 when
    omitted) and the buffer is empty. *)
Theorem seed_from_seq_sets_key ss counter o cz :
  philox_inv (cdata o) ->
  (n (cdata o) = 2 -> w (cdata o) = 64) ->
  (forall k, words_of 64 k (generate_state ss k)) ->
  object_to_int counter (n (cdata o) * w (cdata o)) = Ok cz ->
  exists p',
    _seed_from_seq sba ent ss counter o = ({| seed_seq := Some ss; cdata := p' |}, Ok tt) /\
    state_get p'
    = (p', Ok {| d_bit_generator := Some "Philox"%string;
                 d_state :=
                   Some {| d_counter :=
                             Some (to_words (w (cdata o)) (Z.to_nat (n (cdata o))) (default 0 cz));
                           d_key :=
                             Some (let words :=
                                     generate_state ss (Z.max (n (cdata o) * w (cdata o) / 128) 1) in
                                   if w (cdata o) =? 64 then words else split32 words) |};
                 d_buffer := Some (repeat 0 (Z.to_nat (n (cdata o))));
                 d_buffer_pos := Some 4;
                 d_has_uint32 := Some 0;
                 d_uinteger := Some 0;
                 d_number := Some (n (cdata o));
                 d_width := Some (w (cdata o)) |}).
Proof.
  intros Hp Hnot Hss Ec.
  destruct (inv_supported _ Hp) as [HN HW].
  pose proof (inv_cells _ Hp) as Hcells.
  destruct Hp as [_ Hnum Hwid _].
  rewrite seed_from_seq_unfold.
  rewrite (seed_key_env sba ent repeat_seed zero_entropy).
  set (words := generate_state ss (Z.max (n (cdata o) * w (cdata o) / 128) 1)).
  assert (Hwords : words_of 64 (Z.max (n (cdata o) * w (cdata o) / 128) 1) words) by apply Hss.
  assert (Ek : object_to_int (Some (SArr words)) (n (cdata o) / 2 * w (cdata o))
               = Ok (Some (from_words 64 words)) /\
               to_words (w (cdata o)) (Z.to_nat (n (cdata o) / 2)) (from_words 64 words)
               = if w (cdata o) =? 64 then words else split32 words).
  { clearbody words. destruct Hwords as [Hl Hf]. revert Hl.
    destruct HN as [HN | HN], HW as [HW | HW]; rewrite HN, HW; try (specialize (Hnot HN); congruence).
    all: zlit; intros Hl.
    all: destruct words as [|x0 [|x1 [|]]]; try discriminate Hl.
    all: split_Forall.
    all: repeat match goal with
                | H : in_range 64 _ = true |- _ =>
                    let H' := fresh "R" in pose proof (proj1 (in_range_spec _ _) H) as H'; revert H
                end; intros.
    all: cbn [object_to_int forallb from_words to_words split32]; use_ranges; cbn [andb].
    all: rewrite ?Z.mul_0_r, ?Z.add_0_r.
    all: split;
      [ match goal with
        | |- (if in_range ?b ?v then _ else _) = _ =>
            replace (in_range b v) with true by (symmetry; apply in_range_spec; lia)
        end; reflexivity | ].
    - rewrite Z.mod_small by lia. reflexivity.
    - rewrite Z.land_ones, Z.shiftr_div_pow2 by lia.
      rewrite (Z.mod_small (x0 / 2 ^ 32)) by (split; [apply Z.div_pos; lia | apply Z.div_lt_upper_bound; lia]).
      reflexivity.
    - replace ((x0 + 2 ^ 64 * x1) mod 2 ^ 64) with x0
        by (apply (Z.mod_unique_pos _ _ x1); lia).
      replace ((x0 + 2 ^ 64 * x1) / 2 ^ 64) with x1
        by (apply (Z.div_unique_pos _ _ x1 x0); lia).
      rewrite (Z.mod_small x1) by lia. reflexivity. }
  destruct Ek as [Ek Ekw].
  destruct (seed_accepted_result repeat_seed zero_entropy zero_entropy_words repeat_seed_words
              None counter (Some (SArr words)) (cdata o) None (Some (from_words 64 words)) cz
              HN HW Hcells eq_refl Ek Ec eq_refl)
    as (kw & cw & Hkl & Hkr & Hcl & Hcr & Ekw' & Ecw & E).
  rewrite seed_key_words_key in Ekw'
    by first [assumption | eapply object_to_int_range; eassumption].
  rewrite Ekw in Ekw'.
  rewrite E. cbn [fst snd]. eexists. split; [reflexivity|].
  rewrite (seeded_snapshot kw cw (cdata o)) by assumption.
  rewrite Hnum, Hwid, Ekw', Ecw. reflexivity.
Qed.

(** X14.  On a 2x32 instance [_seed_from_seq] asks the seed sequence for one
    64-bit word and passes it as the 32-bit key: the call succeeds when the
    word is below 2^32, and raises [ValueError] - the seed sequence already
    recorded, the generator untouched - when it is not. *)
Theorem seed_from_seq_2x32_needs_small_word ss counter o x cz :
  philox_inv (cdata o) -> n (cdata o) = 2 -> w (cdata o) = 32 ->
  generate_state ss 1 = [x] -> in_range 64 x = true ->
  object_to_int counter 64 = Ok cz ->
  (in_range 32 x = true -> (_seed_from_seq sba ent ss counter o).2 = Ok tt) /\
  (in_range 32 x = false ->
   _seed_from_seq sba ent ss counter o
   = ({| seed_seq := Some ss; cdata := cdata o |}, Raise ValueError)).
Proof.
  intros Hp HN HW Hx Hx64 Ec.
  pose proof (inv_cells _ Hp) as Hcells.
  rewrite seed_from_seq_unfold.
  rewrite (seed_key_env sba ent repeat_seed zero_entropy).
  rewrite HN, HW. zlit. rewrite Hx.
  assert (Hs : n (cdata o) = 2 \/ n (cdata o) = 4) by (left; exact HN).
  assert (Hs' : w (cdata o) = 32 \/ w (cdata o) = 64) by (left; exact HW).
  split; intros Hr.
  - destruct (seed_accepted_result repeat_seed zero_entropy zero_entropy_words repeat_seed_words
                None counter (Some (SArr [x])) (cdata o) None (Some x) cz Hs Hs' Hcells)
      as (kw & cw & _ & _ & _ & _ & _ & _ & E).
    + reflexivity.
    + rewrite HN, HW. zlit. cbn [object_to_int forallb from_words]. rewrite Hx64. cbn [andb].
      rewrite Z.mul_0_r, Z.add_0_r, Hr. reflexivity.
    + rewrite HN, HW. zlit. exact Ec.
    + reflexivity.
    + rewrite E. reflexivity.
  - rewrite (seed_rejects repeat_seed zero_entropy None counter (Some (SArr [x])) (cdata o));
      [reflexivity|].
    unfold seed_accepts. rewrite HN, HW. zlit. cbn [object_to_int forallb from_words].
    rewrite Hx64. cbn [andb]. rewrite Z.mul_0_r, Z.add_0_r, Hr. reflexivity.
Qed.

End PhiloxSeedSeq.

(** * Philox: a dictionary the setter accepts is read back *)

Section PhiloxSetGet.

Import Philox.

Lemma lor_zero_cell z : Z.lor (Z.shiftl (Z.shiftr 0 32) 32) z = z.
Proof. reflexivity. Qed.

Ltac lists_of_length :=
  repeat match goal with
         | H : Z.of_nat (length ?l) = _ |- _ =>
             is_var l;
             destruct l as [|? [|? [|? [|? [|? ?]]]]]; cbn [length] in H; try lia; clear H
         end.

Ltac ranges_of_forallb :=
  repeat match goal with
         | H : forallb _ _ = true |- _ => cbn [forallb] in H
         | H : _ && _ = true |- _ => apply andb_true_iff in H as [? H]
         | H : true = true |- _ => clear H
         end.

Ltac crunch_head :=
  repeat (progress (cbn -[bind];
                    unfold Philox._reset_state_variables, for_range, Philox.PHILOX_BUFFER_SIZE,
                      Philox.store_u64, Philox.store_u32, Philox.store_ctr, Philox.store_key;
                    eval_to_nat; msteps;
                    rewrite ?as_uint_in_range by first [assumption | reflexivity];
                    use_ranges)).

Ltac head_step :=
  lazymatch goal with
  | |- (_, Raise _) = (_, Ok _) -> _ => intros; discriminate
  | |- bind (lift ?r) _ _ = _ -> _ =>
      lazymatch r with
      | Ok _ => rewrite bind_lift_Ok
      | Raise _ => rewrite bind_lift_Raise
      | subscript ?o => destruct o as [[]|]; cbn [subscript]
      | obind (subscript (_ ?s)) _ => destruct s; cbn [d_counter d_key]
      | obind (subscript ?o) _ => destruct o; cbn [subscript obind]
      | check_state_array ?a ?k ?bits =>
          let El := fresh "El" in let Ef := fresh "Ef" in
          unfold check_state_array at 1;
          destruct (Z.of_nat (length a) =? k) eqn:El;
            [ apply Z.eqb_eq in El; destruct (forallb (in_range bits) a) eqn:Ef | ];
          cbn [andb]; lists_of_length; ranges_of_forallb
      | as_int ?v =>
          let E := fresh "E" in unfold as_int at 1; destruct (fits_int v) eqn:E
      | as_uint 32 ?v =>
          let E := fresh "E" in unfold as_uint at 1; destruct (in_range 32 v) eqn:E
      end
  end.

(** X15.  When the setter accepts a dictionary of a supported variant, the
    instance is a constructed one again (its layout invariant holds and its
    table is the one of its variant), and the getter then returns that very
    dictionary - counter, key, buffer, cursor and leftover-half fields as
    supplied - with ['number'] and ['width'] filled in (4 and 64 where the
    dictionary had none). *)
Theorem accepted_dictionary_reads_back (d : state_dict) (b q : Philox) :
  philox_inv b ->
  (default 4 (d_number d) = 2 \/ default 4 (d_number d) = 4) ->
  (default 64 (d_width d) = 32 \/ default 64 (d_width d) = 64) ->
  state_set (PyDict d) b = (q, Ok tt) ->
  philox_inv q /\ state_get q = (q, Ok (with_variant d)).
Proof.
  intros Hb HN HW.
  pose proof (inv_cells b Hb) as (Hc & Hk & Hbl). clear Hb.
  destruct b as [[[ctr key] bp0 buf0 h0 u0 num0 wid0] n0 w0 B0]; cbn in Hc, Hk, Hbl.
  destruct ctr as [|c0' [|c1' [|c2' [|c3' [|]]]]]; try discriminate Hc.
  destruct key as [|k0' [|k1' [|]]]; try discriminate Hk.
  destruct buf0 as [|b0' [|b1' [|b2' [|b3' [|]]]]]; try discriminate Hbl.
  clear Hc Hk Hbl.
  destruct d as [tag st buf bp h u num wid]. unfold with_variant. cbn [d_number d_width] in *.
  unfold state_set.
  cbn [d_bit_generator d_state d_buffer d_buffer_pos d_has_uint32 d_uinteger d_number d_width].
  destruct (bool_decide (default ""%string tag = "Philox"%string)) eqn:Htag;
    [|intros; discriminate].
  apply bool_decide_eq_true in Htag.
  assert (tag = Some "Philox"%string) as ->.
  { destruct tag; cbn in Htag; [congruence | discriminate]. }
  clear Htag. cbn [negb].
  generalize dependent (default 4 num). generalize dependent (default 64 wid).
  intros W HW N HN.
  destruct HN as [-> | ->], HW as [-> | ->].
  all: rewrite !as_int_fits by reflexivity; msteps.
  all: unfold _setup_generator;
       repeat (progress (msteps; cbn [n w set_n set_w set_rng set_bitgen]; zlit; cbn [andb])).
  all: cbn [n w set_n set_w set_rng set_bitgen]; zlit.
  all: repeat head_step.
  all: repeat first [head_step | progress crunch_head].
  all: unfold modify; intros [= <-].
  all: split; [|unfold state_get; rewrite bind_get; crunch; reflexivity].
  all: split; [split | | |]; cbn; rewrite ?lor_zero_cell.
  all: try reflexivity; try assumption; auto.
  all: repeat constructor; assumption.
Qed.

End PhiloxSetGet.

(** * Philox: the shape of a snapshot *)

Section PhiloxSnapshotShape.

Import Philox.

(** X16.  On a constructed instance the getter returns normally and changes
    nothing; the counter and the buffer it returns have [number] words, the
    key [number/2], each below [2^width]; the counter and key are the words
    of the state block, and ['number'] and ['width'] are those of the
    instance. *)
Theorem snapshot_has_variant_shape (p : Philox) :
  philox_inv p ->
  exists ctr_words key_words buffer_words,
    state_get p
    = (p, Ok {| d_bit_generator := Some "Philox"%string;
                d_state := Some {| d_counter := Some ctr_words; d_key := Some key_words |};
                d_buffer := Some buffer_words;
                d_buffer_pos := Some (buffer_pos (rng_state p));
                d_has_uint32 := Some (has_uint32 (rng_state p));
                d_uinteger := Some (uinteger (rng_state p));
                d_number := Some (n p);
                d_width := Some (w p) |}) /\
    words_of (w p) (n p) ctr_words /\
    words_of (w p) (n p / 2) key_words /\
    words_of (w p) (n p) buffer_words /\
    ctr_words = take (Z.to_nat (n p)) (ctr (state (rng_state p))) /\
    key_words = take (Z.to_nat (n p / 2)) (key (state (rng_state p))) /\
    buffer_words = take (Z.to_nat (n p)) (buffer (rng_state p)).
Proof.
  intros Hp.
  destruct (inv_table_cases p Hp) as [(Hn & Hw & Hb) | [(Hn & Hw & Hb) | [(Hn & Hw & Hb) | (Hn & Hw & Hb)]]].
  all: destruct Hp as [Hl Hn' Hw' _].
  all: destruct p as [[[ctr key] bp buf h u num wid] n w B]; simpl in *; subst.
  all: destruct Hl as [_ _ Hc Hk Hbl Hcr Hkr Hbr Hb0 Hbp Hh Hu]; simpl in *.
  all: destruct ctr as [|c0 [|c1 [|c2 [|c3 [|]]]]]; try discriminate Hc.
  all: destruct key as [|k0 [|k1 [|]]]; try discriminate Hk.
  all: destruct buf as [|b0 [|b1 [|b2 [|b3 [|]]]]]; try discriminate Hbl.
  all: simpl in *; split_Forall; subst.
  all: do 3 eexists; split;
       [ unfold state_get; rewrite bind_get; crunch; reflexivity | ].
  all: unfold words_of; zlit; cbn [take length].
  all: repeat split; repeat constructor; assumption.
Qed.

End PhiloxSnapshotShape.

(** * Philox: [advance] in counter mode resets the buffer *)

Section PhiloxAdvanceBuffer.

Import Philox.

Variable C : philox_h.
Hypothesis HC : philox_h_ok C.

Lemma advance_counter_reset delta counter p :
  philox_inv p -> delta <> 0 -> counter <> Some false ->
  (advance C delta counter p).2 = Ok tt /\
  has_uint32 (rng_state (advance C delta counter p).1) = 0 /\
  uinteger (rng_state (advance C delta counter p).1) = 0 /\
  buffer_pos (rng_state (advance C delta counter p).1) = PHILOX_BUFFER_SIZE /\
  buffer (rng_state (advance C delta counter p).1) = [0; 0; 0; 0].
Proof.
  intros Hp Hd Hc.
  destruct (inv_supported p Hp) as [HN HW].
  destruct (advance_clears C delta counter p HN HW Hd) as (HOk & Hh & Hu).
  repeat (split; [assumption|]).
  pose proof (advance_preserves C HC (n p) (w p) (_bitgen p) delta counter p (inv_conf p Hp))
    as (Hl & _).
  destruct (advance C delta counter p) as [q r] eqn:E. cbn [fst snd] in *. subst r.
  assert (Hreset : exists s, _reset_state_variables s = (q, Ok tt)).
  { unfold advance in E. cbv zeta in E.
    destruct (Z.eqb_spec delta 0) as [|_]; [contradiction|].
    assert (default true counter = true) as Hct
      by (destruct counter as [[]|]; first [reflexivity | congruence]).
    rewrite Hct in E. inv_call E; eexists; exact E. }
  destruct Hreset as (s & Hs).
  destruct (reset_post s q Hs) as (_ & _ & Hbp & Hz).
  split; [exact Hbp|].
  destruct Hl as [_ _ _ _ Hbl _ _ _ _ _ _ _].
  destruct (buffer (rng_state q)) as [|b0 [|b1 [|b2 [|b3 [|]]]]]; try discriminate Hbl.
  rewrite (Hz 0%nat b0), (Hz 1%nat b1), (Hz 2%nat b2), (Hz 3%nat b3) by (reflexivity || lia).
  reflexivity.
Qed.

Lemma jump_stride_nonzero iter p :
  philox_inv p -> iter <> 0 -> iter * 2 ^ (w p * n p / 2) <> 0.
Proof.
  intros Hp Hi. destruct (inv_supported p Hp) as [HN HW].
  apply Z.neq_mul_0. split; [exact Hi|].
  apply Z.pow_nonzero; [lia|].
  destruct HN as [-> | ->], HW as [-> | ->]; discriminate.
Qed.

(** X17.  [advance(delta, counter)] with a non-zero [delta] and [counter]
    true or omitted, and [jump(iter)] with a non-zero [iter], return normally
    and end with every buffering field empty: [has_uint32] and [uinteger]
    are 0, [buffer_pos] is [PHILOX_BUFFER_SIZE] and the four buffer cells are
    zero. *)
Theorem advance_counter_mode_resets_buffer delta counter iter p :
  philox_inv p -> delta <> 0 -> counter <> Some false -> iter <> 0 ->
  ((advance C delta counter p).2 = Ok tt /\
   has_uint32 (rng_state (advance C delta counter p).1) = 0 /\
   uinteger (rng_state (advance C delta counter p).1) = 0 /\
   buffer_pos (rng_state (advance C delta counter p).1) = PHILOX_BUFFER_SIZE /\
   buffer (rng_state (advance C delta counter p).1) = [0; 0; 0; 0]) /\
  ((jump C iter p).2 = Ok tt /\
   has_uint32 (rng_state (jump C iter p).1) = 0 /\
   uinteger (rng_state (jump C iter p).1) = 0 /\
   buffer_pos (rng_state (jump C iter p).1) = PHILOX_BUFFER_SIZE /\
   buffer (rng_state (jump C iter p).1) = [0; 0; 0; 0]).
Proof.
  intros Hp Hd Hc Hi. split.
  - apply advance_counter_reset; assumption.
  - unfold jump. rewrite jump_inplace_eq.
    apply advance_counter_reset; [assumption | | discriminate].
    apply jump_stride_nonzero; assumption.
Qed.

Lemma copy_onto_inv p b : philox_inv p -> philox_cells b -> philox_inv (philox_copy_onto p b).
Proof.
  intros Hp (Hc' & Hk' & Hb').
  destruct (inv_table_cases p Hp) as [(Hn & Hw & Hb) | [(Hn & Hw & Hb) | [(Hn & Hw & Hb) | (Hn & Hw & Hb)]]].
  all: destruct Hp as [Hl Hn' Hw' Ht].
  all: destruct p as [[[ctr key] bp buf h u num wid] n w B]; simpl in *; subst.
  all: destruct b as [[[ctr' key'] bp' buf' h' u' num' wid'] n' w' B']; simpl in *.
  all: destruct Hl as [HN HW Hc Hk Hbl Hcr Hkr Hbr Hb0 Hbp Hh Hu]; simpl in *.
  all: destruct ctr as [|c0 [|c1 [|c2 [|c3 [|]]]]]; try discriminate Hc.
  all: destruct key as [|k0 [|k1 [|]]]; try discriminate Hk.
  all: destruct ctr' as [|c0' [|c1' [|c2' [|c3' [|]]]]]; try discriminate Hc'.
  all: destruct key' as [|k0' [|k1' [|]]]; try discriminate Hk'.
  all: simpl in *.
  all: split; [split | | |]; cbn; try reflexivity; try assumption.
Qed.

Variable sba : list Z -> Z -> list Z.

(** X25.  [jumped(iter)] of a constructed instance with a non-zero [iter]
    that fits [npy_intp]: the new instance has the variant and the function
    table of the caller - not those of the default-constructed instance it
    started as - and every buffering field empty. *)
Theorem jumped_has_caller_variant_and_empty_buffer
    ent (h : gmap positive Philox) self p b iter :
  h !! self = Some p -> philox_inv p ->
  __init__ sba ent None None None 4 64 blank = (b, Ok tt) ->
  fits_intp iter = true -> iter <> 0 ->
  exists q,
    jumped C sba ent self iter h = (<[fresh (dom h) := q]> h, Ok (fresh (dom h))) /\
    philox_shell q = philox_shell p /\
    has_uint32 (rng_state q) = 0 /\ uinteger (rng_state q) = 0 /\
    buffer_pos (rng_state q) = PHILOX_BUFFER_SIZE /\
    buffer (rng_state q) = [0; 0; 0; 0].
Proof.
  intros Hself Hp Hinit Hfit Hi.
  destruct (jumped_spec C sba ent h self p b iter Hself Hp Hinit Hfit)
    as (d & q0 & _ & _ & -> & _ & Hj).
  pose proof (inv_cells b (init_inv sba ent None None None 4 64 b Hinit)) as Hcells.
  pose proof (copy_onto_inv p b Hp Hcells) as Hq0.
  exists (jump_inplace C iter (philox_copy_onto p b)).1. split; [exact Hj|].
  rewrite jump_inplace_eq.
  destruct (advance_counter_reset (iter * 2 ^ (w (philox_copy_onto p b) * n (philox_copy_onto p b) / 2))
              (Some true) (philox_copy_onto p b) Hq0) as (_ & Hh & Hu & Hbp & Hbuf).
  { apply jump_stride_nonzero; assumption. }
  { discriminate. }
  repeat split; try assumption.
  change (philox_shell p) with (philox_shell (philox_copy_onto p b)).
  apply (advance_shell C (philox_shell (philox_copy_onto p b))). reflexivity.
Qed.

End PhiloxAdvanceBuffer.

(** * DSFMT: failures of [seed] and of the setter *)

Section DsfmtFailures.

Import DSFMT.

Variable C : dSFMT_h.

(** The three ways [seed] ends. *)
Lemma dsfmt_seed_cases ent s q :
  (exists f, seed C ent s q
             = (set_rng (set_buffer_loc DSFMT_N64) (set_rng (set_state f) q), Ok tt)) \/
  seed C ent s q = (q, Raise ValueError) \/
  seed C ent s q = (q, Raise TypeError).
Proof.
  unfold seed, _reset_state_variables.
  destruct s as [[idx|obj]|].
  - destruct ((idx >? 2 ^ 32 - 1) || (idx <? 0)).
    + right. left. reflexivity.
    + left. eexists. rewrite bind_modify. reflexivity.
  - destruct (negb (forallb fits_intp obj) || bool_decide (obj = [])).
    + right. right. reflexivity.
    + destruct (existsb _ obj).
      * right. left. reflexivity.
      * left. eexists. rewrite bind_modify. reflexivity.
  - left. eexists. rewrite bind_modify. reflexivity.
Qed.

(** X18.  [DSFMT.seed] raises nothing but [ValueError] (an integer or an
    array element outside [0, 2^32 - 1]) and [TypeError] (an array that
    cannot be cast safely to [int64], an empty one included), and when it
    raises the instance is left as it was: the checks come before the state
    block is initialised. *)
Theorem dsfmt_seed_failure_leaves_state ent s q q' e :
  seed C ent s q = (q', Raise e) ->
  q' = q /\ (e = ValueError \/ e = TypeError).
Proof.
  intros H.
  destruct (dsfmt_seed_cases ent s q) as [(f & E) | [E | E]]; rewrite E in H.
  - discriminate H.
  - injection H as <- <-. auto.
  - injection H as <- <-. auto.
Qed.

Lemma item_raises {A} (l : list A) i e : item l i = Raise e -> e = IndexError.
Proof. unfold item. destruct (l !! i); [discriminate | intros [= <-]; reflexivity]. Qed.

Lemma subscript_raises {A} (o : option A) e : subscript o = Raise e -> e = KeyError.
Proof. destruct o; [discriminate | intros [= <-]; reflexivity]. Qed.

Lemma as_int_raises v e : as_int v = Raise e -> e = OverflowError.
Proof. unfold as_int. destruct (fits_int v); [discriminate | intros [= <-]; reflexivity]. Qed.

Lemma as_uint_raises_overflow bits v e : as_uint bits v = Raise e -> e = OverflowError.
Proof. unfold as_uint. destruct (in_range bits v); [discriminate | intros [= <-]; reflexivity]. Qed.

Lemma obind_raises {A B} (P : exn -> Prop) (r : outcome A) (k : A -> outcome B) e :
  (forall e, r = Raise e -> P e) -> (forall a e, k a = Raise e -> P e) ->
  obind r k = Raise e -> P e.
Proof. intros Hr Hk. destruct r as [a|e1]; cbn; [apply Hk | intros [= <-]; apply Hr; reflexivity]. Qed.

Ltac late_leaf :=
  intros;
  repeat match goal with
         | H : item _ _ = Raise _ |- _ => apply item_raises in H; subst
         | H : subscript _ = Raise _ |- _ => apply subscript_raises in H; subst
         | H : as_int _ = Raise _ |- _ => apply as_int_raises in H; subst
         | H : as_uint _ _ = Raise _ |- _ => apply as_uint_raises_overflow in H; subst
         end;
  try (split; discriminate).

(** X19.  A [TypeError] or a [ValueError] raised by the DSFMT state setter
    (a value that is no dictionary, a foreign tag, a state array of the wrong
    length or with a word out of range) leaves the instance as it was. *)
Theorem dsfmt_setter_validation_error_leaves_state v q q' e :
  state_set v q = (q', Raise e) -> e = ValueError \/ e = TypeError -> q' = q.
Proof.
  intros H He. unfold state_set in H.
  destruct v as [d|]; [|unfold raise in H; injection H as <- _; reflexivity].
  cbv zeta in H.
  destruct (negb (bool_decide (default ""%string (d_bit_generator d) = "DSFMT"%string)));
    [unfold raise in H; injection H as <- _; reflexivity|].
  destruct (subscript (d_state d)) as [payload|e1] eqn:E1;
    [rewrite bind_lift_Ok in H | rewrite bind_lift_Raise in H; injection H as <- _; reflexivity].
  destruct (obind (subscript (d_state_state payload))
              (fun a => check_state_array a (2 * DSFMT_N_PLUS_1) 64)) as [arr|e2] eqn:E2;
    [rewrite bind_lift_Ok in H | rewrite bind_lift_Raise in H; injection H as <- _; reflexivity].
  exfalso. revert H.
  match goal with
  | |- ?M ?s0 = (_, Raise _) -> False =>
      cut (raises_only late_failure M);
      [ intros HM H; destruct (HM _ _ _ H) as [H1 H2]; destruct He; contradiction | ]
  end.
  apply raises_only_bind; [|intros _].
  { apply raises_only_for_range. intros i. apply raises_only_for_range. intros j.
    apply raises_only_bind; [|intros; apply raises_only_modify].
    apply raises_only_lift. intros e0. apply obind_raises; late_leaf. }
  apply raises_only_bind; [apply raises_only_lift; late_leaf | intros payload'].
  apply raises_only_bind; [|intros ix].
  { apply raises_only_lift. intros e0. apply obind_raises; late_leaf. }
  apply raises_only_bind; [apply raises_only_modify | intros _].
  apply raises_only_bind; [apply raises_only_lift; late_leaf | intros buffered].
  apply raises_only_bind; [|intros _].
  { apply raises_only_for_range. intros i.
    apply raises_only_bind; [|intros; apply raises_only_modify].
    apply raises_only_lift. late_leaf. }
  apply raises_only_bind; [|intros; apply raises_only_modify].
  apply raises_only_lift. intros e0. apply obind_raises; late_leaf.
Qed.

End DsfmtFailures.

(** * DSFMT: a dictionary the setter accepts is read back *)

Lemma insert_take_drop_gen (arr l : list Z) (k : nat) :
  (k < length arr)%nat -> (k < length l)%nat ->
  <[k := arr !!! k]> (take k arr ++ drop k l) = take (S k) arr ++ drop (S k) l.
Proof.
  intros Ha Hl.
  rewrite insert_app_r_alt by (rewrite length_take; lia).
  rewrite length_take. replace (k - k `min` length arr)%nat with 0%nat by lia.
  rewrite (drop_S l (l !!! k) k) by (apply list_lookup_lookup_total_lt; exact Hl).
  cbn [insert list_insert].
  rewrite (take_S_r arr k (arr !!! k)) by (apply list_lookup_lookup_total_lt; exact Ha).
  rewrite <- app_assoc. reflexivity.
Qed.

Lemma Forall_of_forallb {A} (f : A -> bool) (l : list A) :
  forallb f l = true -> Forall (fun x => f x = true) l.
Proof.
  induction l as [|x l IH]; cbn; [constructor|].
  intros H. apply andb_true_iff in H as [Hx Hl]. constructor; auto.
Qed.

Section DsfmtSetGet.

Import DSFMT.

Ltac raised H :=
  cbn [subscript obind andb d_state_state d_idx] in H;
  rewrite ?bind_lift_Raise in H; discriminate H.

Lemma buffered_loop_gen (arr : list Z) (s : DSFMT) (k : nat) :
  (k <= length arr)%nat -> (k <= length (buffered_uniforms (rng_state s)))%nat ->
  for_each (seq 0 k) (fun i =>
    v <- lift (item arr i) ;;
    modify (set_rng (set_buffered_uniforms (fun l => <[i := v]> l)))) s
  = (set_rng (set_buffered_uniforms (fun l => take k arr ++ drop k l)) s, Ok tt).
Proof.
  induction k as [|k IH]; intros Hk Hl.
  - simpl. unfold ret. destruct s as [[t h u b loc] tb]. reflexivity.
  - rewrite seq_S, for_each_app. rewrite (bind_Ok _ _ _ _ _ (IH ltac:(lia) ltac:(lia))).
    cbn [for_each Nat.add]. rewrite bind_assoc.
    rewrite item_lookup by lia. rewrite bind_lift_Ok, bind_modify. unfold ret.
    destruct s as [[t h u b loc] tb]. unfold set_rng, set_buffered_uniforms. simpl in *.
    rewrite insert_take_drop_gen by lia. reflexivity.
Qed.

Lemma buffered_loop_short (arr : list Z) (s : DSFMT) (k : nat) :
  (length arr < k)%nat -> (length arr <= length (buffered_uniforms (rng_state s)))%nat ->
  exists s',
    for_each (seq 0 k) (fun i =>
      v <- lift (item arr i) ;;
      modify (set_rng (set_buffered_uniforms (fun l => <[i := v]> l)))) s
    = (s', Raise IndexError).
Proof.
  intros Hk Hl.
  replace k with (length arr + S (k - S (length arr)))%nat by lia.
  rewrite seq_app, for_each_app.
  rewrite (bind_Ok _ _ _ _ _ (buffered_loop_gen arr s (length arr) ltac:(lia) Hl)).
  cbn [seq for_each Nat.add]. unfold item.
  rewrite (lookup_ge_None_2 arr (length arr)) by lia.
  rewrite !bind_assoc, bind_lift_Raise. eexists. reflexivity.
Qed.

(** X20.  When the DSFMT setter accepts a dictionary, the state block of the
    instance keeps its layout, and the getter then returns the state words,
    the index and the cursor of that dictionary and the first [DSFMT_N64] of
    its buffered uniforms (the setter reads no more). *)
Theorem dsfmt_accepted_dictionary_reads_back (d : state_dict) (b q : DSFMT) :
  dsfmt_ok b ->
  state_set (PyDict d) b = (q, Ok tt) ->
  dsfmt_ok q /\ state_get q = (q, Ok (dsfmt_as_read d)).
Proof.
  intros [[Hslen _ _] Hblen _] H.
  destruct d as [tag st loc buffered]. unfold dsfmt_as_read.
  unfold state_set in H. cbv zeta in H.
  cbn [d_bit_generator d_state d_buffer_loc d_buffered_uniforms] in *.
  destruct (bool_decide (default ""%string tag = "DSFMT"%string)) eqn:Htag;
    [|raised H].
  apply bool_decide_eq_true in Htag.
  assert (tag = Some "DSFMT"%string) as ->.
  { destruct tag; cbn in Htag; [congruence | discriminate]. }
  clear Htag. cbn [negb] in H.
  destruct st as [[sa ix]|]; [|raised H].
  cbn [subscript d_state_state d_idx] in H. rewrite bind_lift_Ok in H.
  destruct sa as [arr|]; [|raised H].
  cbn [subscript obind d_state_state d_idx] in H. unfold check_state_array in H.
  destruct (Z.of_nat (length arr) =? 2 * DSFMT_N_PLUS_1) eqn:El; [|raised H].
  destruct (forallb (in_range 64) arr) eqn:Ef; [|raised H].
  cbn [andb] in H. rewrite bind_lift_Ok in H.
  apply Z.eqb_eq in El. apply Forall_of_forallb in Ef.
  assert (Hal : length arr = 384%nat).
  { change (2 * DSFMT_N_PLUS_1) with 384 in El. lia. }
  change (Z.to_nat (2 * DSFMT_N_PLUS_1)) with 384%nat in Hslen.
  change (Z.to_nat DSFMT_N64) with 382%nat in Hblen.
  unfold for_range at 1 in H. change (Z.to_nat DSFMT_N_PLUS_1) with 192%nat in H.
  assert (H1 := status_loop arr b 192).
  rewrite (bind_Ok _ _ _ _ _ (H1 ltac:(congruence) Ef ltac:(rewrite Hal; apply le_n))) in H.
  clear H1. rewrite bind_lift_Ok in H.
  destruct ix as [ix|]; [|raised H].
  cbn [subscript obind d_state_state d_idx] in H. unfold as_int at 1 in H.
  destruct (fits_int ix) eqn:Eix; [|raised H].
  rewrite bind_lift_Ok, bind_modify in H.
  destruct buffered as [buf|]; [|raised H].
  cbn [subscript] in H. rewrite bind_lift_Ok in H.
  unfold for_range at 1 in H. change (Z.to_nat DSFMT_N64) with 382%nat in H.
  destruct (le_lt_dec 382 (length buf)) as [Hbuf | Hbuf].
  2:{ exfalso.
      match type of H with
      | bind _ _ ?s0 = _ =>
          destruct (buffered_loop_short buf s0 382 Hbuf) as (s' & Hs');
          [ destruct b as [[[st' ix'] h' u' bf' loc'] tb']; cbn in *; lia | ]
      end.
      unfold bind at 1 in H. rewrite Hs' in H. discriminate H. }
  match type of H with
  | bind _ _ ?s0 = _ => assert (H2 := buffered_loop_gen buf s0 382 Hbuf)
  end.
  rewrite (bind_Ok _ _ _ _ _ (H2 ltac:(destruct b as [[[st' ix'] h' u' bf' loc'] tb'];
                                         cbn in *; lia))) in H.
  clear H2.
  destruct loc as [loc|]; [|raised H].
  cbn [subscript obind] in H. unfold as_int at 1 in H.
  destruct (fits_int loc) eqn:Eloc; [|raised H].
  rewrite bind_lift_Ok in H. unfold modify in H. injection H as <-.
  destruct b as [[[st' ix'] h' u' bf' loc'] tb'].
  cbn [rng_state state status buffered_uniforms] in Hslen, Hblen.
  unfold set_rng, set_state, set_status, set_idx, set_buffered_uniforms, set_buffer_loc.
  cbn [rng_state state status idx buffered_uniforms buffer_loc _bitgen has_uint32 uinteger].
  change (2 * 192)%nat with 384%nat.
  rewrite (take_ge arr) by lia. rewrite (drop_ge st') by lia.
  rewrite (drop_ge bf') by lia. rewrite !app_nil_r.
  match goal with
  | |- dsfmt_ok ?q0 /\ _ => assert (Hq : dsfmt_ok q0)
  end.
  { repeat split; cbn [rng_state state status idx buffered_uniforms buffer_loc].
    all: change (Z.to_nat (2 * DSFMT_N_PLUS_1)) with 384%nat;
         change (Z.to_nat DSFMT_N64) with 382%nat.
    all: first [assumption | rewrite length_take; lia]. }
  split; [exact Hq|].
  rewrite dsfmt_state_get_eq by exact Hq. reflexivity.
Qed.

(** X21.  The snapshot of one DSFMT instance set on another: the setter
    accepts it, the target then reads back as that snapshot, and - the
    dictionary carrying neither [has_uint32] nor [uinteger] - the target
    keeps its own values of the two and its own function table. *)
Theorem dsfmt_restored_instance_reads_back (q b : DSFMT) :
  dsfmt_ok q -> dsfmt_ok b ->
  exists d q',
    state_get q = (q, Ok d) /\
    state_set (PyDict d) b = (q', Ok tt) /\
    state_get q' = (q', Ok d) /\
    has_uint32 (rng_state q') = has_uint32 (rng_state b) /\
    uinteger (rng_state q') = uinteger (rng_state b) /\
    _bitgen q' = _bitgen b.
Proof.
  intros Hq Hb.
  pose proof Hb as [[Hslen _ _] Hblen _].
  destruct (dsfmt_snapshot_copy q b Hq Hslen Hblen) as (d & Hget & Hset).
  exists d, (dsfmt_copy_onto q b). repeat split; try assumption.
  rewrite (dsfmt_state_get_eq q Hq) in Hget. injection Hget as <-.
  rewrite dsfmt_state_get_eq; [reflexivity|].
  destruct Hq as [Hst Hbl Hloc]. split; assumption.
Qed.

End DsfmtSetGet.

(** * DSFMT: construction *)

Section DsfmtInit.

Import DSFMT.

Variable C : dSFMT_h.

(** X22.  [DSFMT(seed)] either raises [ValueError] or [TypeError] (from
    [seed]) or returns normally; when it returns, the four entry points are
    bound to the DSFMT wrappers, the buffer of uniforms holds [DSFMT_N64]
    zeros with the cursor at its end, so that the first draw refills it, and
    the leftover-half fields are zero. *)
Theorem dsfmt_constructor_contract (mem : dsfmt_t) ent s :
  match __init__ C mem ent s blank with
  | (q, Ok _) =>
      _bitgen q = dsfmt_table /\
      buffer_loc (rng_state q) = DSFMT_N64 /\
      buffered_uniforms (rng_state q) = repeat 0 (Z.to_nat DSFMT_N64) /\
      has_uint32 (rng_state q) = 0 /\ uinteger (rng_state q) = 0
  | (q, Raise e) => e = ValueError \/ e = TypeError
  end.
Proof.
  unfold __init__. rewrite !bind_modify.
  match goal with
  | |- context [bind (seed C ent s) _ ?q0] =>
      unfold bind at 1;
      destruct (dsfmt_seed_cases C ent s q0) as [(f & E) | [E | E]]; rewrite E
  end.
  - unfold modify. repeat split.
  - left. reflexivity.
  - right. reflexivity.
Qed.

End DsfmtInit.

(** * Philox: [__repr__] *)

Section PhiloxRepr.

Import Philox.

Ltac app_cons :=
  repeat match goal with
         | |- context [String ?x ?a +:+ ?b] =>
             change (String x a +:+ b) with (String x (a +:+ b))
         | |- context [EmptyString +:+ ?b] => change (EmptyString +:+ b) with b
         end.

Lemma prefix_other (c : Ascii.ascii) (old' s' : string) (a : Ascii.ascii) :
  Ascii.eqb c a = false -> String.prefix (String a old') (String c s') = false.
Proof.
  intros H. cbn [String.prefix]. destruct (Ascii.ascii_dec a c) as [->|]; [|reflexivity].
  rewrite Ascii.eqb_refl in H. discriminate H.
Qed.

Lemma replace_lacks (new s : string) :
  lacks "P"%char s = true -> str_replace_from "Philox" new 0 s = s.
Proof.
  induction s as [|c s IH]; [reflexivity|].
  cbn [lacks]. intros H. apply andb_true_iff in H as [Hc Hs].
  apply negb_true_iff in Hc.
  cbn [str_replace_from]. rewrite (prefix_other c _ s "P"%char Hc). rewrite IH by exact Hs.
  reflexivity.
Qed.

Lemma replace_after (new pre rest : string) :
  lacks "P"%char pre = true ->
  str_replace_from "Philox" new 0 (pre +:+ rest)
  = pre +:+ str_replace_from "Philox" new 0 rest.
Proof.
  induction pre as [|c pre IH]; [reflexivity|].
  cbn [lacks]. intros H. apply andb_true_iff in H as [Hc Hs].
  apply negb_true_iff in Hc.
  app_cons. cbn [str_replace_from]. rewrite (prefix_other c _ _ "P"%char Hc).
  rewrite IH by exact Hs. reflexivity.
Qed.

Lemma replace_step_O (old new : string) (c : ascii) (s : string) :
  str_replace_from old new 0 (String c s)
  = if String.prefix old (String c s)
    then new +:+ str_replace_from old new (String.length old - 1) s
    else String c (str_replace_from old new 0 s).
Proof. reflexivity. Qed.

Lemma replace_step_S (old new : string) (k : nat) (c : ascii) (s : string) :
  str_replace_from old new (S k) (String c s) = str_replace_from old new k s.
Proof. reflexivity. Qed.

Lemma prefix_Philox (post : string) : String.prefix "Philox" ("Philox" +:+ post) = true.
Proof.
  apply String.prefix_correct. app_cons. cbn [String.length String.substring].
  destruct post; reflexivity.
Qed.

Lemma replace_occurrence (new post : string) :
  lacks "P"%char post = true ->
  str_replace_from "Philox" new 0 ("Philox" +:+ post) = new +:+ post.
Proof.
  intros Hpost.
  change ("Philox" +:+ post) with (String "P" ("hilox" +:+ post)) at 1.
  rewrite replace_step_O.
  change (String "P" ("hilox" +:+ post)) with ("Philox" +:+ post).
  rewrite prefix_Philox.
  change (String.length "Philox" - 1)%nat with 5%nat.
  app_cons. rewrite !replace_step_S.
  rewrite replace_lacks by exact Hpost. reflexivity.
Qed.

Lemma append_assoc (a b c : string) : (a +:+ b) +:+ c = a +:+ (b +:+ c).
Proof. induction a as [|x a IH]; app_cons; [reflexivity | rewrite IH; reflexivity]. Qed.

(** X23.  [repr] of an instance: when the class name is the one place where
    [object.__repr__] has a capital P - as in
    [<randomgen.philox.Philox object at 0x...>] - the result is that string
    with [ (NxW)] inserted after the class name, [N] and [W] the variant of
    the instance; the instance is not changed. *)
Theorem repr_shows_variant (pre post : string) (p : Philox) :
  lacks "P"%char pre = true -> lacks "P"%char post = true ->
  __repr__ (pre +:+ "Philox" +:+ post) p
  = (p, Ok (pre +:+ "Philox (" +:+ str (n p) +:+ "x" +:+ str (w p) +:+ ")" +:+ post)).
Proof.
  intros Hpre Hpost. unfold __repr__. rewrite bind_get. cbv zeta. unfold ret, str_replace.
  rewrite replace_after by exact Hpre.
  rewrite replace_occurrence by exact Hpost.
  rewrite !append_assoc. reflexivity.
Qed.

End PhiloxRepr.

(** * DSFMT: what [jumped] returns *)

Section DsfmtJumped.

Import DSFMT.

Variable C : dSFMT_h.
Hypothesis HC : dSFMT_h_ok C.

Lemma dsfmt_init_table mem ent s b :
  __init__ C mem ent s blank = (b, Ok tt) -> _bitgen b = dsfmt_table.
Proof.
  intros Hinit. unfold __init__ in Hinit. inv_call Hinit.
  unfold modify in Hinit. injection Hinit as <-. reflexivity.
Qed.

(** X26.  [DSFMT.jumped(iter)] for [0 <= iter < 2^31] returns a new instance
    whose buffer cursor is at [DSFMT_N64] - the buffered uniforms of the
    caller are not served again, also when [iter] is 0 - and whose entry
    points are the DSFMT wrappers. *)
Theorem dsfmt_jumped_resets_cursor mem ent (h : gmap positive DSFMT) self q iter :
  h !! self = Some q -> dsfmt_ok q -> dsfmt_t_layout mem ->
  0 <= iter -> fits_int iter = true ->
  exists q',
    jumped C mem ent self iter h = (<[fresh (dom h) := q']> h, Ok (fresh (dom h))) /\
    buffer_loc (rng_state q') = DSFMT_N64 /\
    _bitgen q' = dsfmt_table.
Proof.
  intros Hself Hq Hmem H0 Hfit.
  destruct (dsfmt_jumped_spec C HC mem ent h self q iter Hself Hq Hmem H0 Hfit)
    as (b & d & q0 & Hinit & _ & _ & -> & _ & Hj).
  eexists. split; [exact Hj|].
  rewrite dsfmt_jump_inplace_ok by assumption. cbn [fst].
  split; [reflexivity|].
  cbn [_bitgen set_rng dsfmt_copy_onto]. eapply dsfmt_init_table. exact Hinit.
Qed.

End DsfmtJumped.

(** * Runs on the concrete instances *)

Lemma philox_2x32_init :
  Philox.__init__ (fun _ _ => []) (fun _ => []) None None (Some (SInt 5)) 2 32 Philox.blank
  = (philox_2x32, Ok tt).
Proof. vm_compute. reflexivity. Qed.

Lemma philox_2x32_inv : philox_inv philox_2x32.
Proof. exact (init_inv _ _ _ _ _ _ _ _ philox_2x32_init). Qed.

Lemma philox_default_inv : philox_inv philox_default.
Proof. exact (init_inv _ _ _ _ _ _ _ _ philox_default_init). Qed.

Lemma dsfmt_default_ok : dsfmt_ok dsfmt_default.
Proof.
  apply (dsfmt_init_ok index_core index_core_ok stale_block zero_entropy None);
    [exact stale_block_layout | vm_compute; reflexivity].
Qed.

Lemma sevens_seq_words k : words_of 64 k (Philox.generate_state sevens_seq k).
Proof. split; [apply repeat_length | apply Forall_repeat; reflexivity]. Qed.

(** A run of X5: the raw draw of [Philox(key=5, number=2, width=32)] is its
    32-bit draw. *)
Lemma next_raw_follows_width_witness :
  Philox.draw counter_core Philox.e_next_raw philox_2x32
  = Philox.draw counter_core Philox.e_next_uint32 philox_2x32.
Proof.
  apply (proj1 (next_raw_follows_width counter_core philox_2x32 philox_2x32_inv)).
  reflexivity.
Defined.

(** A run of X6 on [Philox(1234)] and [DSFMT(1234)]. *)
Lemma reachable_tables_are_bound_witness :
  Philox._bitgen philox_1234 = philox_table (Philox.n philox_1234) (Philox.w philox_1234) /\
  DSFMT._bitgen dsfmt_1234 = dsfmt_table /\
  (forall e, is_Some (Philox.draw counter_core e philox_1234)) /\
  (forall e, is_Some (DSFMT.draw index_core e dsfmt_1234)).
Proof.
  exact (reachable_tables_are_bound counter_core repeat_seed philox_1234 index_core dsfmt_1234
           counter_core_ok philox_1234_reachable dsfmt_1234_reachable).
Defined.

(** A run of X7: [jump(0)] and [jumped(0)] on [Philox(1234)]. *)
Lemma jump_zero_changes_nothing_witness :
  Philox.jump counter_core 0 philox_1234 = (philox_1234, Ok tt) /\
  Philox.jumped counter_core repeat_seed zero_entropy 1 0 {[1%positive := philox_1234]}
  = (<[fresh (dom ({[1%positive := philox_1234]} : gmap positive Philox.Philox)) :=
         philox_copy_onto philox_1234 philox_default]> {[1%positive := philox_1234]},
     Ok (fresh (dom ({[1%positive := philox_1234]} : gmap positive Philox.Philox)))).
Proof.
  exact (jump_zero_changes_nothing counter_core repeat_seed zero_entropy
           {[1%positive := philox_1234]} 1 philox_1234 philox_default
           (lookup_singleton_eq _ _) philox_1234_inv philox_default_init).
Defined.

(** A run of X9: [seed(2**200)] on [Philox(1234)] is rejected. *)
Lemma seed_returns_or_rejects_witness :
  Philox.seed repeat_seed zero_entropy (Some (SInt (2 ^ 200))) None None philox_1234
  = if seed_accepts (Philox.n philox_1234) (Philox.w philox_1234)
         (Some (SInt (2 ^ 200))) None None
    then ((Philox.seed repeat_seed zero_entropy (Some (SInt (2 ^ 200))) None None
             philox_1234).1, Ok tt)
    else (philox_1234, Raise ValueError).
Proof.
  apply (seed_returns_or_rejects repeat_seed zero_entropy zero_entropy_words repeat_seed_words
           (Some (SInt (2 ^ 200))) None None philox_1234).
  - right. reflexivity.
  - right. reflexivity.
  - repeat split.
Defined.

(** A run of X10: [Philox(key=5)]. *)
Lemma keyed_construction_snapshot_witness :
  exists p,
    Philox.__init__ repeat_seed zero_entropy None None (Some (SInt 5)) 4 64 Philox.blank
    = (p, Ok tt) /\
    Philox.state_get p
    = (p, Ok {| Philox.d_bit_generator := Some "Philox"%string;
                Philox.d_state :=
                  Some {| Philox.d_counter := Some (to_words 64 (Z.to_nat 4) (default 0 None));
                          Philox.d_key := Some (to_words 64 (Z.to_nat (4 / 2)) 5) |};
                Philox.d_buffer := Some (repeat 0 (Z.to_nat 4));
                Philox.d_buffer_pos := Some 4;
                Philox.d_has_uint32 := Some 0;
                Philox.d_uinteger := Some 0;
                Philox.d_number := Some 4;
                Philox.d_width := Some 64 |}).
Proof.
  apply (keyed_construction_snapshot repeat_seed zero_entropy None (SInt 5) 4 64 5 None).
  - right. reflexivity.
  - right. reflexivity.
  - reflexivity.
  - reflexivity.
Defined.

(** A run of X11: [seed(99)] on [Philox(1234)] and on [Philox()]. *)
Lemma seeding_erases_history_witness :
  (Philox.seed repeat_seed zero_entropy (Some (SInt 99)) None None philox_default).2
  = (Philox.seed repeat_seed zero_entropy (Some (SInt 99)) None None philox_1234).2 /\
  ((Philox.seed repeat_seed zero_entropy (Some (SInt 99)) None None philox_1234).2 = Ok tt ->
   exists d,
     Philox.state_get
       (Philox.seed repeat_seed zero_entropy (Some (SInt 99)) None None philox_1234).1
     = ((Philox.seed repeat_seed zero_entropy (Some (SInt 99)) None None philox_1234).1, Ok d) /\
     Philox.state_get
       (Philox.seed repeat_seed zero_entropy (Some (SInt 99)) None None philox_default).1
     = ((Philox.seed repeat_seed zero_entropy (Some (SInt 99)) None None philox_default).1,
        Ok d)).
Proof.
  apply (seeding_erases_history repeat_seed zero_entropy zero_entropy_words repeat_seed_words
           (Some (SInt 99)) None None philox_1234 philox_default
           philox_1234_inv philox_default_inv).
  - reflexivity.
  - reflexivity.
Defined.

(** A run of X12: [Philox(1234)]. *)
Lemma constructor_accepts_or_rejects_witness :
  if supported_variant 4 64 && seed_accepts 4 64 (Some (SInt 1234)) None None
  then (Philox.__init__ repeat_seed zero_entropy (Some (SInt 1234)) None None 4 64
          Philox.blank).2 = Ok tt /\
       philox_inv (Philox.__init__ repeat_seed zero_entropy (Some (SInt 1234)) None None 4 64
                     Philox.blank).1 /\
       Philox.n (Philox.__init__ repeat_seed zero_entropy (Some (SInt 1234)) None None 4 64
                   Philox.blank).1 = 4 /\
       Philox.w (Philox.__init__ repeat_seed zero_entropy (Some (SInt 1234)) None None 4 64
                   Philox.blank).1 = 64 /\
       Philox._bitgen (Philox.__init__ repeat_seed zero_entropy (Some (SInt 1234)) None None
                         4 64 Philox.blank).1 = philox_table 4 64
  else (Philox.__init__ repeat_seed zero_entropy (Some (SInt 1234)) None None 4 64
          Philox.blank).2 = Raise ValueError.
Proof.
  exact (constructor_accepts_or_rejects repeat_seed zero_entropy zero_entropy_words
           repeat_seed_words (Some (SInt 1234)) None None 4 64).
Defined.

(** A run of X13: [Philox(1234)] re-seeded from a seed sequence. *)
Lemma seed_from_seq_sets_key_witness :
  exists p',
    Philox._seed_from_seq repeat_seed zero_entropy sevens_seq None philox_1234_object
    = ({| Philox.seed_seq := Some sevens_seq; Philox.cdata := p' |}, Ok tt) /\
    Philox.state_get p'
    = (p', Ok {| Philox.d_bit_generator := Some "Philox"%string;
                 Philox.d_state :=
                   Some {| Philox.d_counter :=
                             Some (to_words (Philox.w (Philox.cdata philox_1234_object))
                                     (Z.to_nat (Philox.n (Philox.cdata philox_1234_object)))
                                     (default 0 None));
                           Philox.d_key :=
                             Some (let words :=
                                     Philox.generate_state sevens_seq
                                       (Z.max (Philox.n (Philox.cdata philox_1234_object)
                                               * Philox.w (Philox.cdata philox_1234_object)
                                               / 128) 1) in
                                   if Philox.w (Philox.cdata philox_1234_object) =? 64
                                   then words else split32 words) |};
                 Philox.d_buffer :=
                   Some (repeat 0 (Z.to_nat (Philox.n (Philox.cdata philox_1234_object))));
                 Philox.d_buffer_pos := Some 4;
                 Philox.d_has_uint32 := Some 0;
                 Philox.d_uinteger := Some 0;
                 Philox.d_number := Some (Philox.n (Philox.cdata philox_1234_object));
                 Philox.d_width := Some (Philox.w (Philox.cdata philox_1234_object)) |}).
Proof.
  apply (seed_from_seq_sets_key repeat_seed zero_entropy sevens_seq None
           philox_1234_object None).
  - exact philox_1234_inv.
  - intros H. vm_compute in H. discriminate H.
  - exact sevens_seq_words.
  - reflexivity.
Defined.

(** A run of X14: a 2x32 instance and a seed sequence of 41-bit words. *)
Lemma seed_from_seq_2x32_needs_small_word_witness :
  Philox._seed_from_seq repeat_seed zero_entropy wide_seq None philox_2x32_object
  = ({| Philox.seed_seq := Some wide_seq; Philox.cdata := Philox.cdata philox_2x32_object |},
     Raise ValueError).
Proof.
  apply (proj2 (seed_from_seq_2x32_needs_small_word repeat_seed zero_entropy wide_seq None
                  philox_2x32_object (2 ^ 40) None
                  philox_2x32_inv eq_refl eq_refl eq_refl eq_refl eq_refl)).
  reflexivity.
Defined.

(** A run of X15: a dictionary of a previous version set on a 2x32
    instance. *)
Lemma accepted_dictionary_reads_back_witness :
  philox_inv (Philox.state_set (PyDict legacy_dict) philox_2x32).1 /\
  Philox.state_get (Philox.state_set (PyDict legacy_dict) philox_2x32).1
  = ((Philox.state_set (PyDict legacy_dict) philox_2x32).1, Ok (with_variant legacy_dict)).
Proof.
  apply (accepted_dictionary_reads_back legacy_dict philox_2x32
           (Philox.state_set (PyDict legacy_dict) philox_2x32).1 philox_2x32_inv).
  - right. reflexivity.
  - right. reflexivity.
  - vm_compute. reflexivity.
Defined.

(** A run of X16 on [Philox(1234)]. *)
Lemma snapshot_has_variant_shape_witness :
  exists ctr_words key_words buffer_words,
    Philox.state_get philox_1234
    = (philox_1234,
       Ok {| Philox.d_bit_generator := Some "Philox"%string;
             Philox.d_state := Some {| Philox.d_counter := Some ctr_words;
                                       Philox.d_key := Some key_words |};
             Philox.d_buffer := Some buffer_words;
             Philox.d_buffer_pos := Some (Philox.buffer_pos (Philox.rng_state philox_1234));
             Philox.d_has_uint32 := Some (Philox.has_uint32 (Philox.rng_state philox_1234));
             Philox.d_uinteger := Some (Philox.uinteger (Philox.rng_state philox_1234));
             Philox.d_number := Some (Philox.n philox_1234);
             Philox.d_width := Some (Philox.w philox_1234) |}) /\
    words_of (Philox.w philox_1234) (Philox.n philox_1234) ctr_words /\
    words_of (Philox.w philox_1234) (Philox.n philox_1234 / 2) key_words /\
    words_of (Philox.w philox_1234) (Philox.n philox_1234) buffer_words /\
    ctr_words = take (Z.to_nat (Philox.n philox_1234))
                  (Philox.ctr (Philox.state (Philox.rng_state philox_1234))) /\
    key_words = take (Z.to_nat (Philox.n philox_1234 / 2))
                  (Philox.key (Philox.state (Philox.rng_state philox_1234))) /\
    buffer_words = take (Z.to_nat (Philox.n philox_1234))
                     (Philox.buffer (Philox.rng_state philox_1234)).
Proof. exact (snapshot_has_variant_shape philox_1234 philox_1234_inv). Defined.

(** A run of X17: [advance(3)] and [jump(2)] on [Philox(1234)]. *)
Lemma advance_counter_mode_resets_buffer_witness :
  ((Philox.advance counter_core 3 None philox_1234).2 = Ok tt /\
   Philox.has_uint32 (Philox.rng_state (Philox.advance counter_core 3 None philox_1234).1) = 0 /\
   Philox.uinteger (Philox.rng_state (Philox.advance counter_core 3 None philox_1234).1) = 0 /\
   Philox.buffer_pos (Philox.rng_state (Philox.advance counter_core 3 None philox_1234).1)
   = Philox.PHILOX_BUFFER_SIZE /\
   Philox.buffer (Philox.rng_state (Philox.advance counter_core 3 None philox_1234).1)
   = [0; 0; 0; 0]) /\
  ((Philox.jump counter_core 2 philox_1234).2 = Ok tt /\
   Philox.has_uint32 (Philox.rng_state (Philox.jump counter_core 2 philox_1234).1) = 0 /\
   Philox.uinteger (Philox.rng_state (Philox.jump counter_core 2 philox_1234).1) = 0 /\
   Philox.buffer_pos (Philox.rng_state (Philox.jump counter_core 2 philox_1234).1)
   = Philox.PHILOX_BUFFER_SIZE /\
   Philox.buffer (Philox.rng_state (Philox.jump counter_core 2 philox_1234).1)
   = [0; 0; 0; 0]).
Proof.
  apply (advance_counter_mode_resets_buffer counter_core counter_core_ok 3 None 2 philox_1234
           philox_1234_inv).
  - lia.
  - discriminate.
  - lia.
Defined.

(** A run of X18: [seed(-1)] on [DSFMT(1234)]. *)
Lemma dsfmt_seed_failure_leaves_state_witness :
  (DSFMT.seed index_core zero_entropy (Some (SInt (-1))) dsfmt_1234).1 = dsfmt_1234 /\
  (ValueError = ValueError \/ ValueError = TypeError).
Proof.
  apply (dsfmt_seed_failure_leaves_state index_core zero_entropy (Some (SInt (-1)))
           dsfmt_1234).
  reflexivity.
Defined.

(** A run of X19: a dictionary with ten state words set on [DSFMT(1234)]. *)
Lemma dsfmt_setter_validation_error_leaves_state_witness :
  (DSFMT.state_set (PyDict short_state_dict) dsfmt_1234).1 = dsfmt_1234.
Proof.
  apply (dsfmt_setter_validation_error_leaves_state (PyDict short_state_dict) dsfmt_1234
           (DSFMT.state_set (PyDict short_state_dict) dsfmt_1234).1 ValueError).
  - vm_compute. reflexivity.
  - left. reflexivity.
Defined.

(** A run of X20: a dictionary with 400 buffered uniforms set on
    [DSFMT(1234)]. *)
Lemma dsfmt_accepted_dictionary_reads_back_witness :
  dsfmt_ok (DSFMT.state_set (PyDict long_buffer_dict) dsfmt_1234).1 /\
  DSFMT.state_get (DSFMT.state_set (PyDict long_buffer_dict) dsfmt_1234).1
  = ((DSFMT.state_set (PyDict long_buffer_dict) dsfmt_1234).1,
     Ok (dsfmt_as_read long_buffer_dict)).
Proof.
  apply (dsfmt_accepted_dictionary_reads_back long_buffer_dict dsfmt_1234
           (DSFMT.state_set (PyDict long_buffer_dict) dsfmt_1234).1 dsfmt_1234_ok).
  vm_compute. reflexivity.
Defined.

(** A run of X21: the snapshot of [DSFMT(1234)] set on [DSFMT()]. *)
Lemma dsfmt_restored_instance_reads_back_witness :
  exists d q',
    DSFMT.state_get dsfmt_1234 = (dsfmt_1234, Ok d) /\
    DSFMT.state_set (PyDict d) dsfmt_default = (q', Ok tt) /\
    DSFMT.state_get q' = (q', Ok d) /\
    DSFMT.has_uint32 (DSFMT.rng_state q') = DSFMT.has_uint32 (DSFMT.rng_state dsfmt_default) /\
    DSFMT.uinteger (DSFMT.rng_state q') = DSFMT.uinteger (DSFMT.rng_state dsfmt_default) /\
    DSFMT._bitgen q' = DSFMT._bitgen dsfmt_default.
Proof.
  exact (dsfmt_restored_instance_reads_back dsfmt_1234 dsfmt_default dsfmt_1234_ok
           dsfmt_default_ok).
Defined.

(** A run of X23: [repr(Philox(key=5, number=2, width=32))]. *)
Lemma repr_shows_variant_witness :
  Philox.__repr__ ("<randomgen.philox." +:+ "Philox" +:+ " object at 0x7f3a>") philox_2x32
  = (philox_2x32,
     Ok ("<randomgen.philox." +:+ "Philox (" +:+ str (Philox.n philox_2x32) +:+ "x"
         +:+ str (Philox.w philox_2x32) +:+ ")" +:+ " object at 0x7f3a>")).
Proof.
  apply (repr_shows_variant "<randomgen.philox." " object at 0x7f3a>" philox_2x32).
  - reflexivity.
  - reflexivity.
Defined.

(** A run of X24: [seed(99)], no counter, on [Philox(1234)]. *)
Lemma seed_sets_counter_words_witness :
  take (Z.to_nat (Philox.n philox_1234))
    (Philox.ctr (Philox.state (Philox.rng_state
       (Philox.seed repeat_seed zero_entropy (Some (SInt 99)) None None philox_1234).1)))
  = repeat 0 (Z.to_nat (Philox.n philox_1234)).
Proof.
  apply (seed_sets_counter_words repeat_seed zero_entropy zero_entropy_words repeat_seed_words
           (Some (SInt 99)) None None philox_1234
           (Philox.seed repeat_seed zero_entropy (Some (SInt 99)) None None philox_1234).1
           None philox_1234_inv).
  - reflexivity.
  - vm_compute. reflexivity.
  - reflexivity.
Defined.

(** A run of X25: [jumped(2)] of the 2x32 instance. *)
Lemma jumped_has_caller_variant_and_empty_buffer_witness :
  exists q,
    Philox.jumped counter_core repeat_seed zero_entropy 1 2 {[1%positive := philox_2x32]}
    = (<[fresh (dom ({[1%positive := philox_2x32]} : gmap positive Philox.Philox)) := q]>
         {[1%positive := philox_2x32]},
       Ok (fresh (dom ({[1%positive := philox_2x32]} : gmap positive Philox.Philox)))) /\
    philox_shell q = philox_shell philox_2x32 /\
    Philox.has_uint32 (Philox.rng_state q) = 0 /\ Philox.uinteger (Philox.rng_state q) = 0 /\
    Philox.buffer_pos (Philox.rng_state q) = Philox.PHILOX_BUFFER_SIZE /\
    Philox.buffer (Philox.rng_state q) = [0; 0; 0; 0].
Proof.
  apply (jumped_has_caller_variant_and_empty_buffer counter_core counter_core_ok repeat_seed
           zero_entropy {[1%positive := philox_2x32]} 1 philox_2x32 philox_default 2
           (lookup_singleton_eq _ _) philox_2x32_inv philox_default_init).
  - reflexivity.
  - lia.
Defined.

(** A run of X26: [jumped(0)] of [DSFMT(1234)]. *)
Lemma dsfmt_jumped_resets_cursor_witness :
  exists q',
    DSFMT.jumped index_core stale_block zero_entropy 1 0 {[1%positive := dsfmt_1234]}
    = (<[fresh (dom ({[1%positive := dsfmt_1234]} : gmap positive DSFMT.DSFMT)) := q']>
         {[1%positive := dsfmt_1234]},
       Ok (fresh (dom ({[1%positive := dsfmt_1234]} : gmap positive DSFMT.DSFMT)))) /\
    DSFMT.buffer_loc (DSFMT.rng_state q') = DSFMT.DSFMT_N64 /\
    DSFMT._bitgen q' = dsfmt_table.
Proof.
  apply (dsfmt_jumped_resets_cursor index_core index_core_ok stale_block zero_entropy
           {[1%positive := dsfmt_1234]} 1 dsfmt_1234 0
           (lookup_singleton_eq _ _) dsfmt_1234_ok stale_block_layout).
  - lia.
  - reflexivity.
Defined.
